(** * CSJ input-data readers: [read_htk] (single cohort and per gender)

    A shallow embedding of
      - [src/src/csj/inputs/input_data.py]  (module [Single]: one global
        cohort, [read_htk] and [sqrt_sum]),
      - [src/csj/inputs/input_data.py]      (module [Gender]: one cohort per
        gender, [read_htk]),
    together with the properties of the segmentation-and-statistics engine
    that the design document states about them.

    Conventions of the embedding.
      - A 1-D [ndarray] is a [list] of scalars, a 2-D [ndarray] the list of
        its rows.  Scalars are kept abstract behind the class [Scalar]
        (numpy's arithmetic at the dtype of the array); [binary64] is the
        instance for [np.float64], on Rocq's primitive IEEE-754 floats.
      - A Python 3 [str] is held as the bytes of its UTF-8 encoding, in a
        [string]; [PyStr.chars] cuts it into its characters, and indexing
        and white space go by character.
      - A Python [dict] is an association list in insertion order.
      - Python exceptions are the values of [exn]; the calls that write to
        disk ([np.save], [mkdir], [pickle.dump]) append to an I/O log, which
        is threaded through the monad [M] and survives a raise. *)

From Stdlib Require Import List String Ascii Bool Arith NArith ZArith Lia.
From Stdlib Require Import PrimFloat Uint63 SpecFloat FloatOps FloatAxioms.
From Stdlib Require Import Sorted Permutation.
Import ListNotations.

Set Implicit Arguments.
Local Open Scope string_scope.
Local Open Scope list_scope.

(* ------------------------------------------------------------------ *)
(** ** Python strings and paths *)

Module PyStr.

(** [s.split(sep)] for a separator of the ASCII range, which is one byte
    and is part of no other character: the pieces between the occurrences
    of [sep]; never empty. *)
Fixpoint split (sep : ascii) (s : string) : list string :=
  match s with
  | EmptyString => [EmptyString]
  | String c rest =>
      if Ascii.eqb c sep then EmptyString :: split sep rest
      else match split sep rest with
           | [] => [String c EmptyString]
           | piece :: pieces => String c piece :: pieces
           end
  end.

(** [sep.join(pieces)] *)
Fixpoint join (sep : string) (pieces : list string) : string :=
  match pieces with
  | [] => EmptyString
  | [p] => p
  | p :: rest => p ++ sep ++ join sep rest
  end.

(** The value of a byte. *)
Definition byte (c : ascii) : N := Ascii.N_of_ascii c.

(** A byte [10xxxxxx], which continues a character. *)
Definition continuation (c : ascii) : bool :=
  (128 <=? byte c)%N && (byte c <? 192)%N.

(** The number of continuation bytes that the first byte of a character
    announces: none after an ASCII byte, one to three after [110xxxxx],
    [1110xxxx] and [11110xxx]. *)
Definition following (c : ascii) : nat :=
  if (byte c <? 192)%N then 0
  else if (byte c <? 224)%N then 1
  else if (byte c <? 240)%N then 2
  else if (byte c <? 248)%N then 3
  else 0.

(** [ord(ch)] for the bytes [ch] of one character. A byte that belongs to
    no well-formed sequence is a character of its own, with the lone
    surrogate U+DC80 to U+DCFF for its code point, as [os.fsdecode] reads
    it in a file name. *)
Definition code_point (ch : string) : N :=
  match ch with
  | String a EmptyString =>
      if (byte a <? 128)%N then byte a else (56320 + byte a)%N
  | String a (String b EmptyString) =>
      ((byte a - 192) * 64 + (byte b - 128))%N
  | String a (String b (String c EmptyString)) =>
      ((byte a - 224) * 4096 + (byte b - 128) * 64 + (byte c - 128))%N
  | String a (String b (String c (String d EmptyString))) =>
      ((byte a - 240) * 262144 + (byte b - 128) * 4096
       + (byte c - 128) * 64 + (byte d - 128))%N
  | _ => 0%N
  end.

(** A first byte with its continuation bytes is the encoding of a code
    point when it is the shortest one, and the code point is no surrogate
    (U+D800 to U+DFFF) and at most U+10FFFF. *)
Definition well_formed (ch : string) : bool :=
  let cp := code_point ch in
  match String.length ch with
  | 2 => (128 <=? cp)%N
  | 3 => (2048 <=? cp)%N && negb ((55296 <=? cp)%N && (cp <=? 57343)%N)
  | 4 => (65536 <=? cp)%N && (cp <=? 1114111)%N
  | _ => false
  end.

(** The [k] continuation bytes that [s] begins with, and what follows
    them. *)
Fixpoint continuations (k : nat) (s : string) : option (string * string) :=
  match k with
  | 0 => Some (EmptyString, s)
  | S k' =>
      match s with
      | String b rest =>
          if continuation b then
            match continuations k' rest with
            | Some (bytes, rest') => Some (String b bytes, rest')
            | None => None
            end
          else None
      | EmptyString => None
      end
  end.

(** The first character of [String c rest], and what follows it. *)
Definition first_char (c : ascii) (rest : string) : string * string :=
  match continuations (following c) rest with
  | Some (bytes, rest') =>
      if well_formed (String c bytes) then (String c bytes, rest')
      else (String c EmptyString, rest)
  | None => (String c EmptyString, rest)
  end.

(** At most [n] characters from the front of [s]. *)
Fixpoint chars_upto (n : nat) (s : string) : list string :=
  match n, s with
  | S n', String c rest =>
      let (ch, rest') := first_char c rest in ch :: chars_upto n' rest'
  | _, _ => []
  end.

(** [list(s)]: the characters of [s], each a [str] of length 1. There are
    no more of them than bytes. *)
Definition chars (s : string) : list string :=
  chars_upto (String.length s) s.

(** [s[i]], [None] standing for [IndexError]. *)
Definition index (s : string) (i : nat) : option string :=
  List.nth_error (chars s) i.

(** The [str] whose UTF-8 encoding is [bytes]. *)
Definition utf8 (bytes : list nat) : string :=
  List.fold_right (fun n s => String (Ascii.ascii_of_nat n) s) EmptyString
                  bytes.

(** The last byte of [s], which is its last character when it is of the
    ASCII range. *)
Fixpoint last_char (s : string) : option ascii :=
  match s with
  | EmptyString => None
  | String c EmptyString => Some c
  | String _ rest => last_char rest
  end.

(** [os.path.basename(p)]: what follows the last slash. *)
Definition basename (p : string) : string :=
  List.last (split "/" p) EmptyString.

(** [os.path.join(a, b)] on POSIX. *)
Definition path_join (a b : string) : string :=
  match b with
  | String "/" _ => b
  | _ => match last_char a with
         | None => b
         | Some "/"%char => a ++ b
         | Some _ => a ++ "/" ++ b
         end
  end.

(** ['/'.join(p.split('/')[:-1])]: the path without its last component. *)
Definition parent (p : string) : string :=
  join "/" (List.removelast (split "/" p)).

(** [os.path.basename(htk_path).split('.')[0]] *)
Definition speaker_of_path (htk_path : string) : string :=
  List.hd EmptyString (split "." (basename htk_path)).

End PyStr.

(* ------------------------------------------------------------------ *)
(** ** Scalars and arrays *)

(** The arithmetic numpy performs on one element. [fsq] is
    [np.power(x, 2)], [fpow_half] is [np.power(x, 0.5)], [of_count] is
    [float(n)] for a frame count. *)
Class Scalar (F : Type) : Type := {
  f0 : F;
  fadd : F -> F -> F;
  fsub : F -> F -> F;
  fdiv : F -> F -> F;
  fsq : F -> F;
  fpow_half : F -> F;
  of_count : nat -> F
}.

(** [np.float64]: IEEE-754 binary64, round to nearest even. The two powers
    are taken as the correctly rounded square and square root. *)
#[export] Instance binary64 : Scalar float := {
  f0 := 0%float;
  fadd := PrimFloat.add;
  fsub := PrimFloat.sub;
  fdiv := PrimFloat.div;
  fsq := fun x => PrimFloat.mul x x;
  fpow_half := PrimFloat.sqrt;
  of_count := fun n => PrimFloat.of_uint63 (Uint63.of_Z (Z.of_nat n))
}.

(** A binary64 value that is not a finite number: a NaN or an infinity. *)
Definition non_finite (x : float) : Prop :=
  match Prim2SF x with
  | S754_nan | S754_infinity _ => True
  | _ => False
  end.

(** The exceptions: those the Python code can raise, and those the design
    document names. *)
Inductive exn : Type :=
| KeyError (key : string)
| IndexError
| ValueError
| TypeError
| UnboundLocalError (name : string)
(* the error taxonomy of the design document *)
| DimensionMismatchError
| BoundaryOutOfRangeError
| EmptyCohortError
| ZeroVarianceError
| MissingStatisticsError.

Definition result (A : Type) : Type := (exn + A)%type.

(** The errors that Python and numpy raise themselves, as opposed to the
    errors of the design document. *)
Definition python_error (e : exn) : bool :=
  match e with
  | KeyError _ | IndexError | ValueError | TypeError
  | UnboundLocalError _ => true
  | _ => false
  end.

Section Arrays.
Context {F : Type} {SF : Scalar F}.

Definition vec : Type := list F.
Definition matrix : Type := list vec.

(** [np.zeros((d,))] *)
Definition np_zeros (d : nat) : vec := List.repeat f0 d.

(** [np.empty((d,))]: [d] uninitialised cells; [junk] is what the allocator
    happens to hand back. *)
Definition np_empty (junk : nat -> F) (d : nat) : vec :=
  List.map junk (List.seq 0 d).

(** [np.empty((n, d))] *)
Definition np_empty2 (junk : nat -> nat -> F) (n d : nat) : matrix :=
  List.map (fun i => List.map (junk i) (List.seq 0 d)) (List.seq 0 n).

Fixpoint zip_with (op : F -> F -> F) (a b : vec) : vec :=
  match a, b with
  | x :: a', y :: b' => op x y :: zip_with op a' b'
  | _, _ => []
  end.

(** Broadcasting of two 1-D operands: equal lengths, or one operand of
    length 1 stretched over the other. When the result is written back into
    the left operand ([inplace], as in [+=]), the left operand cannot be
    stretched. Any other pair of shapes is numpy's [ValueError]. *)
Definition broadcast (inplace : bool) (op : F -> F -> F) (a b : vec)
  : result vec :=
  if Nat.eqb (List.length a) (List.length b) then inr (zip_with op a b)
  else match a, b with
       | _, [y] => inr (List.map (fun x => op x y) a)
       | [x], _ => if inplace then inl ValueError
                   else inr (List.map (fun y => op x y) b)
       | _, _ => inl ValueError
       end.

(** [v / s] for a Python float [s] *)
Definition vdiv_scalar (v : vec) (s : F) : vec :=
  List.map (fun x => fdiv x s) v.

End Arrays.

(* ------------------------------------------------------------------ *)
(** ** Exceptions and the I/O log *)

(** Pure code that can raise. *)
Definition bindR {A B : Type} (m : result A) (k : A -> result B) : result B :=
  match m with
  | inl e => inl e
  | inr a => k a
  end.

Notation "'let?' x := m 'in' k" := (bindR m (fun x => k))
  (at level 10, x pattern, m at level 100, k at level 200).

Fixpoint foldR {A B : Type} (body : A -> B -> result A) (acc : A)
  (xs : list B) : result A :=
  match xs with
  | [] => inr acc
  | x :: rest => let? acc' := body acc x in foldR body acc' rest
  end.

Fixpoint mapR {A B : Type} (f : A -> result B) (xs : list A)
  : result (list B) :=
  match xs with
  | [] => inr []
  | x :: rest =>
      let? y := f x in
      let? ys := mapR f rest in
      inr (y :: ys)
  end.

(** Code that writes: the log of what has been written so far goes in, the
    outcome and the log as the code left it come out. *)
Definition M (E A : Type) : Type := list E -> result A * list E.

Definition ret {E A : Type} (a : A) : M E A := fun log => (inr a, log).

Definition raise {E A : Type} (e : exn) : M E A := fun log => (inl e, log).

Definition bind {E A B : Type} (m : M E A) (k : A -> M E B) : M E B :=
  fun log =>
    match m log with
    | (inl e, log') => (inl e, log')
    | (inr a, log') => k a log'
    end.

Definition lift {E A : Type} (r : result A) : M E A :=
  fun log => (r, log).

Definition emit {E : Type} (ev : E) : M E unit :=
  fun log => (inr tt, log ++ [ev]).

Declare Scope py_scope.
Delimit Scope py_scope with py.
Notation "x <- m ;; k" := (bind m (fun x => k))
  (at level 100, m at next level, right associativity) : py_scope.
Notation "' pat <- m ;; k" := (bind m (fun x => match x with pat => k end))
  (at level 100, pat pattern, m at next level, right associativity)
  : py_scope.
Notation "m ;; k" := (bind m (fun _ => k))
  (at level 100, right associativity) : py_scope.

(** [for x in xs: acc = body(acc, x)] *)
Fixpoint foldM {E A B : Type} (body : A -> B -> M E A) (acc : A)
  (xs : list B) : M E A :=
  match xs with
  | [] => ret acc
  | x :: rest => bind (body acc x) (fun acc' => foldM body acc' rest)
  end.

(** ** Python dicts, in insertion order *)

Definition dict (V : Type) : Type := list (string * V).

Fixpoint dict_get {V : Type} (d : dict V) (key : string) : option V :=
  match d with
  | [] => None
  | (k, v) :: rest => if String.eqb k key then Some v else dict_get rest key
  end.

(** [d[key] = v]: an existing key keeps its place, a new one goes last. *)
Fixpoint dict_set {V : Type} (d : dict V) (key : string) (v : V) : dict V :=
  match d with
  | [] => [(key, v)]
  | (k, w) :: rest =>
      if String.eqb k key then (k, v) :: rest
      else (k, w) :: dict_set rest key v
  end.

Definition dict_keys {V : Type} (d : dict V) : list string := List.map fst d.
Definition dict_values {V : Type} (d : dict V) : list V := List.map snd d.

(** [d[key]] *)
Definition dict_lookup {V : Type} (d : dict V) (key : string) : result V :=
  match dict_get d key with
  | Some v => inr v
  | None => inl (KeyError key)
  end.

(** [speaker_name, utt_index = key.split('_')] *)
Definition unpack_key (key : string) : result (string * string) :=
  match PyStr.split "_" key with
  | [speaker_name; utt_index] => inr (speaker_name, utt_index)
  | _ => inl ValueError
  end.

Definition enumerate {A : Type} (xs : list A) : list (nat * A) :=
  List.combine (List.seq 0 (List.length xs)) xs.

(* ------------------------------------------------------------------ *)
(** ** What both readers write *)

Section Output.
Context {F : Type}.

(** One entry of the I/O log. *)
Inductive io_event : Type :=
| NpSaveVec (path : string) (v : list F)            (* np.save of a 1-D array *)
| NpSaveMat (path : string) (m : list (list F))     (* np.save of a 2-D array *)
| Mkdir (path : string)                             (* mkdir / mkdir_join *)
| PickleDump (path : string) (d : dict nat).        (* pickle.dump of a dict *)

(** What saving one utterance leaves in the log: the speaker's directory
    made, the matrix saved under its key. *)
Definition utterance_events (save_path : string)
  (saved : string * list (list F)) : list io_event :=
  match unpack_key (fst saved) with
  | inr (speaker_name, _) =>
      [ Mkdir (PyStr.path_join save_path speaker_name);
        NpSaveMat (PyStr.path_join (PyStr.path_join save_path speaker_name)
                                   (fst saved ++ ".npy"))
                  (snd saved) ]
  | inl _ => []
  end.

(** The frame-number dictionary of a list of saved utterances. *)
Definition frame_numbers (saved : dict (list (list F))) : dict nat :=
  List.map (fun item => (fst item, List.length (snd item))) saved.

(** The log writes of the statistics: [np.save] of 1-D arrays. *)
Definition is_statistics_write (ev : io_event) : Prop :=
  match ev with
  | NpSaveVec _ _ => True
  | _ => False
  end.

End Output.
Arguments io_event F : clear implicits.

Section SaveLoopShape.
Context {F : Type}.

(** The dictionary the loop builds, one assignment per saved utterance. *)
Definition assign_all (saved : dict (list (list F))) (start : dict nat)
  : dict nat :=
  List.fold_left
    (fun d item => dict_set d (fst item) (List.length (snd item)))
    saved start.

End SaveLoopShape.

Section Normalize.
Context {F : Type} {SF : Scalar F}.

(** [utt - mean] and [utt / std] for a 2-D [utt] and a 1-D operand, which
    is broadcast over the rows. [inplace] tells the two spellings apart:
    [utt - mean] builds a new array, [utt -= mean] writes into [utt]. (For an
    utterance without rows numpy still compares the column counts; the list
    of rows has no column count left to compare.) *)
Definition mat_sub (inplace : bool) (utt : @matrix F) (mean : @vec F)
  : result (@matrix F) :=
  mapR (fun row => broadcast inplace fsub row mean) utt.

Definition mat_div (inplace : bool) (utt : @matrix F) (std : @vec F)
  : result (@matrix F) :=
  mapR (fun row => broadcast inplace fdiv row std) utt.

(** [(input_data_utt - mean) / std] *)
Definition normalize (inplace : bool) (utt : @matrix F) (mean std : @vec F)
  : result (@matrix F) :=
  let? centred := mat_sub inplace utt mean in
  mat_div inplace centred std.

End Normalize.

Section SavedIndex.
Context {F : Type} {SF : Scalar F}.

(** The matrix a reader saves for an utterance: the matrix of the utterance
    as it was segmented, or that matrix centred and scaled by a mean and a
    std. *)
Definition emitted (inplace : bool) (utt saved_utt : @matrix F) : Prop :=
  saved_utt = utt
  \/ exists mean std, normalize inplace utt mean std = inr saved_utt.

(** [saved] holds, utterance by utterance and under the same keys, the
    matrices emitted for [utterances]. *)
Definition emitted_all (inplace : bool) (utterances saved : dict (@matrix F))
  : Prop :=
  Forall2 (fun utterance entry =>
             fst entry = fst utterance
             /\ emitted inplace (snd utterance) (snd entry))
          utterances saved.

(** What a run with saving enabled has added to the log when the
    frame-number dictionary covers exactly the saved utterances: after the
    statistics, one saved matrix for each of [utterances], key by key and in
    their order, each the matrix emitted for that utterance; and last the
    dictionary at [index_path], with one entry for each saved matrix, its
    key mapped to its number of rows, which is the number of frames of the
    utterance. *)
Definition index_covers_saved (inplace : bool)
  (index_path save_path : string) (utterances : dict (@matrix F))
  (log log' : list (io_event F)) : Prop :=
  exists statistics saved,
    Forall is_statistics_write statistics
    /\ emitted_all inplace utterances saved
    /\ frame_numbers saved = frame_numbers utterances
    /\ log' = log ++ statistics
                  ++ List.flat_map (utterance_events save_path) saved
                  ++ [PickleDump index_path (frame_numbers saved)].

(** A loop body that, when it does not raise, saves the matrix emitted for
    the utterance under its key and enters the number of rows of that
    matrix in the dictionary. *)
Definition saves_one (inplace : bool)
  (body : dict nat -> string * @matrix F -> M (io_event F) (dict nat))
  (save_path : string) : Prop :=
  forall frame_num_dict key utt log frame_num_dict' log',
    body frame_num_dict (key, utt) log = (inr frame_num_dict', log') ->
    exists saved_utt,
      emitted inplace utt saved_utt
      /\ log' = log ++ utterance_events save_path (key, saved_utt)
      /\ frame_num_dict'
         = dict_set frame_num_dict key (List.length saved_utt).

End SavedIndex.

(* ------------------------------------------------------------------ *)
(** ** The single-cohort reader, [src/src/csj/inputs/input_data.py] *)

Module Single.
Section ReadHtk.
Context {F : Type} {SF : Scalar F}.

(** The per-speaker utterance table (utterance index to
    [[start_frame, end_frame, transcript]]); [read_htk] only passes it on. *)
Variable utt_table : Type.

(** The four values [segment_htk] returns for one speaker. *)
Record segmented : Type := {
  seg_input_data_dict : dict (@matrix F);   (* return_element[0] *)
  seg_train_mean : @vec F;                  (* return_element[1] *)
  seg_train_std : @vec F;                   (* return_element[2] *)
  seg_total_frame_num : nat                 (* return_element[3] *)
}.

(** [utils.inputs.segmentation.segment_htk(htk_path, speaker_name,
    utterance_dict, speaker_norm, sil_duration)], imported by the module. *)
Variable segment_htk :
  string -> string -> utt_table -> bool -> nat -> result segmented.

(** The contents of the three buffers that come from [np.empty]. *)
Record allocator : Type := {
  junk_mean : nat -> F;                (* line 55 *)
  junk_std : nat -> F;                 (* line 64 *)
  junk_data : nat -> nat -> nat -> F   (* line 69, for speaker [i] *)
}.

(** [sqrt_sum(inputs, global_mean)], lines 116-122. *)
Definition sqrt_sum (inputs : @matrix F) (global_mean : @vec F)
  : result (@vec F) :=
  match inputs with
  | [] => inl IndexError                          (* inputs[0] *)
  | first :: _ =>
      let feature_dim := List.length first in
      foldR (fun value_sqrt_sum input_vec =>
               let? diff := broadcast false fsub input_vec global_mean in
               broadcast true fadd value_sqrt_sum (List.map fsq diff))
            (np_zeros feature_dim) inputs
  end.

(** One row written by a slice assignment into a matrix of [d] columns. *)
Definition fit_row (d : nat) (row : @vec F) : result (@vec F) :=
  if Nat.eqb (List.length row) d then inr row
  else match row with
       | [x] => inr (List.repeat x d)
       | _ => inl ValueError
       end.

(** [a[off:off + len(u)] = u] for a matrix [a] of [d] columns: the slice is
    cut at the end of [a], and the shapes must then agree up to
    broadcasting. *)
Definition slice_assign (d : nat) (a : @matrix F) (off : nat) (u : @matrix F)
  : result (@matrix F) :=
  let n := List.length a in
  let k := List.length u in
  let target := Nat.min n (off + k) - Nat.min n off in
  let? rows := mapR (fit_row d) u in
  if Nat.eqb target k then
    inr (List.firstn off a ++ rows ++ List.skipn (off + k) a)
  else match rows with
       | [row] => inr a     (* one row broadcast over an empty slice *)
       | _ => inl ValueError
       end.

(** Lines 67-75: the utterances of one speaker copied one after the other
    into [train_data_speaker]. *)
Definition fill_speaker (feature_dim : nat) (train_data_speaker : @matrix F)
  (input_data_dict : dict (@matrix F)) : result (@matrix F) :=
  let? filled :=
    foldR (fun '(frame_offset, data) input_data_utt =>
             let frame_num_utt := List.length input_data_utt in
             let? data' :=
               slice_assign feature_dim data frame_offset input_data_utt in
             inr (frame_offset + frame_num_utt, data'))
          (0, train_data_speaker) (dict_values input_data_dict) in
  inr (snd filled).

(** Line 52: [feature_dim = train_mean_list[0].shape[0]] *)
Definition feature_dim_of (return_list : list segmented) : result nat :=
  match return_list with
  | [] => inl IndexError
  | first :: _ => inr (List.length (seg_train_mean first))
  end.

(** Line 56: [total_frame_num = np.sum(total_frame_num_list)] *)
Definition total_frame_num_of (return_list : list segmented) : nat :=
  List.list_sum (List.map seg_total_frame_num return_list).

(** Lines 55-60: the global mean over the train data. *)
Definition global_mean_pass (heap : allocator) (feature_dim : nat)
  (total_frame_num : nat) (return_list : list segmented)
  : result (@vec F) :=
  let train_global_mean := np_empty (junk_mean heap) feature_dim in
  let? train_global_mean :=
    foldR (fun acc r => broadcast true fadd acc (seg_train_mean r))
          train_global_mean return_list in
  inr (vdiv_scalar train_global_mean (of_count total_frame_num)).

(** Lines 67-76: the squared deviations of speaker [i] from the global
    mean. *)
Definition speaker_squares (heap : allocator) (feature_dim : nat)
  (train_global_mean : @vec F) (i : nat) (r : segmented)
  : result (@vec F) :=
  let total_frame_num_speaker := seg_total_frame_num r in
  let train_data_speaker :=
    np_empty2 (junk_data heap i) total_frame_num_speaker feature_dim in
  let? train_data_speaker :=
    fill_speaker feature_dim train_data_speaker (seg_input_data_dict r) in
  sqrt_sum train_data_speaker train_global_mean.

(** Lines 64-78: the global standard deviation over the train data. *)
Definition global_std_pass (heap : allocator) (feature_dim : nat)
  (total_frame_num : nat) (return_list : list segmented)
  (train_global_mean : @vec F) : result (@vec F) :=
  let train_global_std := np_empty (junk_std heap) feature_dim in
  let? train_global_std :=
    foldR (fun acc '(i, r) =>
             let? squares :=
               speaker_squares heap feature_dim train_global_mean i r in
             broadcast true fadd acc squares)
          train_global_std (enumerate return_list) in
  inr (List.map fpow_half
                (vdiv_scalar train_global_std (of_count total_frame_num))).

(** All frames of one speaker, utterance after utterance. *)
Definition frames_of (r : segmented) : @matrix F :=
  List.concat (dict_values (seg_input_data_dict r)).

(** What the reader takes for granted of a [segment_htk] result at feature
    dimension [d]: every frame has [d] values, the sum has [d] values, the
    frame count is the number of frames of the utterances, and there is at
    least one frame. *)
Definition well_segmented (d : nat) (r : segmented) : Prop :=
  Forall (fun frame => List.length frame = d) (frames_of r)
  /\ List.length (seg_train_mean r) = d
  /\ List.length (frames_of r) = seg_total_frame_num r
  /\ 0 < seg_total_frame_num r.

(** Lines 52-78: both statistics, the mean first. *)
Definition train_statistics (heap : allocator) (return_list : list segmented)
  : result (@vec F * @vec F) :=
  let? feature_dim := feature_dim_of return_list in
  let total_frame_num := total_frame_num_of return_list in
  let? train_global_mean :=
    global_mean_pass heap feature_dim total_frame_num return_list in
  let? train_global_std :=
    global_std_pass heap feature_dim total_frame_num return_list
                    train_global_mean in
  inr (train_global_mean, train_global_std).

Local Open Scope py_scope.

(** Lines 93-105: one utterance normalised, saved and entered in the
    frame-number dictionary. [stats] holds the locals [train_global_mean]
    and [train_global_std], which exist only after the training branch. *)
Definition save_utterance (global_norm : bool)
  (stats : option (@vec F * @vec F)) (save_path : string)
  (frame_num_dict : dict nat) (item : string * @matrix F)
  : M (io_event F) (dict nat) :=
  let '(key, input_data_utt) := item in
  input_data_utt <-
    (if global_norm then
       match stats with
       | None => raise (UnboundLocalError "train_global_mean")
       | Some (train_global_mean, train_global_std) =>
           lift (normalize false input_data_utt
                           train_global_mean train_global_std)
       end
     else ret input_data_utt) ;;
  '(speaker_name, utt_index) <- lift (unpack_key key) ;;
  emit (Mkdir (PyStr.path_join save_path speaker_name)) ;;
  let input_data_save_path :=
    PyStr.path_join (PyStr.path_join save_path speaker_name)
                    (key ++ ".npy") in
  emit (NpSaveMat input_data_save_path input_data_utt) ;;
  ret (dict_set frame_num_dict key (List.length input_data_utt)).

(** Lines 36-49: every HTK file segmented, in the order of [htk_paths]. *)
Definition read_files (speaker_dict : dict utt_table) (global_norm : bool)
  (htk_paths : list string) : result (list segmented) :=
  mapR (fun htk_path =>
          let speaker_name := PyStr.speaker_of_path htk_path in
          let? utterances := dict_lookup speaker_dict speaker_name in
          segment_htk htk_path speaker_name utterances
                      (negb global_norm) 50)
       htk_paths.

(** Lines 51-86: in training mode the statistics are computed and, with a
    [save_path], saved; the result is the pair of locals
    [train_global_mean], [train_global_std], which otherwise stay unbound. *)
Definition training_phase (heap : allocator) (is_training : bool)
  (save_path : option string) (return_list : list segmented)
  : M (io_event F) (option (@vec F * @vec F)) :=
  if is_training then
    '(train_global_mean, train_global_std) <-
      lift (train_statistics heap return_list) ;;
    match save_path with
    | Some save_path =>
        (* save global mean & std *)
        let statistics_save_path := PyStr.parent save_path in
        emit (NpSaveVec
                (PyStr.path_join statistics_save_path "train_mean.npy")
                train_global_mean) ;;
        emit (NpSaveVec
                (PyStr.path_join statistics_save_path "train_std.npy")
                train_global_std)
    | None => ret tt
    end ;;
    ret (Some (train_global_mean, train_global_std))
  else ret None.

(** The utterances the save loop iterates over, in its order. *)
Definition all_utterances (return_list : list segmented)
  : dict (@matrix F) :=
  List.concat (List.map seg_input_data_dict return_list).

(** [read_htk], lines 15-113. *)
Definition read_htk (heap : allocator) (htk_paths : list string)
  (speaker_dict : dict utt_table) (global_norm is_training : bool)
  (save_path : option string) (train_mean train_std : option (@vec F))
  : M (io_event F) (option (@vec F) * option (@vec F)) :=
  (* read each HTK file *)
  return_list <- lift (read_files speaker_dict global_norm htk_paths) ;;
  stats <- training_phase heap is_training save_path return_list ;;
  match save_path with
  | Some save_path =>
      (* save input data *)
      frame_num_dict <-
        foldM (fun frame_num_dict input_data_dict =>
                 foldM (save_utterance global_norm stats save_path)
                       frame_num_dict input_data_dict)
              [] (List.map seg_input_data_dict return_list) ;;
      (* save the frame number dictionary *)
      let frame_num_dict_save_path := PyStr.parent save_path in
      emit (PickleDump
              (PyStr.path_join frame_num_dict_save_path "frame_num.pickle")
              frame_num_dict)
  | None => ret tt
  end ;;
  ret (train_mean, train_std).

End ReadHtk.
End Single.

(* ------------------------------------------------------------------ *)
(** ** The per-gender reader, [src/csj/inputs/input_data.py] *)

Module Gender.
Section ReadHtk.
Context {F : Type} {SF : Scalar F}.

(** The per-speaker utterance table (utterance index to
    [[start_frame, end_frame, trans_kana, trans_kanji]]). *)
Variable utt_table : Type.

(** The three values [segment_htk] returns for one speaker. *)
Record segmented : Type := {
  input_data_dict_speaker : dict (@matrix F);
  train_mean_speaker : @vec F;
  total_frame_num_speaker : nat
}.

(** [segment_htk(htk_path, speaker_name, utterance_dict, normalize,
    is_training, sil_duration)], [global_mean(train_mean_list,
    total_frame_num_list)] and [global_std(input_data_dict_list,
    total_frame_num_list, train_mean)], all three imported from
    [utils.inputs.segmentation]. *)
Variable segment_htk :
  string -> string -> utt_table -> string -> bool -> nat -> result segmented.
Variable global_mean : list (@vec F) -> list nat -> result (@vec F).
Variable global_std :
  list (dict (@matrix F)) -> list nat -> @vec F -> result (@vec F).

(** The cohorts the reader knows. *)
Inductive gender : Type := Male | Female.

(** [speaker_name[3] == 'M'] / [elif speaker_name[3] == 'F'], with no
    [else]: [None] is a speaker that falls through both tests. *)
Definition gender_of (speaker_name : string) : result (option gender) :=
  match PyStr.index speaker_name 3 with
  | None => inl IndexError
  | Some c =>
      if String.eqb c "M" then inr (Some Male)
      else if String.eqb c "F" then inr (Some Female)
      else inr None
  end.

(** Lines 56-73: one HTK file segmented and filed under its gender. The two
    components are the male and the female lists; the three parallel lists
    of each gender are kept as one list of triples. *)
Definition read_one (speaker_dict : dict utt_table) (normalize : string)
  (is_training : bool) (lists : list segmented * list segmented)
  (htk_path : string) : result (list segmented * list segmented) :=
  let '(male, female) := lists in
  let speaker_name := PyStr.speaker_of_path htk_path in
  let? utterances := dict_lookup speaker_dict speaker_name in
  let? r := segment_htk htk_path speaker_name utterances normalize
                        is_training 0 in
  let? g := gender_of speaker_name in
  match g with
  | Some Male => inr (male ++ [r], female)
  | Some Female => inr (male, female ++ [r])
  | None => inr (male, female)
  end.

(** Lines 52-73: every HTK file read, in the order of [htk_paths]. *)
Definition read_files (speaker_dict : dict utt_table) (normalize : string)
  (is_training : bool) (htk_paths : list string)
  : result (list segmented * list segmented) :=
  foldR (read_one speaker_dict normalize is_training) ([], []) htk_paths.

(** An HTK path whose speaker name has a character at index 3 that is
    neither ['M'] nor ['F']. *)
Definition unknown_gender (htk_path : string) : bool :=
  match gender_of (PyStr.speaker_of_path htk_path) with
  | inr None => true
  | _ => false
  end.

(** The utterances the save loop iterates over, in its order: those of the
    male, then those of the female speakers. *)
Definition cohort_utterances (male female : list segmented)
  : dict (@matrix F) :=
  List.concat (List.map input_data_dict_speaker (male ++ female)).

(** [utt -= mean] and [utt /= std] where the right operand may be [None]. *)
Definition isub (utt : @matrix F) (mean : option (@vec F))
  : result (@matrix F) :=
  match mean with
  | None => inl TypeError
  | Some mean => mat_sub true utt mean
  end.

Definition idiv (utt : @matrix F) (std : option (@vec F))
  : result (@matrix F) :=
  match std with
  | None => inl TypeError
  | Some std => mat_div true utt std
  end.

(** The four statistics, each an array or [None]. *)
Record statistics : Type := {
  train_mean_male : option (@vec F);
  train_mean_female : option (@vec F);
  train_std_male : option (@vec F);
  train_std_female : option (@vec F)
}.

(** The mean the save loop subtracts for a speaker of gender [g]. *)
Definition mean_of (stats : statistics) (g : gender) : option (@vec F) :=
  match g with
  | Male => train_mean_male stats
  | Female => train_mean_female stats
  end.

Local Open Scope py_scope.

(** Lines 112-129: one utterance normalised, saved and entered in the
    frame-number dictionary. *)
Definition save_utterance (normalize : string) (stats : statistics)
  (save_path : string) (frame_num_dict : dict nat)
  (item : string * @matrix F) : M (io_event F) (dict nat) :=
  let '(key, input_data_utt) := item in
  '(speaker_name, utt_index) <- lift (unpack_key key) ;;
  input_data_utt <-
    (if String.eqb normalize "global" then
       g <- lift (gender_of speaker_name) ;;
       match g with
       | Some Male =>
           centred <- lift (isub input_data_utt (train_mean_male stats)) ;;
           lift (idiv centred (train_std_male stats))
       | Some Female =>
           centred <- lift (isub input_data_utt (train_mean_female stats)) ;;
           lift (idiv centred (train_std_female stats))
       | None => ret input_data_utt
       end
     else ret input_data_utt) ;;
  emit (Mkdir (PyStr.path_join save_path speaker_name)) ;;
  let input_data_save_path :=
    PyStr.path_join (PyStr.path_join save_path speaker_name)
                    (key ++ ".npy") in
  emit (NpSaveMat input_data_save_path input_data_utt) ;;
  ret (dict_set frame_num_dict key (List.length input_data_utt)).

(** Lines 75-105: the statistics of both genders computed and saved. *)
Definition train_statistics (male female : list segmented)
  (save_path : option string) : M (io_event F) statistics :=
  mean_male <-
    lift (global_mean (List.map train_mean_speaker male)
                      (List.map total_frame_num_speaker male)) ;;
  mean_female <-
    lift (global_mean (List.map train_mean_speaker female)
                      (List.map total_frame_num_speaker female)) ;;
  std_male <-
    lift (global_std (List.map input_data_dict_speaker male)
                     (List.map total_frame_num_speaker male) mean_male) ;;
  std_female <-
    lift (global_std (List.map input_data_dict_speaker female)
                     (List.map total_frame_num_speaker female)
                     mean_female) ;;
  match save_path with
  | Some save_path =>
      emit (NpSaveVec (PyStr.path_join save_path "train_mean_male.npy")
                      mean_male) ;;
      emit (NpSaveVec (PyStr.path_join save_path "train_mean_female.npy")
                      mean_female) ;;
      emit (NpSaveVec (PyStr.path_join save_path "train_std_male.npy")
                      std_male) ;;
      emit (NpSaveVec (PyStr.path_join save_path "train_std_female.npy")
                      std_female)
  | None => ret tt
  end ;;
  ret {| train_mean_male := Some mean_male;
         train_mean_female := Some mean_female;
         train_std_male := Some std_male;
         train_std_female := Some std_female |}.

(** Lines 107-134: every utterance of the male, then of the female speakers
    saved, and the frame-number dictionary after them. *)
Definition save_input_data (normalize : string) (stats : statistics)
  (save_path : string) (male female : list segmented)
  : M (io_event F) unit :=
  frame_num_dict <-
    foldM (fun frame_num_dict input_data_dict =>
             foldM (save_utterance normalize stats save_path)
                   frame_num_dict input_data_dict)
          [] (List.map input_data_dict_speaker (male ++ female)) ;;
  emit (PickleDump (PyStr.path_join save_path "frame_num.pickle")
                   frame_num_dict).

(** [read_htk], lines 19-136. [stats] are the four [train_*] arguments. *)
Definition read_htk (htk_paths : list string) (speaker_dict : dict utt_table)
  (normalize : string) (is_training : bool) (save_path : option string)
  (stats : statistics) : M (io_event F) statistics :=
  (* read each HTK file *)
  '(male, female) <-
    lift (read_files speaker_dict normalize is_training htk_paths) ;;
  stats <-
    (if is_training then train_statistics male female save_path
     else ret stats) ;;
  match save_path with
  | Some save_path => save_input_data normalize stats save_path male female
  | None => ret tt
  end ;;
  ret stats.

End ReadHtk.
End Gender.

(* ------------------------------------------------------------------ *)
(** ** The engine as the design document describes it

    [utils/inputs/segmentation.py], which defines [segment_htk],
    [global_mean] and [global_std], is not among the sources; the readers
    above take the three as parameters. The definitions of this module
    follow the design document instead. *)

Module Design.

(** Modelled from the spec: the frame range the Segmenter emits for one
    boundary (the body of [segment_htk] is missing),
    [[max(0, start_frame - pad_frames), min(stream.frame_count, end_frame +
    pad_frames))], and [BoundaryOutOfRangeError] if after clipping
    [start >= end]. *)
Definition emitted_range (frame_count start_frame end_frame pad_frames : Z)
  : result (Z * Z) :=
  let first := Z.max 0 (start_frame - pad_frames) in
  let stop := Z.min frame_count (end_frame + pad_frames) in
  if Z.ltb first stop then inr (first, stop)
  else inl BoundaryOutOfRangeError.

(** One row of a BoundaryTable. *)
Record boundary : Type := {
  utterance_index : string;
  start_frame : Z;
  end_frame : Z;
  transcript : string
}.

Section Engine.
Context {F : Type} {SF : Scalar F}.

(** The frames [[first, stop)] of a stream, as an independent copy. *)
Definition slice (stream : @matrix F) (first stop : Z) : @matrix F :=
  List.firstn (Z.to_nat (stop - first)) (List.skipn (Z.to_nat first) stream).

(** The element-wise sum of vectors of dimension [d], accumulated from
    zero in the order of the list. *)
Definition vec_sum (d : nat) (vs : list (@vec F)) : @vec F :=
  List.fold_left (zip_with fadd) vs (np_zeros d).

Definition dimension (stream : @matrix F) : nat :=
  match stream with
  | [] => 0
  | frame :: _ => List.length frame
  end.

(** Modelled from the spec: [segment(stream, boundaries, pad_frames)]
    ([segment_htk] is missing): one matrix per boundary under the composite
    key of speaker name and utterance index, and the speaker's sum and
    frame count. *)
Definition segment (stream : @matrix F) (boundaries : list boundary)
  (pad_frames : Z) (speaker_name : string)
  : result (dict (@matrix F) * @vec F * nat) :=
  let? utterances :=
    mapR (fun b =>
            let? range := emitted_range (Z.of_nat (List.length stream))
                                        (start_frame b) (end_frame b)
                                        pad_frames in
            inr ((speaker_name ++ "_" ++ utterance_index b)%string,
                 slice stream (fst range) (snd range)))
         boundaries in
  let frames := List.concat (dict_values utterances) in
  inr (utterances, vec_sum (dimension stream) frames, List.length frames).

(** The spec's words for the finalized mean: the element-wise sum of the
    speakers' sums divided by the total frame count. *)
Definition finalize_mean (d : nat) (sums : list (@vec F)) (counts : list nat)
  : @vec F :=
  vdiv_scalar (vec_sum d sums) (of_count (List.list_sum counts)).

(** Modelled from the spec: Pass 1 of the StatisticsAccumulator
    ([global_mean] is missing). *)
Definition pass1 (sums : list (@vec F)) (counts : list nat)
  : result (@vec F) :=
  if Nat.eqb (List.list_sum counts) 0 then inl EmptyCohortError
  else inr (finalize_mean (dimension sums) sums counts).

(** [sum of (frame - mean)^2] over the frames of one speaker. *)
Definition sum_sq_dev (d : nat) (mean : @vec F) (frames : @matrix F)
  : @vec F :=
  vec_sum d (List.map (fun frame => List.map fsq (zip_with fsub frame mean))
                      frames).

(** The spec's words for the finalized standard deviation:
    [sqrt(sum_sq_dev / frame_count)], the squared deviations of every
    speaker taken against the one cohort mean. *)
Definition finalize_std (d : nat) (mean : @vec F)
  (speakers : list (@matrix F)) (frame_count : nat) : @vec F :=
  List.map fpow_half
    (vdiv_scalar (vec_sum d (List.map (sum_sq_dev d mean) speakers))
                 (of_count frame_count)).

(** Modelled from the spec: Pass 2 of the StatisticsAccumulator
    ([global_std] is missing). *)
Definition pass2 (data : list (dict (@matrix F))) (counts : list nat)
  (mean : @vec F) : result (@vec F) :=
  if Nat.eqb (List.list_sum counts) 0 then inl EmptyCohortError
  else inr (finalize_std (List.length mean) mean
              (List.map (fun d => List.concat (dict_values d)) data)
              (List.list_sum counts)).

End Engine.
End Design.

(* ------------------------------------------------------------------ *)
(** ** A small corpus in [np.float64] *)

Module Corpus.

(** Three speakers with one feature dimension: a man with three frames of
    2.0, a woman with two frames of 8.0, and a speaker whose name carries
    neither ['M'] nor ['F'] at index 3. *)
Definition man : string := "/csj/htk/S00M0001.htk".
Definition woman : string := "/csj/htk/S00F0002.htk".
Definition other : string := "/csj/htk/S00X0003.htk".
(** A second man, with the two frames of 8.0 *)
Definition man2 : string := "/csj/htk/S01M0004.htk".
(** A speaker of neither gender whom the speaker dictionary lacks. *)
Definition stranger : string := "/csj/htk/S09X0009.htk".

Definition feature_store (htk_path : string) : @matrix float :=
  if String.eqb htk_path man then [[2%float]; [2%float]; [2%float]]
  else if String.eqb htk_path woman then [[8%float]; [8%float]]
  else if String.eqb htk_path man2 then [[8%float]; [8%float]]
  else if String.eqb htk_path other then [[5%float]]
  else [].

Definition utt (index : string) (first stop : Z) : Design.boundary :=
  {| Design.utterance_index := index; Design.start_frame := first;
     Design.end_frame := stop; Design.transcript := "" |}.

Definition speaker_dict : dict (list Design.boundary) :=
  [ ("S00M0001", [utt "0" 0 3]);
    ("S00F0002", [utt "0" 0 2]);
    ("S00X0003", [utt "0" 0 1]);
    ("S01M0004", [utt "0" 0 2]) ].

(** [segment_htk] for the single-cohort reader, after the design document. *)
Definition segment_single (htk_path speaker_name : string)
  (table : list Design.boundary) (speaker_norm : bool) (sil_duration : nat)
  : result (@Single.segmented float) :=
  let? s := Design.segment (feature_store htk_path) table
                           (Z.of_nat sil_duration) speaker_name in
  inr {| Single.seg_input_data_dict := fst (fst s);
         Single.seg_train_mean := snd (fst s);
         Single.seg_train_std := [];
         Single.seg_total_frame_num := snd s |}.

(** The table of a speaker, empty for a speaker the dictionary lacks. *)
Definition table_of (htk_path : string) : list Design.boundary :=
  match dict_get speaker_dict (PyStr.speaker_of_path htk_path) with
  | Some table => table
  | None => []
  end.

(** [segment_htk] for the per-gender reader. *)
Definition segment_gender (htk_path speaker_name : string)
  (table : list Design.boundary) (normalize : string) (is_training : bool)
  (sil_duration : nat) : result (@Gender.segmented float) :=
  let? s := Design.segment (feature_store htk_path) table
                           (Z.of_nat sil_duration) speaker_name in
  inr {| Gender.input_data_dict_speaker := fst (fst s);
         Gender.train_mean_speaker := snd (fst s);
         Gender.total_frame_num_speaker := snd s |}.

(** What [segment_gender] returns for the file of a speaker, with empty
    results where it raises. *)
Definition segmented_gender (htk_path : string) : @Gender.segmented float :=
  match segment_gender htk_path (PyStr.speaker_of_path htk_path)
                       (table_of htk_path) "global" true 0 with
  | inr r => r
  | inl _ => {| Gender.input_data_dict_speaker := [];
                Gender.train_mean_speaker := [];
                Gender.total_frame_num_speaker := 0 |}
  end.

(** An allocator that hands out zeroed memory, and one that does not. *)
Definition zeroed : @Single.allocator float :=
  {| Single.junk_mean := fun _ => 0%float;
     Single.junk_std := fun _ => 0%float;
     Single.junk_data := fun _ _ _ => 0%float |}.

Definition dirty : @Single.allocator float :=
  {| Single.junk_mean := fun _ => 5%float;
     Single.junk_std := fun _ => 0%float;
     Single.junk_data := fun _ _ _ => 0%float |}.

(** The synthetic cohort of the design document: two speakers with frame
    counts [[3, 2]] and constant values 2.0 and 8.0, as [segment_htk] hands
    them to the single-cohort reader. *)
Definition cohort : list (@Single.segmented float) :=
  [ {| Single.seg_input_data_dict :=
         [("S00M0001_0", [[2%float]; [2%float]; [2%float]])];
       Single.seg_train_mean := [6%float];
       Single.seg_train_std := [];
       Single.seg_total_frame_num := 3 |};
    {| Single.seg_input_data_dict :=
         [("S00F0002_0", [[8%float]; [8%float]])];
       Single.seg_train_mean := [16%float];
       Single.seg_train_std := [];
       Single.seg_total_frame_num := 2 |} ].

Definition no_statistics : @Gender.statistics float :=
  {| Gender.train_mean_male := None; Gender.train_mean_female := None;
     Gender.train_std_male := None; Gender.train_std_female := None |}.

(** Statistics of the men only. *)
Definition male_statistics : @Gender.statistics float :=
  {| Gender.train_mean_male := Some [4%float];
     Gender.train_mean_female := None;
     Gender.train_std_male := Some [2%float];
     Gender.train_std_female := None |}.

(** A training run over the synthetic cohort: the statistics it computes are
    written to [train_mean.npy] and [train_std.npy]. *)
Definition training_run
  : result (option (@vec float) * option (@vec float))
    * list (io_event float) :=
  Single.read_htk segment_single zeroed
    [man; woman] speaker_dict true true
    (Some "/data/train/input") (Some [0%float]) (Some [1%float]) [].

End Corpus.

(* ------------------------------------------------------------------ *)
(** ** The precision of the accumulators

    The statistics block of the single-cohort reader once more, every array
    replaced by its dtype. *)

Module Precision.

Inductive dtype : Type := float32 | float64.

(** [np.empty(shape)] and [np.zeros(shape)] without a [dtype]. *)
Definition default : dtype := float64.

(** The dtype in which numpy computes a binary operation on two floating
    arrays. *)
Definition result_type (a b : dtype) : dtype :=
  match a, b with
  | float32, float32 => float32
  | _, _ => float64
  end.

(** [a op= b]: computed in [result_type a b], stored in [a]. *)
Definition in_place (a b : dtype) : dtype := a.

(** [a[i:j] = b]: [b] converted to the dtype of [a]. *)
Definition assign_into (a b : dtype) : dtype := a.

(** [a / float(n)] and [np.power(a, 0.5)]: a Python float leaves the dtype
    of a floating array as it is. *)
Definition with_python_float (a : dtype) : dtype := a.

(** [np.power(a, 2, dtype=t)]: computed and returned in [t]. *)
Definition power_as (a t : dtype) : dtype := t.

(** What [segment_htk] returns, by dtype: the utterance matrices and the
    per-speaker sum. *)
Record segmented : Type := {
  seg_input_data_dict : list dtype;
  seg_train_mean : dtype
}.

(** Lines 55-60 *)
Definition global_mean_pass (return_list : list segmented) : dtype :=
  let train_global_mean := float64 (* np.empty(..., dtype=np.float64) *) in
  let train_global_mean :=
    List.fold_left (fun acc r => in_place acc (seg_train_mean r))
                   return_list train_global_mean in
  with_python_float train_global_mean.

(** Lines 116-122; [frames] is the number of rows of [inputs]. The first
    component is the dtype of the accumulator, the second the dtypes in
    which the squared deviations were computed. *)
Definition sqrt_sum (inputs global_mean : dtype) (frames : nat)
  : dtype * list dtype :=
  let value_sqrt_sum := default in
  Nat.iter frames
    (fun state =>
       let difference := result_type inputs global_mean in
       let square := power_as difference float64 in
       (in_place (fst state) square, square :: snd state))
    (value_sqrt_sum, []).

(** Lines 69-75 *)
Definition train_data_speaker (r : segmented) : dtype :=
  List.fold_left assign_into (seg_input_data_dict r) default.

(** Lines 64-78; [frames] is the number of frames of a speaker. *)
Definition global_std_pass (return_list : list segmented)
  (train_global_mean : dtype) (frames : nat) : dtype :=
  let train_global_std := float64 (* np.empty(..., dtype=np.float64) *) in
  let train_global_std :=
    List.fold_left
      (fun acc r =>
         in_place acc
           (fst (sqrt_sum (train_data_speaker r) train_global_mean frames)))
      return_list train_global_std in
  with_python_float (with_python_float train_global_std).

End Precision.

(* ------------------------------------------------------------------ *)
(** ** Path preparation for TIMIT, [src/timit/prepare_path.py] *)

Module PyMore.

(** [c in s] for a character [c]. *)
Fixpoint contains (c : ascii) (s : string) : bool :=
  match s with
  | EmptyString => false
  | String x rest => Ascii.eqb x c || contains c rest
  end.

(** [ch.isspace()] for the character of code point [cp] (Python 3 [str]):
    U+0009 to U+000D, U+001C to U+0020, U+0085, U+00A0, U+1680, U+2000 to
    U+200A, U+2028, U+2029, U+202F, U+205F and U+3000. *)
Definition isspace (cp : N) : bool :=
  ((9 <=? cp) && (cp <=? 13) || (28 <=? cp) && (cp <=? 32)
   || (cp =? 133) || (cp =? 160) || (cp =? 5760)
   || (8192 <=? cp) && (cp <=? 8202)
   || (cp =? 8232) || (cp =? 8233) || (cp =? 8239) || (cp =? 8287)
   || (cp =? 12288))%N.

(** The white space that leads a list of characters, dropped. *)
Fixpoint drop_spaces (chs : list string) : list string :=
  match chs with
  | [] => []
  | ch :: rest =>
      if isspace (PyStr.code_point ch) then drop_spaces rest else chs
  end.

(** [s.strip()]: [s] without the white space at its two ends. *)
Definition strip (s : string) : string :=
  String.concat EmptyString
    (List.rev (drop_spaces (List.rev (drop_spaces (PyStr.chars s))))).

(** The line feed that ends a line read from a file. *)
Definition newline : string := String (Ascii.ascii_of_nat 10) EmptyString.

(** [s[0:2]] *)
Definition first_two (s : string) : string :=
  String.concat EmptyString (List.firstn 2 (PyStr.chars s)).

(** [x in xs] for a list of strings. *)
Definition mem (x : string) (xs : list string) : bool :=
  List.existsb (String.eqb x) xs.

(** [xs[-3:]] *)
Definition last_three {A : Type} (xs : list A) : list A :=
  List.skipn (List.length xs - 3) xs.

(** [os.path.splitext(p)[1]]: the extension starts at the last dot of the
    last component, unless only dots precede that dot. *)
Definition splitext_ext (p : string) : string :=
  match List.rev (PyStr.split "." (PyStr.basename p)) with
  | last :: (_ :: _) as before =>
      if List.existsb (fun piece => negb (String.eqb piece EmptyString))
                      before
      then String "." last
      else EmptyString
  | _ => EmptyString
  end.

(** [sorted(xs)] for a list of strings: ascending in the order of [str],
    the lexicographic order of the code points, which on well-formed UTF-8
    is the lexicographic order of the bytes; equal elements keep their
    order. *)
Fixpoint insert_sorted (x : string) (xs : list string) : list string :=
  match xs with
  | [] => [x]
  | y :: rest =>
      if String.leb x y then x :: xs else y :: insert_sorted x rest
  end.

Definition sorted (xs : list string) : list string :=
  List.fold_right insert_sorted [] xs.

End PyMore.

Module Timit.

(** The four kinds of file the class collects. *)
Inductive kind : Type := Wav | Text | Word | Phone.

Definition kind_eqb (a b : kind) : bool :=
  match a, b with
  | Wav, Wav | Text, Text | Word, Word | Phone, Phone => true
  | _, _ => false
  end.

(** The four lists one loop of [__make] fills. *)
Record path_lists : Type := {
  wav_paths : list string;
  text_paths : list string;
  word_paths : list string;
  phone_paths : list string
}.

Definition no_paths : path_lists :=
  {| wav_paths := []; text_paths := []; word_paths := [];
     phone_paths := [] |}.

(** [region_name, speaker_name, file_name = file_path.split('/')[-3:]] *)
Definition unpack_path (file_path : string)
  : result (string * string * string) :=
  match PyMore.last_three (PyStr.split "/" file_path) with
  | [region_name; speaker_name; file_name] =>
      inr (region_name, speaker_name, file_name)
  | _ => inl ValueError
  end.

(** The [if ext == ...] chain. *)
Definition kind_of_ext (ext : string) : option kind :=
  if String.eqb ext ".wav" then Some Wav
  else if String.eqb ext ".txt" then Some Text
  else if String.eqb ext ".wrd" then Some Word
  else if String.eqb ext ".phn" then Some Phone
  else None.

(** [os.path.basename(file_name)[0: 2] in ['sx', 'si']] *)
Definition is_sx_or_si (file_name : string) : bool :=
  PyMore.mem (PyMore.first_two (PyStr.basename file_name)) ["sx"; "si"].

Definition append_path (k : kind) (path : string) (lists : path_lists)
  : path_lists :=
  match k with
  | Wav => {| wav_paths := wav_paths lists ++ [path];
              text_paths := text_paths lists;
              word_paths := word_paths lists;
              phone_paths := phone_paths lists |}
  | Text => {| wav_paths := wav_paths lists;
               text_paths := text_paths lists ++ [path];
               word_paths := word_paths lists;
               phone_paths := phone_paths lists |}
  | Word => {| wav_paths := wav_paths lists;
               text_paths := text_paths lists;
               word_paths := word_paths lists ++ [path];
               phone_paths := phone_paths lists |}
  | Phone => {| wav_paths := wav_paths lists;
                text_paths := text_paths lists;
                word_paths := word_paths lists;
                phone_paths := phone_paths lists ++ [path] |}
  end.

(** The body of the three loops over [glob(...)] (lines 43-58, 74-92,
    108-126). [speakers] is [None] in the train loop, which has no speaker
    test, and the list [speakers_dev] or [speakers_test] in the other
    two. *)
Definition visit (data_path : string) (speakers : option (list string))
  (lists : path_lists) (file_path : string) : result path_lists :=
  let? parts := unpack_path file_path in
  let '(region_name, speaker_name, file_name) := parts in
  let ext := PyMore.splitext_ext file_name in
  let listed := match speakers with
                | None => true
                | Some names => PyMore.mem speaker_name names
                end in
  if negb listed then inr lists                              (* continue *)
  else if is_sx_or_si file_name then
    match kind_of_ext ext with
    | Some k => inr (append_path k (PyStr.path_join data_path file_path)
                                 lists)
    | None => inr lists
    end
  else inr lists.

Definition collect (data_path : string) (speakers : option (list string))
  (listing : list string) : result path_lists :=
  foldR (visit data_path speakers) no_paths listing.

(** [for line in f: speakers.append(line.strip())] *)
Definition read_speakers (lines : list string) : list string :=
  List.map PyMore.strip lines.

(** The attributes of a [Prepare] object that [__make] sets. *)
Record Prepare : Type := {
  train_paths : path_lists;   (* self.{wav,text,word,phone}_train_paths *)
  dev_paths : path_lists;     (* self.{wav,text,word,phone}_dev_paths *)
  test_paths : path_lists     (* self.{wav,text,word,phone}_test_paths *)
}.

(** The constants of [__init__]. *)
Definition data_path : string := "/n/sd8/inaguma/corpus/timit/original/".
Definition train_data_path : string := PyStr.path_join data_path "train".
Definition test_data_path : string := PyStr.path_join data_path "test".
Definition run_root_path : string :=
  "/n/sd8/inaguma/src/asr/asr_preprocessing/src/timit/".

(** [__make], lines 34-126. The file system is read through [glob]
    (pattern to matching paths) and [read_lines] (path to the lines of the
    file, line ends included). *)
Definition make (glob : string -> list string)
  (read_lines : string -> list string) : result Prepare :=
  (* train *)
  let? train :=
    collect train_data_path None
            (glob (PyStr.path_join train_data_path "*/*/*")) in
  (* dev *)
  let speakers_dev :=
    read_speakers
      (read_lines (PyStr.path_join run_root_path "dev_speaker_list.txt")) in
  let? dev :=
    collect test_data_path (Some speakers_dev)
            (glob (PyStr.path_join test_data_path "*/*/*")) in
  (* test *)
  let speakers_test :=
    read_speakers
      (read_lines (PyStr.path_join run_root_path "test_speaker_list.txt")) in
  let? test :=
    collect test_data_path (Some speakers_test)
            (glob (PyStr.path_join test_data_path "*/*/*")) in
  inr {| train_paths := train; dev_paths := dev; test_paths := test |}.

(** The [if data_type == ...] chain of the four accessors: the lists of the
    data type, or nothing (the accessor then returns [None]). *)
Definition of_data_type (self : Prepare) (data_type : string)
  : option path_lists :=
  if String.eqb data_type "train" then Some (train_paths self)
  else if String.eqb data_type "dev" then Some (dev_paths self)
  else if String.eqb data_type "test" then Some (test_paths self)
  else None.

(** [wav], [text], [word] and [phone], lines 128-182. *)
Definition wav (self : Prepare) (data_type : string)
  : option (list string) :=
  option_map (fun l => PyMore.sorted (wav_paths l))
             (of_data_type self data_type).

Definition text (self : Prepare) (data_type : string)
  : option (list string) :=
  option_map (fun l => PyMore.sorted (text_paths l))
             (of_data_type self data_type).

Definition word (self : Prepare) (data_type : string)
  : option (list string) :=
  option_map (fun l => PyMore.sorted (word_paths l))
             (of_data_type self data_type).

Definition phone (self : Prepare) (data_type : string)
  : option (list string) :=
  option_map (fun l => PyMore.sorted (phone_paths l))
             (of_data_type self data_type).

End Timit.

(* ------------------------------------------------------------------ *)
(** ** The shape of a complete run *)

Section RunShapes.
Context {F : Type} {SF : Scalar F}.

(** Utterances whose keys the save loop can unpack. *)
Definition well_keyed (utterances : dict (@matrix F)) : Prop :=
  Forall (fun item =>
            exists speaker_name utt_index,
              unpack_key (fst item) = inr (speaker_name, utt_index))
         utterances.

(** The element-wise [(x - mean) / std] of a matrix. *)
Definition centre_scale (mean std : @vec F) (utt : @matrix F) : @matrix F :=
  List.map (fun row => zip_with fdiv (zip_with fsub row mean) std) utt.

(** What the save loop and the [pickle.dump] after it add to the log when
    the matrices [saved] are saved under [save_path]. *)
Definition saved_log (save_path index_path : string)
  (saved : dict (@matrix F)) : list (io_event F) :=
  List.flat_map (utterance_events save_path) saved
  ++ [PickleDump index_path (assign_all saved [])].

End RunShapes.

(* ------------------------------------------------------------------ *)
(** ** What the loops of [__make] keep *)

Module TimitShapes.

(** A path with at least three components, which
    [file_path.split('/')[-3:]] can unpack. *)
Definition three_deep (file_path : string) : bool :=
  match Timit.unpack_path file_path with
  | inr _ => true
  | inl _ => false
  end.

(** An absolute path. *)
Definition absolute (file_path : string) : bool :=
  match file_path with
  | String "/" _ => true
  | _ => false
  end.

(** The files a loop keeps for the list of kind [k]: the speaker is listed
    (where there is a list), the file name begins with [sx] or [si], and
    the extension is that of [k]. *)
Definition keeps (speakers : option (list string)) (k : Timit.kind)
  (file_path : string) : bool :=
  match Timit.unpack_path file_path with
  | inr (_, speaker_name, file_name) =>
      match speakers with
      | None => true
      | Some names => PyMore.mem speaker_name names
      end
      && Timit.is_sx_or_si file_name
      && match Timit.kind_of_ext (PyMore.splitext_ext file_name) with
         | Some k' => Timit.kind_eqb k' k
         | None => false
         end
  | inl _ => false
  end.

(** The list of kind [k]. *)
Definition paths_of (k : Timit.kind) (lists : Timit.path_lists)
  : list string :=
  match k with
  | Timit.Wav => Timit.wav_paths lists
  | Timit.Text => Timit.text_paths lists
  | Timit.Word => Timit.word_paths lists
  | Timit.Phone => Timit.phone_paths lists
  end.

(** The accessor of kind [k]: [wav], [text], [word] or [phone]. *)
Definition accessor (k : Timit.kind)
  : Timit.Prepare -> string -> option (list string) :=
  match k with
  | Timit.Wav => Timit.wav
  | Timit.Text => Timit.text
  | Timit.Word => Timit.word
  | Timit.Phone => Timit.phone
  end.

(** The order of [str]. *)
Definition str_le (a b : string) : Prop := String.leb a b = true.

End TimitShapes.

(* ------------------------------------------------------------------ *)
(** ** A small TIMIT tree *)

Module TimitCorpus.

Definition train_listing : list string :=
  [ "/n/sd8/inaguma/corpus/timit/original/train/dr1/fcjf0/sx307.wav";
    "/n/sd8/inaguma/corpus/timit/original/train/dr1/fcjf0/sa1.wav";
    "/n/sd8/inaguma/corpus/timit/original/train/dr1/fcjf0/si1027.phn";
    "/n/sd8/inaguma/corpus/timit/original/train/dr1/fcjf0/sx307.txt";
    "/n/sd8/inaguma/corpus/timit/original/train/dr1/fcjf0/si1027.wav" ].

Definition test_listing : list string :=
  [ "/n/sd8/inaguma/corpus/timit/original/test/dr2/mwew0/sx281.wav";
    "/n/sd8/inaguma/corpus/timit/original/test/dr1/faks0/sx43.wav";
    "/n/sd8/inaguma/corpus/timit/original/test/dr1/faks0/sa2.wav";
    "/n/sd8/inaguma/corpus/timit/original/test/dr3/mbdg0/si833.wrd";
    "/n/sd8/inaguma/corpus/timit/original/test/dr1/faks0/si943.wav" ].

Definition glob (pattern : string) : list string :=
  if String.eqb pattern (PyStr.path_join Timit.train_data_path "*/*/*")
  then train_listing
  else if String.eqb pattern (PyStr.path_join Timit.test_data_path "*/*/*")
  then test_listing
  else [].

(** The same files, listed in the opposite order. *)
Definition glob_shuffled (pattern : string) : list string :=
  if String.eqb pattern (PyStr.path_join Timit.train_data_path "*/*/*")
  then List.rev train_listing
  else if String.eqb pattern (PyStr.path_join Timit.test_data_path "*/*/*")
  then List.rev test_listing
  else [].

(** [dev_speaker_list.txt] holds [faks0], [test_speaker_list.txt] holds
    [mwew0] and [mbdg0], one name per line. *)
Definition read_lines (path : string) : list string :=
  if String.eqb path
       (PyStr.path_join Timit.run_root_path "dev_speaker_list.txt")
  then [("faks0" ++ PyMore.newline)%string]
  else if String.eqb path
            (PyStr.path_join Timit.run_root_path "test_speaker_list.txt")
  then [("mwew0" ++ PyMore.newline)%string;
        ("mbdg0" ++ PyMore.newline)%string]
  else [].

End TimitCorpus.

(* ------------------------------------------------------------------ *)
(** ** The two cohorts of the per-gender reader *)

Module GenderShapes.

(** An HTK path whose speaker name has the letter of gender [g] as its
    fourth character ([speaker_name[3]]). *)
Definition of_gender (g : Gender.gender) (htk_path : string) : bool :=
  match Gender.gender_of (PyStr.speaker_of_path htk_path), g with
  | inr (Some Gender.Male), Gender.Male => true
  | inr (Some Gender.Female), Gender.Female => true
  | _, _ => false
  end.

End GenderShapes.

(* ================================================================== *)
(** * Properties *)

(** Literals such as 4.4000000000000004 name the binary64 value they print
    as; they are not decimal fractions. *)
#[local] Set Warnings "-inexact-float".


(** ** Strings and paths on examples *)

Example speaker_of_path_example :
  PyStr.speaker_of_path "/csj/htk/S00M0001.htk" = "S00M0001".
Proof. reflexivity. Qed.

Example split_examples :
  PyStr.split "_" "S00M0001_0" = ["S00M0001"; "0"]
  /\ PyStr.split "_" "S00M0001" = ["S00M0001"]
  /\ PyStr.split "/" "/data/train/input" = [""; "data"; "train"; "input"].
Proof. repeat split; reflexivity. Qed.

Example parent_example : PyStr.parent "/data/train/input" = "/data/train".
Proof. reflexivity. Qed.

Example path_join_examples :
  PyStr.path_join "/data/train" "frame_num.pickle"
  = "/data/train/frame_num.pickle"
  /\ PyStr.path_join "/data/train/" "S00M0001" = "/data/train/S00M0001"
  /\ PyStr.path_join "/data/train" "/tmp/x" = "/tmp/x".
Proof. repeat split; reflexivity. Qed.

Example unpack_key_examples :
  unpack_key "S00M0001_0" = inr ("S00M0001", "0")
  /\ unpack_key "S00M0001" = inl ValueError
  /\ unpack_key "S00_M0001_0" = inl ValueError.
Proof. repeat split; reflexivity. Qed.

(** Indexing goes by character. The Japanese character U+65E5 takes three
    bytes: in a name that begins with it, index 3 is the fourth character
    and not the fourth byte. *)
Example index_counts_characters :
  PyStr.chars (PyStr.utf8 [230; 151; 165] ++ "00M1")
  = [PyStr.utf8 [230; 151; 165]; "0"; "0"; "M"; "1"]
  /\ PyStr.index (PyStr.utf8 [230; 151; 165] ++ "00M1") 3 = Some "M"
  /\ Gender.gender_of (PyStr.utf8 [230; 151; 165] ++ "00M0001")
     = inr (Some Gender.Male)
  /\ Gender.gender_of (PyStr.utf8 [230; 151; 165] ++ "M00") = inr None
  /\ Gender.gender_of (PyStr.utf8 [230; 151; 165] ++ "M0") = inl IndexError.
Proof. repeat split; vm_compute; reflexivity. Qed.

(** [strip] removes the white space of Unicode -- here the no-break space
    U+00A0 and the ideographic space U+3000 -- at the two ends only, and
    keeps the zero-width space U+200B, which is no white space. *)
Example strip_examples :
  PyMore.strip ("faks0" ++ PyStr.utf8 [194; 160] ++ PyMore.newline)
  = "faks0"
  /\ PyMore.strip (PyStr.utf8 [227; 128; 128] ++ " faks0") = "faks0"
  /\ PyMore.strip ("fa" ++ PyStr.utf8 [194; 160] ++ "ks0 ")
     = ("fa" ++ PyStr.utf8 [194; 160] ++ "ks0")%string
  /\ PyMore.strip (PyStr.utf8 [226; 128; 139] ++ "faks0")
     = (PyStr.utf8 [226; 128; 139] ++ "faks0")%string.
Proof. repeat split; vm_compute; reflexivity. Qed.

(** ** Reasoning about the two monads *)

Lemma bindR_inr {A B : Type} (m : result A) (k : A -> result B) (b : B) :
  bindR m k = inr b -> exists a, m = inr a /\ k a = inr b.
Proof.
  destruct m as [e | a]; simpl; intros H.
  - discriminate.
  - exists a. split; [reflexivity | exact H].
Qed.

Lemma bind_inr {E A B : Type} (m : M E A) (k : A -> M E B)
  (log log' : list E) (b : B) :
  bind m k log = (inr b, log') ->
  exists a mid, m log = (inr a, mid) /\ k a mid = (inr b, log').
Proof.
  unfold bind. destruct (m log) as [[e | a] mid]; intros H.
  - discriminate.
  - exists a, mid. split; [reflexivity | exact H].
Qed.

Lemma lift_inr {E A : Type} (r : result A) (log log' : list E) (a : A) :
  lift r log = (inr a, log') -> r = inr a /\ log' = log.
Proof.
  unfold lift. intros H. injection H as Hr Hl. split; congruence.
Qed.

Lemma mapR_total {A B : Type} (f : A -> result B) (g : A -> B)
  (xs : list A) :
  (forall x, In x xs -> f x = inr (g x)) -> mapR f xs = inr (List.map g xs).
Proof.
  induction xs as [| x rest IH]; intros Hf; simpl.
  - reflexivity.
  - rewrite (Hf x (or_introl eq_refl)). simpl.
    rewrite IH by (intros y Hy; apply Hf; right; exact Hy).
    reflexivity.
Qed.

(** ** Arrays *)

Section ArrayFacts.
Context {F : Type} {SF : Scalar F}.

Lemma zip_with_length (op : F -> F -> F) (a b : @vec F) :
  List.length (zip_with op a b) = Nat.min (List.length a) (List.length b).
Proof.
  revert b. induction a as [| x a IH]; intros [| y b]; simpl; auto.
Qed.

Lemma zip_with_nth (op : F -> F -> F) (a b : @vec F) (j : nat) (dflt : F) :
  j < List.length a -> j < List.length b ->
  List.nth j (zip_with op a b) dflt
  = op (List.nth j a dflt) (List.nth j b dflt).
Proof.
  revert b j. induction a as [| x a IH]; intros [| y b] [| j] Ha Hb;
    simpl in *; try lia; auto.
  apply IH; lia.
Qed.

Lemma broadcast_same_shape (inplace : bool) (op : F -> F -> F)
  (a b : @vec F) :
  List.length a = List.length b ->
  broadcast inplace op a b = inr (zip_with op a b).
Proof.
  intros H. unfold broadcast. rewrite H, Nat.eqb_refl. reflexivity.
Qed.

Lemma np_empty_length (junk : nat -> F) (d : nat) :
  List.length (np_empty junk d) = d.
Proof. unfold np_empty. rewrite length_map, length_seq. reflexivity. Qed.

Lemma np_zeros_length (d : nat) : List.length (@np_zeros F SF d) = d.
Proof. unfold np_zeros. apply repeat_length. Qed.

(** A buffer from [np.empty] whose cells happen to hold zero is the one
    [np.zeros] returns. *)
Lemma np_empty_zeroed (junk : nat -> F) (d : nat) :
  (forall j, j < d -> junk j = f0) -> np_empty junk d = np_zeros d.
Proof.
  intros Hz. unfold np_empty, np_zeros.
  apply nth_ext with (d := f0) (d' := f0).
  - rewrite length_map, length_seq, repeat_length. reflexivity.
  - intros n Hn. rewrite length_map, length_seq in Hn.
    rewrite nth_repeat.
    rewrite (nth_indep _ f0 (junk 0)) by (rewrite length_map, length_seq; lia).
    rewrite map_nth. rewrite seq_nth by lia. apply Hz. lia.
Qed.

(** On operands of one width the normalisation is the element-wise
    [(x - mean) / std], whichever way it is spelled. *)
Lemma normalize_well_shaped (inplace : bool) (utt : @matrix F)
  (mean std : @vec F) (d : nat) :
  Forall (fun row => List.length row = d) utt ->
  List.length mean = d -> List.length std = d ->
  normalize inplace utt mean std
  = inr (List.map (fun row => zip_with fdiv (zip_with fsub row mean) std)
                  utt).
Proof.
  intros Hrows Hmean Hstd. unfold normalize, mat_sub, mat_div.
  rewrite (mapR_total _ (fun row => zip_with fsub row mean)).
  - simpl.
    rewrite (mapR_total _ (fun row => zip_with fdiv row std)).
    + rewrite map_map. reflexivity.
    + intros row Hin. apply in_map_iff in Hin.
      destruct Hin as (row0 & <- & Hin0).
      apply broadcast_same_shape.
      rewrite zip_with_length.
      rewrite Forall_forall in Hrows. rewrite (Hrows _ Hin0). lia.
  - intros row Hin. apply broadcast_same_shape.
    rewrite Forall_forall in Hrows. rewrite (Hrows _ Hin). lia.
Qed.

Lemma normalize_entry (utt : @matrix F) (mean std : @vec F) (d i j : nat) :
  Forall (fun row => List.length row = d) utt ->
  List.length mean = d -> List.length std = d ->
  i < List.length utt -> j < d ->
  List.nth j
    (List.nth i
       (List.map (fun row => zip_with fdiv (zip_with fsub row mean) std) utt)
       []) f0
  = fdiv (fsub (List.nth j (List.nth i utt []) f0) (List.nth j mean f0))
         (List.nth j std f0).
Proof.
  intros Hrows Hmean Hstd Hi Hj.
  assert (Hrow : List.length (List.nth i utt []) = d).
  { rewrite Forall_forall in Hrows. apply Hrows. apply nth_In. exact Hi. }
  rewrite (nth_indep _ [] (zip_with fdiv (zip_with fsub [] mean) std))
    by (rewrite length_map; exact Hi).
  rewrite (map_nth (fun row => zip_with fdiv (zip_with fsub row mean) std)).
  rewrite zip_with_nth.
  - rewrite zip_with_nth by lia. reflexivity.
  - rewrite zip_with_length. lia.
  - lia.
Qed.

End ArrayFacts.

(** ** Normalisation *)

Section NormalizeFacts.
Context {F : Type} {SF : Scalar F}.

(** C3. On an utterance matrix whose rows have the width of the mean and of
    the std, the normalisation of both readers -- [(utt - mean) / std] in
    the single-cohort reader, [utt -= mean; utt /= std] in the per-gender
    one -- raises nothing and returns a matrix of as many rows in which the
    entry of row [i] and column [j] is [(utt[i][j] - mean[j]) / std[j]]. *)
Theorem normalize_is_centre_then_scale (inplace : bool) (utt : @matrix F)
  (mean std : @vec F) (d : nat)
  (Hrows : Forall (fun row => List.length row = d) utt)
  (Hmean : List.length mean = d) (Hstd : List.length std = d) :
  exists out,
    normalize inplace utt mean std = inr out
    /\ List.length out = List.length utt
    /\ forall i j, i < List.length utt -> j < d ->
         List.nth j (List.nth i out []) f0
         = fdiv (fsub (List.nth j (List.nth i utt []) f0)
                      (List.nth j mean f0))
                (List.nth j std f0).
Proof.
  eexists. split; [| split].
  - apply normalize_well_shaped with (d := d); assumption.
  - apply length_map.
  - intros i j Hi Hj. apply normalize_entry with (d := d); assumption.
Qed.

End NormalizeFacts.

Lemma normalize_is_centre_then_scale_witness :
  Forall (fun row => List.length row = 2)
         [[1%float; 10%float]; [3%float; 30%float]]
  /\ List.length [2%float; 20%float] = 2
  /\ List.length [4%float; 5%float] = 2
  /\ exists out,
       normalize false [[1%float; 10%float]; [3%float; 30%float]]
                 [2%float; 20%float] [4%float; 5%float] = inr out
       /\ List.length out = 2
       /\ forall i j, i < 2 -> j < 2 ->
            List.nth j (List.nth i out []) f0
            = fdiv (fsub (List.nth j
                            (List.nth i [[1%float; 10%float];
                                         [3%float; 30%float]] []) f0)
                         (List.nth j [2%float; 20%float] f0))
                   (List.nth j [4%float; 5%float] f0).
Proof.
  assert (Hrows : Forall (fun row : list float => List.length row = 2)
                         [[1%float; 10%float]; [3%float; 30%float]])
    by (repeat constructor).
  split; [exact Hrows |].
  split; [reflexivity |].
  split; [reflexivity |].
  exact (normalize_is_centre_then_scale false
           [2%float; 20%float] [4%float; 5%float]
           Hrows eq_refl eq_refl).
Defined.

Lemma div_by_zero_non_finite (a : float) : non_finite (PrimFloat.div a 0).
Proof.
  unfold non_finite. rewrite div_spec.
  replace (Prim2SF 0) with (S754_zero false) by (vm_compute; reflexivity).
  destruct (Prim2SF a) as [sa | sa | | sa ma ea]; simpl; exact I.
Qed.

(** C6, as the code has it. There is no zero-variance check: with a std
    that is exactly zero in column [j], the normalisation of a well-shaped
    [np.float64] utterance raises nothing and substitutes nothing; it
    returns a matrix whose every entry in column [j] is the quotient by
    zero, a NaN or an infinity. *)
Theorem normalize_zero_std_non_finite (inplace : bool)
  (utt : @matrix float) (mean std : @vec float) (d j : nat)
  (Hrows : Forall (fun row => List.length row = d) utt)
  (Hmean : List.length mean = d) (Hstd : List.length std = d)
  (Hj : j < d) (Hzero : List.nth j std 0%float = 0%float) :
  exists out,
    normalize inplace utt mean std = inr out
    /\ List.length out = List.length utt
    /\ forall i, i < List.length utt ->
         non_finite (List.nth j (List.nth i out []) 0%float).
Proof.
  eexists. split; [| split].
  - apply normalize_well_shaped with (d := d); assumption.
  - apply length_map.
  - intros i Hi.
    pose proof (@normalize_entry float binary64 utt mean std d i j
                  Hrows Hmean Hstd Hi Hj) as Hentry.
    simpl in Hentry. simpl. rewrite Hentry, Hzero.
    apply div_by_zero_non_finite.
Qed.

Lemma normalize_zero_std_non_finite_witness :
  Forall (fun row => List.length row = 1) [[2%float]; [3%float]]
  /\ List.length [2%float] = 1 /\ List.length [0%float] = 1
  /\ 0 < 1 /\ List.nth 0 [0%float] 0%float = 0%float
  /\ exists out,
       normalize false [[2%float]; [3%float]] [2%float] [0%float] = inr out
       /\ List.length out = 2
       /\ forall i, i < 2 ->
            non_finite (List.nth 0 (List.nth i out []) 0%float).
Proof.
  assert (Hrows : Forall (fun row : list float => List.length row = 1)
                         [[2%float]; [3%float]])
    by (repeat constructor).
  split; [exact Hrows |].
  split; [reflexivity |].
  split; [reflexivity |].
  split; [apply Nat.lt_0_1 |].
  split; [reflexivity |].
  exact (normalize_zero_std_non_finite false [2%float] [0%float]
           Hrows eq_refl eq_refl Nat.lt_0_1 eq_refl).
Defined.

(** C6, refuted as stated: with mean 2.0 and std 0.0 the frames 2.0 and 3.0
    are normalised to NaN and to infinity and no [ZeroVarianceError] is
    raised; and a training run over one speaker whose two frames are both
    8.0 finalizes the std 0.0, raises nothing and saves a matrix of NaN. *)
Lemma zero_std_is_not_an_error :
  normalize false [[2%float]; [3%float]] [2%float] [0%float]
  = inr [[nan]; [infinity]]
  /\ normalize false [[2%float]; [3%float]] [2%float] [0%float]
     <> inl ZeroVarianceError
  /\ normalize true [[2%float]; [3%float]] [2%float] [0%float]
     <> inl ZeroVarianceError
  /\ Single.read_htk Corpus.segment_single Corpus.zeroed [Corpus.woman]
       Corpus.speaker_dict true true (Some "/data/train/input") None None []
     = (inr (None, None),
        [ NpSaveVec "/data/train/train_mean.npy" [8%float];
          NpSaveVec "/data/train/train_std.npy" [0%float];
          Mkdir "/data/train/input/S00F0002";
          NpSaveMat "/data/train/input/S00F0002/S00F0002_0.npy"
            [[nan]; [nan]];
          PickleDump "/data/train/frame_num.pickle" [("S00F0002_0", 2)] ]).
Proof.
  split; [vm_compute; reflexivity |].
  split; [vm_compute; discriminate |].
  split; [vm_compute; discriminate |].
  vm_compute. reflexivity.
Qed.

(** ** Segmentation range *)

(** C9. For a boundary inside its stream ([0 <= start < end <= frame
    count]) and any padding [p >= 0], the Segmenter raises nothing and emits
    exactly [[max(0, start - p), min(frame count, end + p))], a range inside
    the stream however far the padding reaches; with [p = 0] it is
    [[start, end)]. *)
Theorem emitted_range_clips_padding
  (frame_count start_frame end_frame pad_frames : Z)
  (Hpad : (0 <= pad_frames)%Z)
  (Hbound : (0 <= start_frame < end_frame)%Z)
  (Hend : (end_frame <= frame_count)%Z) :
  Design.emitted_range frame_count start_frame end_frame pad_frames
  = inr (Z.max 0 (start_frame - pad_frames),
         Z.min frame_count (end_frame + pad_frames))
  /\ (0 <= Z.max 0 (start_frame - pad_frames))%Z
  /\ (Z.min frame_count (end_frame + pad_frames) <= frame_count)%Z
  /\ Design.emitted_range frame_count start_frame end_frame 0
     = inr (start_frame, end_frame).
Proof.
  unfold Design.emitted_range. repeat split.
  - destruct (Z.ltb_spec (Z.max 0 (start_frame - pad_frames))
                         (Z.min frame_count (end_frame + pad_frames)));
      [reflexivity | lia].
  - lia.
  - lia.
  - replace (Z.max 0 (start_frame - 0)) with start_frame by lia.
    replace (Z.min frame_count (end_frame + 0)) with end_frame by lia.
    destruct (Z.ltb_spec start_frame end_frame); [reflexivity | lia].
Qed.

Lemma emitted_range_clips_padding_witness :
  (0 <= 50)%Z /\ (0 <= 20 < 130)%Z /\ (130 <= 150)%Z
  /\ Design.emitted_range 150 20 130 50 = inr (Z.max 0 (20 - 50),
                                               Z.min 150 (130 + 50))
  /\ (0 <= Z.max 0 (20 - 50))%Z
  /\ (Z.min 150 (130 + 50) <= 150)%Z
  /\ Design.emitted_range 150 20 130 0 = inr (20, 130)%Z.
Proof.
  assert (H1 : (0 <= 50)%Z) by lia.
  assert (H2 : (0 <= 20 < 130)%Z) by lia.
  assert (H3 : (130 <= 150)%Z) by lia.
  split; [exact H1 |]. split; [exact H2 |]. split; [exact H3 |].
  exact (emitted_range_clips_padding H1 H2 H3).
Defined.

(** ** The single-cohort reader *)

Section SingleFacts.
Context {F : Type} {SF : Scalar F}.
Variable utt_table : Type.
Variable segment_htk :
  string -> string -> utt_table -> bool -> nat
  -> result (@Single.segmented F).

(** C5. Whenever the single-cohort [read_htk] returns, it returns the
    [train_mean] and [train_std] it was called with, in training mode too:
    the statistics computed there go to the log ([np.save]) and nowhere
    else. *)
Theorem read_htk_returns_its_arguments (heap : Single.allocator)
  (htk_paths : list string) (speaker_dict : dict utt_table)
  (global_norm is_training : bool) (save_path : option string)
  (train_mean train_std : option (@vec F))
  (log log' : list (io_event F))
  (returned : option (@vec F) * option (@vec F))
  (Hrun : Single.read_htk segment_htk heap htk_paths speaker_dict
            global_norm is_training save_path train_mean train_std log
          = (inr returned, log')) :
  returned = (train_mean, train_std).
Proof.
  unfold Single.read_htk in Hrun.
  apply bind_inr in Hrun. destruct Hrun as (return_list & l1 & _ & Hrun).
  apply bind_inr in Hrun. destruct Hrun as (stats & l2 & _ & Hrun).
  apply bind_inr in Hrun. destruct Hrun as (u & l3 & _ & Hrun).
  unfold ret in Hrun. congruence.
Qed.

End SingleFacts.

Example training_run_log :
  snd Corpus.training_run
  = [ NpSaveVec "/data/train/train_mean.npy" [4.4000000000000004%float];
      NpSaveVec "/data/train/train_std.npy" [2.9393876913398138%float];
      Mkdir "/data/train/input/S00M0001";
      NpSaveMat "/data/train/input/S00M0001/S00M0001_0.npy"
        [[(-0.81649658092772615)%float]; [(-0.81649658092772615)%float];
         [(-0.81649658092772615)%float]];
      Mkdir "/data/train/input/S00F0002";
      NpSaveMat "/data/train/input/S00F0002/S00F0002_0.npy"
        [[1.2247448713915889%float]; [1.2247448713915889%float]];
      PickleDump "/data/train/frame_num.pickle"
        [("S00M0001_0", 3); ("S00F0002_0", 2)] ].
Proof. vm_compute. reflexivity. Qed.

Lemma read_htk_returns_its_arguments_witness :
  Corpus.training_run
  = (inr (Some [0%float], Some [1%float]), snd Corpus.training_run)
  /\ (Some [0%float], Some [1%float])
     = (Some [0%float], Some [1%float]).
Proof.
  assert (Hrun : Corpus.training_run
                 = (inr (Some [0%float], Some [1%float]),
                    snd Corpus.training_run))
    by (vm_compute; reflexivity).
  split; [exact Hrun |].
  exact (@read_htk_returns_its_arguments float binary64 _
           Corpus.segment_single Corpus.zeroed [Corpus.man; Corpus.woman]
           Corpus.speaker_dict true true (Some "/data/train/input")
           (Some [0%float]) (Some [1%float]) [] (snd Corpus.training_run)
           _ Hrun).
Defined.

(** ** The two passes of the single-cohort statistics *)

Section StatisticsFacts.
Context {F : Type} {SF : Scalar F}.

(** A loop that adds one term of width [d] per element to an accumulator of
    width [d] computes the sum of the terms. *)
Lemma foldR_accumulate {B : Type} (body : @vec F -> B -> result (@vec F))
  (term : B -> @vec F) (d : nat) (xs : list B) :
  (forall acc x, In x xs -> List.length acc = d ->
                 body acc x = inr (zip_with fadd acc (term x))) ->
  Forall (fun x => List.length (term x) = d) xs ->
  forall acc, List.length acc = d ->
    foldR body acc xs
    = inr (List.fold_left (zip_with fadd) (List.map term xs) acc).
Proof.
  induction xs as [| x rest IH]; intros Hbody Hterm acc Hacc; simpl.
  - reflexivity.
  - rewrite (Hbody acc x (or_introl eq_refl) Hacc). simpl.
    apply IH.
    + intros a y Hy Ha. apply Hbody; [right; exact Hy | exact Ha].
    + inversion Hterm; assumption.
    + rewrite zip_with_length. inversion Hterm; subst. lia.
Qed.

Lemma fold_zip_length (d : nat) (vs : list (@vec F)) :
  Forall (fun v => List.length v = d) vs ->
  forall acc, List.length acc = d ->
    List.length (List.fold_left (zip_with fadd) vs acc) = d.
Proof.
  induction vs as [| v rest IH]; intros Hvs acc Hacc; simpl.
  - exact Hacc.
  - inversion Hvs; subst. apply IH; [assumption |].
    rewrite zip_with_length. lia.
Qed.

Lemma map_snd_enumerate {A B : Type} (g : A -> B) (xs : list A) :
  List.map (fun p => g (snd p)) (enumerate xs) = List.map g xs.
Proof.
  unfold enumerate. generalize 0 as start.
  induction xs as [| x rest IH]; intros start; simpl.
  - reflexivity.
  - rewrite IH. reflexivity.
Qed.

Lemma in_enumerate {A : Type} (xs : list A) (i : nat) (x : A) :
  In (i, x) (enumerate xs) -> In x xs.
Proof. unfold enumerate. apply in_combine_r. Qed.

Lemma mapR_fit_row (d : nat) (u : @matrix F) :
  Forall (fun frame => List.length frame = d) u ->
  mapR (Single.fit_row d) u = inr u.
Proof.
  intros Hu. rewrite (mapR_total _ (fun row => row)).
  - rewrite map_id. reflexivity.
  - intros row Hin. unfold Single.fit_row.
    rewrite Forall_forall in Hu. rewrite (Hu _ Hin), Nat.eqb_refl.
    reflexivity.
Qed.

(** A slice assignment that fits: the rows after the first [length done]
    are replaced by those of [u]. *)
Lemma slice_assign_fits (d : nat) (done free u : @matrix F) :
  Forall (fun frame => List.length frame = d) u ->
  List.length u <= List.length free ->
  Single.slice_assign d (done ++ free) (List.length done) u
  = inr (done ++ u ++ List.skipn (List.length u) free).
Proof.
  intros Hu Hfree. unfold Single.slice_assign.
  rewrite (mapR_fit_row Hu). simpl.
  rewrite length_app.
  replace (Nat.min (List.length done + List.length free)
                   (List.length done + List.length u)
           - Nat.min (List.length done + List.length free)
                     (List.length done))
    with (List.length u) by lia.
  rewrite Nat.eqb_refl.
  rewrite firstn_app, firstn_all, Nat.sub_diag, firstn_O, app_nil_r.
  rewrite skipn_app, skipn_all2 by lia.
  replace (List.length done + List.length u - List.length done)
    with (List.length u) by lia.
  reflexivity.
Qed.

Lemma fill_loop (d : nat) (utts : list (@matrix F)) :
  Forall (fun frame => List.length frame = d) (List.concat utts) ->
  forall done free,
    List.length (List.concat utts) <= List.length free ->
    foldR (fun '(frame_offset, data) input_data_utt =>
             let? data' := Single.slice_assign d data frame_offset
                                               input_data_utt in
             inr (frame_offset + List.length input_data_utt, data'))
          (List.length done, done ++ free) utts
    = inr (List.length done + List.length (List.concat utts),
           done ++ List.concat utts
                ++ List.skipn (List.length (List.concat utts)) free).
Proof.
  induction utts as [| u rest IH]; intros Hw done free Hfree; simpl in *.
  - rewrite Nat.add_0_r. reflexivity.
  - apply Forall_app in Hw. destruct Hw as [Hu Hrest].
    rewrite length_app in Hfree.
    rewrite slice_assign_fits by (assumption || lia). simpl.
    specialize (IH Hrest (done ++ u) (List.skipn (List.length u) free)).
    rewrite length_app in IH. rewrite <- app_assoc in IH.
    refine (eq_trans (IH _) _); [rewrite length_skipn; lia |].
    rewrite length_app, skipn_skipn, <- !app_assoc.
    rewrite (Nat.add_comm (List.length (List.concat rest)) (List.length u)).
    rewrite Nat.add_assoc. reflexivity.
Qed.

(** Lines 67-75 copy exactly the frames of the speaker when the frame count
    is right: nothing of the uninitialised buffer is left. *)
Lemma fill_speaker_exact (d : nat) (junk : nat -> nat -> F)
  (r : Single.segmented) :
  Single.well_segmented d r ->
  Single.fill_speaker d
    (np_empty2 junk (Single.seg_total_frame_num r) d)
    (Single.seg_input_data_dict r)
  = inr (Single.frames_of r).
Proof.
  intros (Hframes & _ & Hcount & _). unfold Single.fill_speaker.
  cbv zeta.
  pose proof (@fill_loop d (dict_values (Single.seg_input_data_dict r))
                Hframes []
                (np_empty2 junk (Single.seg_total_frame_num r) d)) as Hloop.
  simpl in Hloop. fold (Single.frames_of r) in Hloop.
  refine (eq_trans (f_equal (fun m => bindR m _) (Hloop _)) _).
  - unfold np_empty2. rewrite length_map, length_seq. lia.
  - simpl. rewrite skipn_all2, app_nil_r; [reflexivity |].
    unfold np_empty2. rewrite length_map, length_seq. lia.
Qed.

(** [sqrt_sum] on frames of the width of the mean: the sum of the squared
    deviations, accumulated from zero. *)
Lemma sqrt_sum_exact (d : nat) (inputs : @matrix F) (global_mean : @vec F) :
  inputs <> [] ->
  Forall (fun frame => List.length frame = d) inputs ->
  List.length global_mean = d ->
  Single.sqrt_sum inputs global_mean
  = inr (Design.sum_sq_dev d global_mean inputs).
Proof.
  intros Hne Hin Hmean. unfold Single.sqrt_sum, Design.sum_sq_dev,
    Design.vec_sum.
  destruct inputs as [| first rest]; [congruence |].
  assert (Hfirst : List.length first = d) by (inversion Hin; assumption).
  rewrite Hfirst.
  apply foldR_accumulate with (d := d).
  - intros acc frame Hframe Hacc.
    rewrite Forall_forall in Hin.
    rewrite broadcast_same_shape by (rewrite (Hin _ Hframe); lia).
    simpl. apply broadcast_same_shape.
    rewrite length_map, zip_with_length, (Hin _ Hframe). lia.
  - rewrite Forall_forall in *. intros frame Hframe.
    rewrite length_map, zip_with_length, (Hin _ Hframe). lia.
  - apply np_zeros_length.
Qed.

Lemma sum_sq_dev_length (d : nat) (mean : @vec F) (frames : @matrix F) :
  Forall (fun frame => List.length frame = d) frames ->
  List.length mean = d ->
  List.length (Design.sum_sq_dev d mean frames) = d.
Proof.
  intros Hin Hmean. unfold Design.sum_sq_dev, Design.vec_sum.
  apply fold_zip_length; [| apply np_zeros_length].
  rewrite Forall_forall in *. intros v Hv. apply in_map_iff in Hv.
  destruct Hv as (frame & <- & Hframe).
  rewrite length_map, zip_with_length, (Hin _ Hframe). lia.
Qed.

Lemma speaker_squares_exact (heap : Single.allocator) (d i : nat)
  (mean : @vec F) (r : Single.segmented) :
  Single.well_segmented d r -> List.length mean = d ->
  Single.speaker_squares heap d mean i r
  = inr (Design.sum_sq_dev d mean (Single.frames_of r)).
Proof.
  intros Hwf Hmean. unfold Single.speaker_squares.
  rewrite (fill_speaker_exact _ Hwf). simpl.
  destruct Hwf as (Hframes & _ & Hcount & Hpos).
  apply sqrt_sum_exact; try assumption.
  intros Hnil. rewrite Hnil in Hcount. simpl in Hcount. lia.
Qed.

(** The mean pass from a zeroed buffer. *)
Lemma global_mean_pass_zeroed (heap : Single.allocator) (d total : nat)
  (return_list : list Single.segmented) :
  Forall (fun r => List.length (Single.seg_train_mean r) = d) return_list ->
  (forall j, j < d -> Single.junk_mean heap j = f0) ->
  Single.global_mean_pass heap d total return_list
  = inr (vdiv_scalar
           (Design.vec_sum d (List.map Single.seg_train_mean return_list))
           (of_count total)).
Proof.
  intros Hdim Hzero. unfold Single.global_mean_pass.
  rewrite (np_empty_zeroed _ Hzero).
  rewrite (@foldR_accumulate _ _ Single.seg_train_mean d).
  - reflexivity.
  - intros acc r Hr Hacc. apply broadcast_same_shape.
    rewrite Forall_forall in Hdim. rewrite (Hdim r Hr). exact Hacc.
  - exact Hdim.
  - apply np_zeros_length.
Qed.

(** The variance pass from a zeroed buffer. *)
Lemma global_std_pass_zeroed (heap : Single.allocator) (d total : nat)
  (return_list : list Single.segmented) (mean : @vec F) :
  Forall (Single.well_segmented d) return_list ->
  (forall j, j < d -> Single.junk_std heap j = f0) ->
  List.length mean = d ->
  Single.global_std_pass heap d total return_list mean
  = inr (Design.finalize_std d mean
           (List.map Single.frames_of return_list) total).
Proof.
  intros Hwf Hzero Hmean. unfold Single.global_std_pass, Design.finalize_std.
  rewrite (np_empty_zeroed _ Hzero).
  rewrite (@foldR_accumulate _ _
             (fun p => Design.sum_sq_dev d mean (Single.frames_of (snd p)))
             d).
  - rewrite (map_snd_enumerate
               (fun r => Design.sum_sq_dev d mean (Single.frames_of r))).
    simpl. unfold Design.vec_sum. rewrite map_map. reflexivity.
  - intros acc [i r] Hin Hacc. apply in_enumerate in Hin.
    rewrite Forall_forall in Hwf. pose proof (Hwf r Hin) as Hr.
    rewrite (@speaker_squares_exact heap d i mean r Hr Hmean). simpl.
    apply broadcast_same_shape.
    rewrite sum_sq_dev_length; [exact Hacc | apply Hr | exact Hmean].
  - rewrite Forall_forall in *. intros [i r] Hin. apply in_enumerate in Hin.
    simpl. apply sum_sq_dev_length; [apply (Hwf r Hin) | exact Hmean].
  - apply np_zeros_length.
Qed.

Lemma finalize_mean_length (d : nat) (sums : list (@vec F))
  (counts : list nat) :
  Forall (fun v => List.length v = d) sums ->
  List.length (Design.finalize_mean d sums counts) = d.
Proof.
  intros Hsums. unfold Design.finalize_mean, vdiv_scalar, Design.vec_sum.
  rewrite length_map.
  apply fold_zip_length; [exact Hsums | apply np_zeros_length].
Qed.

(** C1, as the code has it. For every non-empty cohort whose per-speaker
    sums have the feature dimension [d], and whenever the buffer that
    [np.empty] hands to the mean pass holds zeros, the mean pass raises
    nothing and the finalized global mean is the element-wise sum of the
    speakers' sums divided by the total frame count; a training run that
    gets through both passes has that mean. (For the synthetic cohort of
    the design document the value is 22/5, in binary64
    4.4000000000000004.) *)
Theorem global_mean_is_sum_over_frame_count (heap : Single.allocator)
  (return_list : list Single.segmented) (d : nat)
  (Hcohort : return_list <> [])
  (Hdim : Forall (fun r => List.length (Single.seg_train_mean r) = d)
                 return_list)
  (Hzero : forall j, j < d -> Single.junk_mean heap j = f0) :
  Single.feature_dim_of return_list = inr d
  /\ Single.global_mean_pass heap d
       (Single.total_frame_num_of return_list) return_list
     = inr (Design.finalize_mean d
              (List.map Single.seg_train_mean return_list)
              (List.map Single.seg_total_frame_num return_list))
  /\ forall mean std,
       Single.train_statistics heap return_list = inr (mean, std) ->
       mean = Design.finalize_mean d
                (List.map Single.seg_train_mean return_list)
                (List.map Single.seg_total_frame_num return_list).
Proof.
  assert (Hfd : Single.feature_dim_of return_list = inr d).
  { destruct return_list as [| first rest]; [congruence |].
    simpl. inversion Hdim; subst. reflexivity. }
  assert (Hpass : Single.global_mean_pass heap d
                    (Single.total_frame_num_of return_list) return_list
                  = inr (Design.finalize_mean d
                           (List.map Single.seg_train_mean return_list)
                           (List.map Single.seg_total_frame_num
                                     return_list))).
  { apply global_mean_pass_zeroed; assumption. }
  split; [exact Hfd |]. split; [exact Hpass |].
  intros mean std Hrun. unfold Single.train_statistics in Hrun.
  rewrite Hfd in Hrun. simpl in Hrun. rewrite Hpass in Hrun. simpl in Hrun.
  apply bindR_inr in Hrun. destruct Hrun as (s & _ & Hrun).
  congruence.
Qed.

(** C2, as the code has it. For every non-empty cohort of well-segmented
    speakers, and whenever the buffers that [np.empty] hands to the two
    passes hold zeros, the training statistics are computed without a raise
    and the finalized standard deviation is, element-wise,
    [sqrt(sum of (frame - mean)^2 / total frame count)], every squared
    deviation taken against the finalized cohort mean. (For the synthetic
    cohort the value is the binary64 2.9393876913398138, the square root of
    8.64.) *)
Theorem global_std_is_deviation_from_cohort_mean (heap : Single.allocator)
  (return_list : list Single.segmented) (d : nat)
  (Hcohort : return_list <> [])
  (Hwf : Forall (Single.well_segmented d) return_list)
  (Hzero_mean : forall j, j < d -> Single.junk_mean heap j = f0)
  (Hzero_std : forall j, j < d -> Single.junk_std heap j = f0) :
  let mean := Design.finalize_mean d
                (List.map Single.seg_train_mean return_list)
                (List.map Single.seg_total_frame_num return_list) in
  Single.train_statistics heap return_list
  = inr (mean,
         Design.finalize_std d mean
           (List.map Single.frames_of return_list)
           (Single.total_frame_num_of return_list)).
Proof.
  intros mean.
  assert (Hdim : Forall (fun r => List.length (Single.seg_train_mean r) = d)
                        return_list).
  { rewrite Forall_forall in *. intros r Hr. apply (Hwf r Hr). }
  unfold Single.train_statistics.
  replace (Single.feature_dim_of return_list) with (@inr exn nat d).
  2:{ destruct return_list as [| first rest]; [congruence |].
      simpl. inversion Hdim; subst. reflexivity. }
  simpl.
  rewrite (@global_mean_pass_zeroed heap d _ return_list Hdim Hzero_mean).
  simpl.
  fold (Single.total_frame_num_of return_list).
  rewrite (@global_std_pass_zeroed heap d _ return_list _ Hwf Hzero_std).
  - reflexivity.
  - unfold vdiv_scalar. rewrite length_map.
    apply fold_zip_length; [| apply np_zeros_length].
    rewrite Forall_forall in *. intros v Hv. apply in_map_iff in Hv.
    destruct Hv as (r & <- & Hr). apply (Hdim r Hr).
Qed.

End StatisticsFacts.

(** Two results over binary64 differ as soon as an observation of them
    computes to different booleans. *)
Ltac differs_by observe :=
  let H := fresh "H" in
  intro H; apply (f_equal observe) in H; vm_compute in H; discriminate H.

Lemma cohort_well_segmented :
  Forall (Single.well_segmented 1) Corpus.cohort.
Proof.
  unfold Corpus.cohort, Single.well_segmented, Single.frames_of. simpl.
  repeat constructor.
Qed.

Lemma global_mean_is_sum_over_frame_count_witness :
  Corpus.cohort <> []
  /\ Forall (fun r => List.length (Single.seg_train_mean r) = 1)
            Corpus.cohort
  /\ (forall j, j < 1 -> Single.junk_mean Corpus.zeroed j = f0)
  /\ Single.feature_dim_of Corpus.cohort = inr 1
  /\ Single.global_mean_pass Corpus.zeroed 1
       (Single.total_frame_num_of Corpus.cohort) Corpus.cohort
     = inr (Design.finalize_mean 1
              (List.map Single.seg_train_mean Corpus.cohort)
              (List.map Single.seg_total_frame_num Corpus.cohort))
  /\ forall mean std,
       Single.train_statistics Corpus.zeroed Corpus.cohort
       = inr (mean, std) ->
       mean = Design.finalize_mean 1
                (List.map Single.seg_train_mean Corpus.cohort)
                (List.map Single.seg_total_frame_num Corpus.cohort).
Proof.
  assert (H1 : Corpus.cohort <> []) by discriminate.
  assert (H2 : Forall (fun r : Single.segmented =>
                         List.length (Single.seg_train_mean r) = 1)
                      Corpus.cohort)
    by (repeat constructor).
  assert (H3 : forall j, j < 1 -> Single.junk_mean Corpus.zeroed j = f0)
    by (intros j _; reflexivity).
  split; [exact H1 |]. split; [exact H2 |]. split; [exact H3 |].
  exact (global_mean_is_sum_over_frame_count Corpus.zeroed H1 H2 H3).
Defined.

(** C1, refuted as stated: for the synthetic cohort (frame counts [[3, 2]],
    values 2.0 and 8.0) the finalized global mean is (3*2 + 2*8)/5 = 22/5,
    the binary64 4.4000000000000004, even from zeroed buffers; it is not
    4.0. *)
Lemma synthetic_cohort_mean_is_not_4 :
  Single.global_mean_pass Corpus.zeroed 1 5 Corpus.cohort
  = inr [PrimFloat.div 22 5]
  /\ Single.global_mean_pass Corpus.zeroed 1 5 Corpus.cohort
     <> inr [4%float]
  /\ forall std,
       Single.train_statistics Corpus.zeroed Corpus.cohort
       <> inr ([4%float], std).
Proof.
  split; [vm_compute; reflexivity |].
  split.
  - differs_by (fun r : result (@vec float) =>
                  match r with
                  | inr (m :: _) => PrimFloat.eqb m 4
                  | _ => false
                  end).
  - intros std.
    differs_by (fun r : result (@vec float * @vec float) =>
                  match r with
                  | inr (m :: _, _) => PrimFloat.eqb m 4
                  | _ => false
                  end).
Qed.

(** What the mean pass makes of a buffer that does not hold zeros: the
    junk is added to the sum. *)
Example mean_from_dirty_buffer :
  Single.global_mean_pass Corpus.dirty 1 5 Corpus.cohort
  = inr [PrimFloat.div 27 5].
Proof. vm_compute. reflexivity. Qed.

Lemma global_std_is_deviation_from_cohort_mean_witness :
  Corpus.cohort <> []
  /\ Forall (Single.well_segmented 1) Corpus.cohort
  /\ (forall j, j < 1 -> Single.junk_mean Corpus.zeroed j = f0)
  /\ (forall j, j < 1 -> Single.junk_std Corpus.zeroed j = f0)
  /\ let mean := Design.finalize_mean 1
                   (List.map Single.seg_train_mean Corpus.cohort)
                   (List.map Single.seg_total_frame_num Corpus.cohort) in
     Single.train_statistics Corpus.zeroed Corpus.cohort
     = inr (mean,
            Design.finalize_std 1 mean
              (List.map Single.frames_of Corpus.cohort)
              (Single.total_frame_num_of Corpus.cohort)).
Proof.
  assert (H1 : Corpus.cohort <> []) by discriminate.
  assert (H3 : forall j, j < 1 -> Single.junk_mean Corpus.zeroed j = f0)
    by (intros j _; reflexivity).
  assert (H4 : forall j, j < 1 -> Single.junk_std Corpus.zeroed j = f0)
    by (intros j _; reflexivity).
  split; [exact H1 |]. split; [exact cohort_well_segmented |].
  split; [exact H3 |]. split; [exact H4 |].
  exact (global_std_is_deviation_from_cohort_mean Corpus.zeroed H1
           cohort_well_segmented H3 H4).
Defined.

(** C2, refuted as stated: for the synthetic cohort [[2, 2, 2, 8, 8]] the
    finalized global standard deviation is the binary64
    2.9393876913398138, the square root of 8.64 (the deviations are taken
    from the mean 4.4); it is not the square root of 8.8, and it is further
    than 0.02 from 2.9665. *)
Lemma synthetic_cohort_std_is_not_sqrt_8_8 :
  Single.train_statistics Corpus.zeroed Corpus.cohort
  = inr ([4.4000000000000004%float], [2.9393876913398138%float])
  /\ Single.train_statistics Corpus.zeroed Corpus.cohort
     <> inr ([4.4000000000000004%float], [PrimFloat.sqrt 8.8])
  /\ PrimFloat.ltb (2.9393876913398138 + 0.02) 2.9665 = true.
Proof.
  split; [vm_compute; reflexivity |].
  split; [| vm_compute; reflexivity].
  differs_by (fun r : result (@vec float * @vec float) =>
                match r with
                | inr (_, s :: _) => PrimFloat.eqb s (PrimFloat.sqrt 8.8)
                | _ => false
                end).
Qed.

(** ** The per-gender reader *)

Section GenderFacts.
Context {F : Type} {SF : Scalar F}.
Variable utt_table : Type.
Variable segment_htk :
  string -> string -> utt_table -> string -> bool -> nat
  -> result (@Gender.segmented F).
Variable global_mean : list (@vec F) -> list nat -> result (@vec F).
Variable global_std :
  list (dict (@matrix F)) -> list nat -> @vec F -> result (@vec F).

(** A file of unknown gender that can be segmented leaves both lists as
    they were. *)
Lemma read_one_unknown_gender (speaker_dict : dict utt_table)
  (normalize : string) (is_training : bool)
  (lists : list Gender.segmented * list Gender.segmented)
  (htk_path : string) (table : utt_table) (r : Gender.segmented) :
  Gender.unknown_gender htk_path = true ->
  dict_get speaker_dict (PyStr.speaker_of_path htk_path) = Some table ->
  segment_htk htk_path (PyStr.speaker_of_path htk_path) table normalize
              is_training 0 = inr r ->
  Gender.read_one segment_htk speaker_dict normalize is_training lists
                  htk_path
  = inr lists.
Proof.
  intros Hunknown Htable Hseg. unfold Gender.read_one, dict_lookup.
  destruct lists as [male female]. rewrite Htable. simpl.
  rewrite Hseg. simpl. unfold Gender.unknown_gender in Hunknown.
  destruct (Gender.gender_of (PyStr.speaker_of_path htk_path))
    as [e | [[|] |]]; try discriminate.
  reflexivity.
Qed.

Lemma read_files_skip_unknown (speaker_dict : dict utt_table)
  (normalize : string) (is_training : bool) (htk_paths : list string) :
  (forall p, In p htk_paths -> Gender.unknown_gender p = true ->
     exists table r,
       dict_get speaker_dict (PyStr.speaker_of_path p) = Some table
       /\ segment_htk p (PyStr.speaker_of_path p) table normalize
                      is_training 0 = inr r) ->
  forall lists,
    foldR (Gender.read_one segment_htk speaker_dict normalize is_training)
          lists htk_paths
    = foldR (Gender.read_one segment_htk speaker_dict normalize is_training)
            lists
            (List.filter (fun p => negb (Gender.unknown_gender p))
                         htk_paths).
Proof.
  induction htk_paths as [| p rest IH]; intros Hseg lists; simpl.
  - reflexivity.
  - assert (Hrest : forall q, In q rest ->
              Gender.unknown_gender q = true ->
              exists table r,
                dict_get speaker_dict (PyStr.speaker_of_path q) = Some table
                /\ segment_htk q (PyStr.speaker_of_path q) table normalize
                               is_training 0 = inr r)
      by (intros q Hq; apply Hseg; right; exact Hq).
    destruct (Gender.unknown_gender p) eqn:Hp; simpl.
    + destruct (Hseg p (or_introl eq_refl) Hp) as (table & r & Ht & Hr).
      rewrite (@read_one_unknown_gender speaker_dict normalize is_training
                 lists p table r Hp Ht Hr).
      simpl. apply IH. exact Hrest.
    + destruct (Gender.read_one segment_htk speaker_dict normalize
                                is_training lists p) as [e | lists'];
        simpl; [reflexivity | apply IH; exact Hrest].
Qed.

(** C7, as the code has it. In the per-gender reader, the HTK paths whose
    speaker name has a character other than ['M'] or ['F'] at index 3
    change nothing once they have got through lines 57-64, which look the
    speaker up in [speaker_dict] and segment the file before the gender is
    tested: the run over all paths has the outcome and writes the log --
    statistics, normalised utterances, frame-number dictionary -- of the
    run over the other paths alone. *)
Theorem unknown_gender_speakers_are_ignored (htk_paths : list string)
  (speaker_dict : dict utt_table) (normalize : string) (is_training : bool)
  (save_path : option string) (stats : Gender.statistics)
  (log : list (io_event F))
  (Hsegmented :
     forall p, In p htk_paths -> Gender.unknown_gender p = true ->
       exists table r,
         dict_get speaker_dict (PyStr.speaker_of_path p) = Some table
         /\ segment_htk p (PyStr.speaker_of_path p) table normalize
                        is_training 0 = inr r) :
  Gender.read_htk segment_htk global_mean global_std htk_paths speaker_dict
                  normalize is_training save_path stats log
  = Gender.read_htk segment_htk global_mean global_std
      (List.filter (fun p => negb (Gender.unknown_gender p)) htk_paths)
      speaker_dict normalize is_training save_path stats log.
Proof.
  unfold Gender.read_htk, Gender.read_files.
  rewrite (@read_files_skip_unknown speaker_dict normalize is_training
             htk_paths Hsegmented).
  reflexivity.
Qed.

End GenderFacts.

Lemma unknown_gender_speakers_are_ignored_witness :
  (forall p, In p [Corpus.man; Corpus.other; Corpus.woman] ->
     Gender.unknown_gender p = true ->
     exists table r,
       dict_get Corpus.speaker_dict (PyStr.speaker_of_path p) = Some table
       /\ Corpus.segment_gender p (PyStr.speaker_of_path p) table "global"
                                true 0 = inr r)
  /\ Gender.read_htk Corpus.segment_gender Design.pass1 Design.pass2
       [Corpus.man; Corpus.other; Corpus.woman] Corpus.speaker_dict
       "global" true (Some "/data/train") Corpus.no_statistics []
     = Gender.read_htk Corpus.segment_gender Design.pass1 Design.pass2
         (List.filter (fun p => negb (Gender.unknown_gender p))
                      [Corpus.man; Corpus.other; Corpus.woman])
         Corpus.speaker_dict "global" true (Some "/data/train")
         Corpus.no_statistics [].
Proof.
  assert (Hseg :
    forall p, In p [Corpus.man; Corpus.other; Corpus.woman] ->
      Gender.unknown_gender p = true ->
      exists table r,
        dict_get Corpus.speaker_dict (PyStr.speaker_of_path p) = Some table
        /\ Corpus.segment_gender p (PyStr.speaker_of_path p) table "global"
                                 true 0 = inr r).
  { intros p [<- | [<- | [<- | []]]] Hp; try discriminate Hp.
    eexists. eexists. split; vm_compute; reflexivity. }
  split; [exact Hseg |].
  exact (@unknown_gender_speakers_are_ignored float binary64 _
           Corpus.segment_gender Design.pass1 Design.pass2
           [Corpus.man; Corpus.other; Corpus.woman] Corpus.speaker_dict
           "global" true (Some "/data/train") Corpus.no_statistics []
           Hseg).
Defined.

(** C7, refuted as stated. The speaker [S09X0009] has ['X'] at index 3 and
    is not in [speaker_dict]: the run over the man, this speaker and the
    woman raises a [KeyError] at line 61 and writes nothing, whereas the
    run over the man and the woman alone returns the statistics and has
    written them, the two matrices and the frame-number dictionary. *)
Lemma unlisted_speaker_of_unknown_gender_raises :
  Gender.unknown_gender Corpus.stranger = true
  /\ Gender.read_htk Corpus.segment_gender Design.pass1 Design.pass2
       [Corpus.man; Corpus.stranger; Corpus.woman] Corpus.speaker_dict
       "global" true (Some "/data/train") Corpus.no_statistics []
     = (inl (KeyError "S09X0009"), [])
  /\ (exists returned,
        fst (Gender.read_htk Corpus.segment_gender Design.pass1 Design.pass2
               [Corpus.man; Corpus.woman] Corpus.speaker_dict "global" true
               (Some "/data/train") Corpus.no_statistics [])
        = inr returned)
  /\ List.length
       (snd (Gender.read_htk Corpus.segment_gender Design.pass1 Design.pass2
               [Corpus.man; Corpus.woman] Corpus.speaker_dict "global" true
               (Some "/data/train") Corpus.no_statistics []))
     = 9
  /\ Gender.read_htk Corpus.segment_gender Design.pass1 Design.pass2
       [Corpus.man; Corpus.stranger; Corpus.woman] Corpus.speaker_dict
       "global" true (Some "/data/train") Corpus.no_statistics []
     <> Gender.read_htk Corpus.segment_gender Design.pass1 Design.pass2
          (List.filter (fun p => negb (Gender.unknown_gender p))
                       [Corpus.man; Corpus.stranger; Corpus.woman])
          Corpus.speaker_dict "global" true (Some "/data/train")
          Corpus.no_statistics [].
Proof.
  split; [vm_compute; reflexivity |].
  split; [vm_compute; reflexivity |].
  split; [eexists; vm_compute; reflexivity |].
  split; [vm_compute; reflexivity |].
  differs_by (fun run : result (@Gender.statistics float)
                        * list (io_event float) =>
                List.length (snd run)).
Qed.

(** The speaker [S00X0003] leaves no trace in what a training run writes:
    the statistics of the men are those of [S00M0001] and [S01M0004]. *)
Example unknown_gender_run :
  Gender.read_htk Corpus.segment_gender Design.pass1 Design.pass2
    [Corpus.man; Corpus.other; Corpus.man2; Corpus.woman]
    Corpus.speaker_dict "global" true (Some "/data/train")
    Corpus.no_statistics []
  = (inr {| Gender.train_mean_male := Some [4.4000000000000004%float];
            Gender.train_mean_female := Some [8%float];
            Gender.train_std_male := Some [2.9393876913398138%float];
            Gender.train_std_female := Some [0%float] |},
     [ NpSaveVec "/data/train/train_mean_male.npy"
                 [4.4000000000000004%float];
       NpSaveVec "/data/train/train_mean_female.npy" [8%float];
       NpSaveVec "/data/train/train_std_male.npy"
                 [2.9393876913398138%float];
       NpSaveVec "/data/train/train_std_female.npy" [0%float];
       Mkdir "/data/train/S00M0001";
       NpSaveMat "/data/train/S00M0001/S00M0001_0.npy"
         [[(-0.81649658092772615)%float]; [(-0.81649658092772615)%float];
          [(-0.81649658092772615)%float]];
       Mkdir "/data/train/S01M0004";
       NpSaveMat "/data/train/S01M0004/S01M0004_0.npy"
         [[1.2247448713915889%float]; [1.2247448713915889%float]];
       Mkdir "/data/train/S00F0002";
       NpSaveMat "/data/train/S00F0002/S00F0002_0.npy" [[nan]; [nan]];
       PickleDump "/data/train/frame_num.pickle"
         [("S00M0001_0", 3); ("S01M0004_0", 2); ("S00F0002_0", 2)] ]).
Proof. vm_compute. reflexivity. Qed.

(** ** The save loop and the frame-number dictionary *)

Lemma ret_inr {E A : Type} (a b : A) (log log' : list E) :
  ret a log = (inr b, log') -> b = a /\ log' = log.
Proof. unfold ret. intros H. injection H as <- <-. split; reflexivity. Qed.

Lemma emit_inr {E : Type} (ev : E) (u : unit) (log log' : list E) :
  emit ev log = (inr u, log') -> log' = log ++ [ev].
Proof. unfold emit. intros H. injection H as _ <-. reflexivity. Qed.

Lemma dict_set_fresh {V : Type} (d : dict V) (key : string) (v : V) :
  ~ In key (dict_keys d) -> dict_set d key v = d ++ [(key, v)].
Proof.
  induction d as [| [k w] rest IH]; simpl; intros Hfresh.
  - reflexivity.
  - destruct (String.eqb_spec k key) as [-> | Hne].
    + exfalso. apply Hfresh. left. reflexivity.
    + rewrite IH; [reflexivity |]. intros Hin. apply Hfresh. right.
      exact Hin.
Qed.

Section SaveLoop.
Context {F : Type}.

(** With keys that are new and pairwise distinct every assignment adds an
    entry. *)
Lemma assign_all_distinct (saved : dict (list (list F))) :
  forall start,
    NoDup (dict_keys start ++ dict_keys saved) ->
    assign_all saved start = start ++ frame_numbers saved.
Proof.
  unfold assign_all.
  induction saved as [| [key m] rest IH]; intros start Hnodup; simpl.
  - rewrite app_nil_r. reflexivity.
  - simpl in Hnodup.
    assert (Hfresh : ~ In key (dict_keys start)).
    { apply NoDup_remove_2 in Hnodup. intros Hin. apply Hnodup.
      apply in_or_app. left. exact Hin. }
    rewrite dict_set_fresh by exact Hfresh.
    rewrite IH.
    + rewrite <- app_assoc. reflexivity.
    + unfold dict_keys in *. rewrite map_app. simpl.
      rewrite <- app_assoc. simpl.
      exact Hnodup.
Qed.

End SaveLoop.

Lemma mapR_length {A B : Type} (f : A -> result B) (xs : list A) :
  forall ys, mapR f xs = inr ys -> List.length ys = List.length xs.
Proof.
  induction xs as [| x rest IH]; intros ys H; simpl in H.
  - injection H as <-. reflexivity.
  - apply bindR_inr in H. destruct H as (y & _ & H).
    apply bindR_inr in H. destruct H as (more & Hmore & H).
    injection H as <-. simpl. rewrite (IH _ Hmore). reflexivity.
Qed.

Section SaveLoopEmitted.
Context {F : Type} {SF : Scalar F}.

(** Normalised or not, the saved matrix has the rows of the utterance. *)
Lemma emitted_rows (inplace : bool) (utt saved_utt : @matrix F) :
  emitted inplace utt saved_utt ->
  List.length saved_utt = List.length utt.
Proof.
  intros [-> | (mean & std & Hnorm)]; [reflexivity |].
  unfold normalize in Hnorm. apply bindR_inr in Hnorm.
  destruct Hnorm as (centred & Hsub & Hdiv).
  unfold mat_sub in Hsub. unfold mat_div in Hdiv.
  rewrite (mapR_length _ _ Hdiv). exact (mapR_length _ _ Hsub).
Qed.

Lemma emitted_all_keys (inplace : bool) (utterances saved : dict (@matrix F)) :
  emitted_all inplace utterances saved ->
  dict_keys saved = dict_keys utterances.
Proof.
  unfold emitted_all, dict_keys.
  induction 1 as [| u e us es [Hkey _] _ IH]; simpl;
    [reflexivity | rewrite IH; f_equal; exact Hkey].
Qed.

Lemma emitted_all_frame_numbers (inplace : bool)
  (utterances saved : dict (@matrix F)) :
  emitted_all inplace utterances saved ->
  frame_numbers saved = frame_numbers utterances.
Proof.
  unfold emitted_all, frame_numbers.
  induction 1 as [| u e us es [Hkey Hrows] _ IH]; simpl;
    [reflexivity |].
  rewrite IH. f_equal.
  apply f_equal2; [exact Hkey | exact (emitted_rows Hrows)].
Qed.

Variable inplace : bool.
Variable body :
  dict nat -> string * @matrix F -> M (io_event F) (dict nat).
Variable save_path : string.
Hypothesis Hbody : saves_one inplace body save_path.

Lemma save_dict_loop (input_data_dict : dict (@matrix F)) :
  forall frame_num_dict log frame_num_dict' log',
    foldM body frame_num_dict input_data_dict log
    = (inr frame_num_dict', log') ->
    exists saved,
      emitted_all inplace input_data_dict saved
      /\ log' = log ++ List.flat_map (utterance_events save_path) saved
      /\ frame_num_dict' = assign_all saved frame_num_dict.
Proof.
  induction input_data_dict as [| [key utt] rest IH];
    intros fnd log fnd' log' Hrun; simpl in Hrun.
  - apply ret_inr in Hrun. destruct Hrun as [-> ->].
    exists []. simpl. rewrite app_nil_r. split; [constructor | auto].
  - apply bind_inr in Hrun. destruct Hrun as (fnd1 & log1 & Hone & Hrun).
    apply Hbody in Hone. destruct Hone as (saved_utt & Hfrom & -> & ->).
    apply IH in Hrun. destruct Hrun as (saved & Hall & -> & ->).
    exists ((key, saved_utt) :: saved). simpl.
    rewrite <- app_assoc. split; [| auto].
    constructor; [split; [reflexivity | exact Hfrom] | exact Hall].
Qed.

Lemma save_all_loop (dicts : list (dict (@matrix F))) :
  forall frame_num_dict log frame_num_dict' log',
    foldM (fun frame_num_dict input_data_dict =>
             foldM body frame_num_dict input_data_dict)
          frame_num_dict dicts log
    = (inr frame_num_dict', log') ->
    exists saved,
      emitted_all inplace (List.concat dicts) saved
      /\ log' = log ++ List.flat_map (utterance_events save_path) saved
      /\ frame_num_dict' = assign_all saved frame_num_dict.
Proof.
  induction dicts as [| d rest IH];
    intros fnd log fnd' log' Hrun; simpl in Hrun.
  - apply ret_inr in Hrun. destruct Hrun as [-> ->].
    exists []. simpl. rewrite app_nil_r. split; [constructor | auto].
  - apply bind_inr in Hrun. destruct Hrun as (fnd1 & log1 & Hd & Hrun).
    apply save_dict_loop in Hd. destruct Hd as (saved1 & Hall1 & -> & ->).
    apply IH in Hrun. destruct Hrun as (saved2 & Hall2 & -> & ->).
    exists (saved1 ++ saved2). simpl.
    rewrite flat_map_app, <- app_assoc.
    unfold assign_all. rewrite fold_left_app.
    split; [| auto]. apply Forall2_app; assumption.
Qed.

End SaveLoopEmitted.

Section IndexFacts.
Context {F : Type} {SF : Scalar F}.
Variable utt_table : Type.
Variable segment_single :
  string -> string -> utt_table -> bool -> nat
  -> result (@Single.segmented F).
Variable segment_gender :
  string -> string -> utt_table -> string -> bool -> nat
  -> result (@Gender.segmented F).
Variable global_mean : list (@vec F) -> list nat -> result (@vec F).
Variable global_std :
  list (dict (@matrix F)) -> list nat -> @vec F -> result (@vec F).

Lemma two_events (log : list (io_event F)) (a b : io_event F) :
  (log ++ [a]) ++ [b] = log ++ [a; b].
Proof. rewrite <- app_assoc. reflexivity. Qed.

Lemma single_saves_one (global_norm : bool)
  (stats : option (@vec F * @vec F)) (save_path : string) :
  saves_one false (Single.save_utterance global_norm stats save_path)
            save_path.
Proof.
  intros fnd key utt log fnd' log' Hrun. unfold Single.save_utterance in Hrun.
  apply bind_inr in Hrun. destruct Hrun as (utt' & l1 & Hnorm & Hrun).
  assert (Hfrom : emitted false utt utt' /\ l1 = log).
  { destruct global_norm.
    - destruct stats as [[m s] |].
      + apply lift_inr in Hnorm. destruct Hnorm as [Hnorm ->].
        split; [right; exists m, s; exact Hnorm | reflexivity].
      + discriminate Hnorm.
    - apply ret_inr in Hnorm. destruct Hnorm as [-> ->].
      split; [left |]; reflexivity. }
  destruct Hfrom as [Hfrom ->].
  apply bind_inr in Hrun. destruct Hrun as ([spk idx] & l2 & Hkey & Hrun).
  apply lift_inr in Hkey. destruct Hkey as [Hkey ->].
  apply bind_inr in Hrun. destruct Hrun as (u1 & l3 & Hmk & Hrun).
  apply emit_inr in Hmk. subst l3.
  apply bind_inr in Hrun. destruct Hrun as (u2 & l4 & Hsave & Hrun).
  apply emit_inr in Hsave. subst l4.
  apply ret_inr in Hrun. destruct Hrun as [-> ->].
  exists utt'. unfold utterance_events. simpl. rewrite Hkey.
  rewrite two_events. auto.
Qed.

(** [utt -= mean] followed by [utt /= std] is the in-place
    normalisation. *)
Lemma isub_idiv_normalize (utt centred saved_utt : @matrix F)
  (mean std : option (@vec F)) :
  Gender.isub utt mean = inr centred ->
  Gender.idiv centred std = inr saved_utt ->
  emitted true utt saved_utt.
Proof.
  intros Hsub Hdiv. destruct mean as [mean |]; [| discriminate Hsub].
  destruct std as [std |]; [| discriminate Hdiv].
  right. exists mean, std. unfold normalize. simpl in Hsub, Hdiv.
  rewrite Hsub. exact Hdiv.
Qed.

Lemma gender_saves_one (normalize : string) (stats : Gender.statistics)
  (save_path : string) :
  saves_one true (Gender.save_utterance normalize stats save_path)
            save_path.
Proof.
  intros fnd key utt log fnd' log' Hrun. unfold Gender.save_utterance in Hrun.
  apply bind_inr in Hrun. destruct Hrun as ([spk idx] & l1 & Hkey & Hrun).
  apply lift_inr in Hkey. destruct Hkey as [Hkey ->].
  apply bind_inr in Hrun. destruct Hrun as (utt' & l2 & Hnorm & Hrun).
  assert (Hfrom : emitted true utt utt' /\ l2 = log).
  { destruct (String.eqb normalize "global").
    - apply bind_inr in Hnorm. destruct Hnorm as (g & l3 & Hg & Hnorm).
      apply lift_inr in Hg. destruct Hg as [_ ->].
      destruct g as [[|] |].
      + apply bind_inr in Hnorm. destruct Hnorm as (c & l4 & Hc & Hnorm).
        apply lift_inr in Hc. destruct Hc as [Hc ->].
        apply lift_inr in Hnorm. destruct Hnorm as [Hnorm ->].
        split; [exact (isub_idiv_normalize _ _ _ Hc Hnorm) | reflexivity].
      + apply bind_inr in Hnorm. destruct Hnorm as (c & l4 & Hc & Hnorm).
        apply lift_inr in Hc. destruct Hc as [Hc ->].
        apply lift_inr in Hnorm. destruct Hnorm as [Hnorm ->].
        split; [exact (isub_idiv_normalize _ _ _ Hc Hnorm) | reflexivity].
      + apply ret_inr in Hnorm. destruct Hnorm as [-> ->].
        split; [left |]; reflexivity.
    - apply ret_inr in Hnorm. destruct Hnorm as [-> ->].
      split; [left |]; reflexivity. }
  destruct Hfrom as [Hfrom ->].
  apply bind_inr in Hrun. destruct Hrun as (u1 & l3 & Hmk & Hrun).
  apply emit_inr in Hmk. subst l3.
  apply bind_inr in Hrun. destruct Hrun as (u2 & l4 & Hsave & Hrun).
  apply emit_inr in Hsave. subst l4.
  apply ret_inr in Hrun. destruct Hrun as [-> ->].
  exists utt'. unfold utterance_events. simpl. rewrite Hkey.
  rewrite two_events. auto.
Qed.

(** The statistics phase of either reader writes statistics only. *)
Lemma single_training_phase_log (heap : Single.allocator)
  (is_training : bool) (save_path : option string)
  (return_list : list Single.segmented) (log log' : list (io_event F))
  (stats : option (@vec F * @vec F)) :
  Single.training_phase heap is_training save_path return_list log
  = (inr stats, log') ->
  exists written,
    Forall (@is_statistics_write F) written /\ log' = log ++ written.
Proof.
  unfold Single.training_phase. intros Hrun. destruct is_training.
  - apply bind_inr in Hrun. destruct Hrun as ([m s] & l1 & Hst & Hrun).
    apply lift_inr in Hst. destruct Hst as [_ ->].
    apply bind_inr in Hrun. destruct Hrun as (u & l2 & Hsave & Hrun).
    apply ret_inr in Hrun. destruct Hrun as [_ ->].
    destruct save_path as [sp |].
    + apply bind_inr in Hsave. destruct Hsave as (u1 & l3 & H1 & H2).
      apply emit_inr in H1. subst l3. apply emit_inr in H2. subst l2.
      eexists. split; [| apply two_events]. repeat constructor.
    + apply ret_inr in Hsave. destruct Hsave as [_ ->].
      exists []. rewrite app_nil_r. auto.
  - apply ret_inr in Hrun. destruct Hrun as [_ ->].
    exists []. rewrite app_nil_r. auto.
Qed.

Lemma gender_train_statistics_log (male female : list Gender.segmented)
  (save_path : option string) (log log' : list (io_event F))
  (stats : Gender.statistics) :
  Gender.train_statistics global_mean global_std male female save_path log
  = (inr stats, log') ->
  exists written,
    Forall (@is_statistics_write F) written /\ log' = log ++ written.
Proof.
  unfold Gender.train_statistics. intros Hrun.
  apply bind_inr in Hrun. destruct Hrun as (mm & l1 & H1 & Hrun).
  apply lift_inr in H1. destruct H1 as [_ ->].
  apply bind_inr in Hrun. destruct Hrun as (mf & l2 & H2 & Hrun).
  apply lift_inr in H2. destruct H2 as [_ ->].
  apply bind_inr in Hrun. destruct Hrun as (sm & l3 & H3 & Hrun).
  apply lift_inr in H3. destruct H3 as [_ ->].
  apply bind_inr in Hrun. destruct Hrun as (sf & l4 & H4 & Hrun).
  apply lift_inr in H4. destruct H4 as [_ ->].
  apply bind_inr in Hrun. destruct Hrun as (u & l5 & Hsave & Hrun).
  apply ret_inr in Hrun. destruct Hrun as [_ ->].
  destruct save_path as [sp |].
  - apply bind_inr in Hsave. destruct Hsave as (u1 & k1 & E1 & Hsave).
    apply emit_inr in E1. subst k1.
    apply bind_inr in Hsave. destruct Hsave as (u2 & k2 & E2 & Hsave).
    apply emit_inr in E2. subst k2.
    apply bind_inr in Hsave. destruct Hsave as (u3 & k3 & E3 & Hsave).
    apply emit_inr in E3. subst k3.
    apply emit_inr in Hsave. subst l5.
    eexists. split.
    2:{ rewrite <- !app_assoc. simpl. reflexivity. }
    repeat constructor.
  - apply ret_inr in Hsave. destruct Hsave as [_ ->].
    exists []. rewrite app_nil_r. auto.
Qed.

(** C8. After every run with saving enabled that returns, of the per-gender
    reader and of the single-cohort reader alike, and with utterance keys
    that are pairwise distinct, the log ends with the frame-number
    dictionary, and that dictionary has exactly one entry for each
    utterance of the speakers the reader kept, in their order: the key of
    the utterance mapped to the number of rows of the matrix saved under
    that key. That matrix is the matrix of the utterance, as it was
    segmented or centred and scaled, so that the number entered is the
    number of frames of the utterance. *)
Theorem frame_number_dict_covers_saved_utterances :
  (forall (htk_paths : list string) (speaker_dict : dict utt_table)
          (normalize : string) (is_training : bool) (save_path : string)
          (stats returned : Gender.statistics)
          (male female : list Gender.segmented)
          (log log' : list (io_event F)),
      Gender.read_files segment_gender speaker_dict normalize is_training
                        htk_paths = inr (male, female) ->
      NoDup (dict_keys (Gender.cohort_utterances male female)) ->
      Gender.read_htk segment_gender global_mean global_std htk_paths
                      speaker_dict normalize is_training (Some save_path)
                      stats log = (inr returned, log') ->
      index_covers_saved true
                         (PyStr.path_join save_path "frame_num.pickle")
                         save_path
                         (Gender.cohort_utterances male female) log log')
  /\ (forall (heap : Single.allocator) (htk_paths : list string)
             (speaker_dict : dict utt_table)
             (global_norm is_training : bool) (save_path : string)
             (train_mean train_std : option (@vec F))
             (returned : option (@vec F) * option (@vec F))
             (return_list : list Single.segmented)
             (log log' : list (io_event F)),
         Single.read_files segment_single speaker_dict global_norm
                           htk_paths = inr return_list ->
         NoDup (dict_keys (Single.all_utterances return_list)) ->
         Single.read_htk segment_single heap htk_paths speaker_dict
                         global_norm is_training (Some save_path)
                         train_mean train_std log = (inr returned, log') ->
         index_covers_saved false
           (PyStr.path_join (PyStr.parent save_path) "frame_num.pickle")
           save_path (Single.all_utterances return_list) log log').
Proof.
  split.
  - intros htk_paths speaker_dict normalize is_training save_path stats
      returned male female log log' Hread Hunique Hrun.
    unfold Gender.read_htk in Hrun. rewrite Hread in Hrun.
    apply bind_inr in Hrun. destruct Hrun as ([m f] & l1 & Hl & Hrun).
    apply lift_inr in Hl. destruct Hl as [Hl ->].
    injection Hl as <- <-.
    apply bind_inr in Hrun. destruct Hrun as (st & l2 & Hst & Hrun).
    assert (Hwritten : exists written,
               Forall (@is_statistics_write F) written
               /\ l2 = log ++ written).
    { destruct is_training.
      - eapply gender_train_statistics_log. exact Hst.
      - apply ret_inr in Hst. destruct Hst as [_ ->].
        exists []. rewrite app_nil_r. auto. }
    destruct Hwritten as (written & Hstat & ->).
    apply bind_inr in Hrun. destruct Hrun as (u & l3 & Hsave & Hrun).
    apply ret_inr in Hrun. destruct Hrun as [_ ->].
    unfold Gender.save_input_data in Hsave.
    apply bind_inr in Hsave. destruct Hsave as (fnd & l4 & Hloop & Hdump).
    apply emit_inr in Hdump. subst l3.
    apply (save_all_loop (@gender_saves_one normalize st save_path)) in Hloop.
    destruct Hloop as (saved & Hall & -> & ->).
    exists written, saved. split; [exact Hstat |].
    split; [exact Hall |].
    split; [exact (emitted_all_frame_numbers Hall) |].
    rewrite assign_all_distinct.
    + simpl. rewrite <- !app_assoc. reflexivity.
    + simpl.
      exact (eq_ind_r (fun keys => NoDup keys) Hunique
                      (emitted_all_keys Hall)).
  - intros heap htk_paths speaker_dict global_norm is_training save_path
      train_mean train_std returned return_list log log' Hread Hunique Hrun.
    unfold Single.read_htk in Hrun. rewrite Hread in Hrun.
    apply bind_inr in Hrun. destruct Hrun as (rl & l1 & Hl & Hrun).
    apply lift_inr in Hl. destruct Hl as [Hl ->].
    injection Hl as <-.
    apply bind_inr in Hrun. destruct Hrun as (st & l2 & Hst & Hrun).
    apply single_training_phase_log in Hst.
    destruct Hst as (written & Hstat & ->).
    apply bind_inr in Hrun. destruct Hrun as (u & l3 & Hsave & Hrun).
    apply ret_inr in Hrun. destruct Hrun as [_ ->].
    apply bind_inr in Hsave. destruct Hsave as (fnd & l4 & Hloop & Hdump).
    apply emit_inr in Hdump. subst l3.
    apply (save_all_loop (@single_saves_one global_norm st save_path))
      in Hloop.
    destruct Hloop as (saved & Hall & -> & ->).
    exists written, saved. split; [exact Hstat |].
    split; [exact Hall |].
    split; [exact (emitted_all_frame_numbers Hall) |].
    rewrite assign_all_distinct.
    + simpl. rewrite <- !app_assoc. reflexivity.
    + simpl.
      exact (eq_ind_r (fun keys => NoDup keys) Hunique
                      (emitted_all_keys Hall)).
Qed.

End IndexFacts.

Ltac distinct_keys :=
  repeat (constructor; [simpl; intuition discriminate |]); constructor.

Lemma frame_number_dict_covers_saved_utterances_witness :
  (exists male female,
      Gender.read_files Corpus.segment_gender Corpus.speaker_dict "global"
        true [Corpus.man; Corpus.other; Corpus.man2; Corpus.woman]
      = inr (male, female)
      /\ NoDup (dict_keys (Gender.cohort_utterances male female))
      /\ index_covers_saved true "/data/train/frame_num.pickle"
           "/data/train" (Gender.cohort_utterances male female) []
           (snd (Gender.read_htk Corpus.segment_gender Design.pass1
                   Design.pass2
                   [Corpus.man; Corpus.other; Corpus.man2; Corpus.woman]
                   Corpus.speaker_dict "global" true (Some "/data/train")
                   Corpus.no_statistics [])))
  /\ (NoDup (dict_keys (Single.all_utterances Corpus.cohort))
      /\ index_covers_saved false "/data/train/frame_num.pickle"
           "/data/train/input" (Single.all_utterances Corpus.cohort) []
           (snd Corpus.training_run)).
Proof.
  split.
  - eexists. eexists.
    assert (Hread :
      Gender.read_files Corpus.segment_gender Corpus.speaker_dict "global"
        true [Corpus.man; Corpus.other; Corpus.man2; Corpus.woman]
      = inr ([ {| Gender.input_data_dict_speaker :=
                    [("S00M0001_0", [[2%float]; [2%float]; [2%float]])];
                  Gender.train_mean_speaker := [6%float];
                  Gender.total_frame_num_speaker := 3 |};
               {| Gender.input_data_dict_speaker :=
                    [("S01M0004_0", [[8%float]; [8%float]])];
                  Gender.train_mean_speaker := [16%float];
                  Gender.total_frame_num_speaker := 2 |} ],
             [ {| Gender.input_data_dict_speaker :=
                    [("S00F0002_0", [[8%float]; [8%float]])];
                  Gender.train_mean_speaker := [16%float];
                  Gender.total_frame_num_speaker := 2 |} ]))
      by (vm_compute; reflexivity).
    assert (Hunique :
      NoDup (dict_keys (@Gender.cohort_utterances float
               [ {| Gender.input_data_dict_speaker :=
                      [("S00M0001_0", [[2%float]; [2%float]; [2%float]])];
                    Gender.train_mean_speaker := [6%float];
                    Gender.total_frame_num_speaker := 3 |};
                 {| Gender.input_data_dict_speaker :=
                      [("S01M0004_0", [[8%float]; [8%float]])];
                    Gender.train_mean_speaker := [16%float];
                    Gender.total_frame_num_speaker := 2 |} ]
               [ {| Gender.input_data_dict_speaker :=
                      [("S00F0002_0", [[8%float]; [8%float]])];
                    Gender.train_mean_speaker := [16%float];
                    Gender.total_frame_num_speaker := 2 |} ])))
      by (simpl; distinct_keys).
    split; [exact Hread |]. split; [exact Hunique |].
    refine (proj1 (@frame_number_dict_covers_saved_utterances float binary64
                     _ Corpus.segment_single Corpus.segment_gender
                     Design.pass1 Design.pass2)
              _ _ _ _ _ Corpus.no_statistics _ _ _ _ _ Hread Hunique _).
    vm_compute. reflexivity.
  - assert (Hunique :
      NoDup (dict_keys (Single.all_utterances Corpus.cohort)))
      by (simpl; distinct_keys).
    split; [exact Hunique |].
    refine (proj2 (@frame_number_dict_covers_saved_utterances float binary64
                     _ Corpus.segment_single Corpus.segment_gender
                     Design.pass1 Design.pass2)
              Corpus.zeroed [Corpus.man; Corpus.woman] Corpus.speaker_dict
              true true "/data/train/input" (Some [0%float])
              (Some [1%float]) _ Corpus.cohort [] _ _ Hunique _).
    + vm_compute. reflexivity.
    + vm_compute. reflexivity.
Defined.

(** ** Evaluation runs without statistics *)

Section MissingStatistics.
Context {F : Type} {SF : Scalar F}.
Variable utt_table : Type.
Variable segment_single :
  string -> string -> utt_table -> bool -> nat
  -> result (@Single.segmented F).
Variable segment_gender :
  string -> string -> utt_table -> string -> bool -> nat
  -> result (@Gender.segmented F).
Variable global_mean : list (@vec F) -> list nat -> result (@vec F).
Variable global_std :
  list (dict (@matrix F)) -> list nat -> @vec F -> result (@vec F).

(** A save loop whose first utterance raises: the raise comes before
    anything is written. *)
Lemma save_all_loop_raises
  (body : dict nat -> string * @matrix F -> M (io_event F) (dict nat))
  (e : exn) (item : string * @matrix F) :
  (forall frame_num_dict log, body frame_num_dict item log = (inl e, log)) ->
  forall dicts rest frame_num_dict log,
    List.concat dicts = item :: rest ->
    foldM (fun frame_num_dict input_data_dict =>
             foldM body frame_num_dict input_data_dict)
          frame_num_dict dicts log
    = (inl e, log).
Proof.
  intros Hraise dicts. induction dicts as [| d more IH];
    intros rest fnd log Hfirst; simpl in *.
  - discriminate.
  - destruct d as [| first d']; simpl in *.
    + unfold bind at 1. simpl. eapply IH. exact Hfirst.
    + injection Hfirst as -> _. unfold bind at 1. simpl.
      unfold bind at 1. rewrite Hraise. reflexivity.
Qed.

(** C4, as the code has it. A non-training run with saving enabled that
    asks for global normalisation, has at least one utterance to save and
    lacks the statistics for it aborts at the first utterance, before
    anything is written, with one of Python's own errors and not with a
    [MissingStatisticsError]: the single-cohort reader when [train_mean] or
    [train_std] is [None]; the per-gender reader, with the [TypeError] of
    [input_data_utt -= None], when the mean of the gender of that first
    utterance is [None]. *)
Theorem evaluation_without_statistics_aborts :
  (forall (heap : Single.allocator) (htk_paths : list string)
          (speaker_dict : dict utt_table) (save_path : string)
          (train_mean train_std : option (@vec F))
          (return_list : list Single.segmented)
          (item : string * @matrix F) (rest : dict (@matrix F))
          (log : list (io_event F)),
      train_mean = None \/ train_std = None ->
      Single.read_files segment_single speaker_dict true htk_paths
      = inr return_list ->
      Single.all_utterances return_list = item :: rest ->
      exists e,
        python_error e = true
        /\ Single.read_htk segment_single heap htk_paths speaker_dict true
                           false (Some save_path) train_mean train_std log
           = (inl e, log))
  /\ (forall (htk_paths : list string) (speaker_dict : dict utt_table)
             (save_path : string) (stats : Gender.statistics)
             (male female : list Gender.segmented)
             (key speaker_name utt_index : string) (utt : @matrix F)
             (rest : dict (@matrix F)) (g : Gender.gender)
             (log : list (io_event F)),
         Gender.read_files segment_gender speaker_dict "global" false
                           htk_paths = inr (male, female) ->
         Gender.cohort_utterances male female = (key, utt) :: rest ->
         unpack_key key = inr (speaker_name, utt_index) ->
         Gender.gender_of speaker_name = inr (Some g) ->
         Gender.mean_of stats g = None ->
         Gender.read_htk segment_gender global_mean global_std htk_paths
                         speaker_dict "global" false (Some save_path) stats
                         log
         = (inl TypeError, log)).
Proof.
  split.
  - intros heap htk_paths speaker_dict save_path train_mean train_std
      return_list item rest log _ Hread Hfirst.
    exists (UnboundLocalError "train_global_mean").
    split; [reflexivity |].
    unfold Single.read_htk. rewrite Hread.
    unfold bind at 1. simpl. unfold bind at 1. simpl.
    unfold bind at 1. unfold bind at 1.
    rewrite (@save_all_loop_raises
               (Single.save_utterance true None save_path)
               (UnboundLocalError "train_global_mean") item)
      with (rest := rest).
    + reflexivity.
    + intros fnd l. destruct item as [key utt]. reflexivity.
    + exact Hfirst.
  - intros htk_paths speaker_dict save_path stats male female key
      speaker_name utt_index utt rest g log Hread Hfirst Hkey Hg Hmean.
    unfold Gender.read_htk. rewrite Hread.
    unfold bind at 1. simpl. unfold bind at 1. simpl.
    unfold bind at 1. unfold Gender.save_input_data. unfold bind at 1.
    rewrite (@save_all_loop_raises
               (Gender.save_utterance "global" stats save_path)
               TypeError (key, utt))
      with (rest := rest).
    + reflexivity.
    + intros fnd l. unfold Gender.save_utterance.
      unfold bind at 1. unfold lift at 1. rewrite Hkey.
      unfold bind at 1. simpl. unfold bind at 1. unfold lift at 1.
      rewrite Hg. destruct g; simpl in Hmean; unfold bind at 1;
        unfold lift at 1; rewrite Hmean; reflexivity.
    + exact Hfirst.
Qed.

End MissingStatistics.

Lemma evaluation_without_statistics_aborts_witness :
  ((@None (@vec float) = None \/ @None (@vec float) = None)
   /\ Single.read_files Corpus.segment_single Corpus.speaker_dict true
        [Corpus.man; Corpus.woman] = inr Corpus.cohort
   /\ Single.all_utterances Corpus.cohort
      = ("S00M0001_0", [[2%float]; [2%float]; [2%float]])
          :: [("S00F0002_0", [[8%float]; [8%float]])]
   /\ exists e,
        python_error e = true
        /\ Single.read_htk Corpus.segment_single Corpus.zeroed
             [Corpus.man; Corpus.woman] Corpus.speaker_dict true false
             (Some "/data/eval/input") None None []
           = (inl e, []))
  /\ (Gender.cohort_utterances
        [ {| Gender.input_data_dict_speaker :=
               [("S00M0001_0", [[2%float]; [2%float]; [2%float]])];
             Gender.train_mean_speaker := [6%float];
             Gender.total_frame_num_speaker := 3 |} ]
        [ {| Gender.input_data_dict_speaker :=
               [("S00F0002_0", [[8%float]; [8%float]])];
             Gender.train_mean_speaker := [16%float];
             Gender.total_frame_num_speaker := 2 |} ]
      = ("S00M0001_0", [[2%float]; [2%float]; [2%float]])
          :: [("S00F0002_0", [[8%float]; [8%float]])]
      /\ unpack_key "S00M0001_0" = inr ("S00M0001", "0")
      /\ Gender.gender_of "S00M0001" = inr (Some Gender.Male)
      /\ Gender.mean_of Corpus.no_statistics Gender.Male = None
      /\ Gender.read_htk Corpus.segment_gender Design.pass1 Design.pass2
           [Corpus.man; Corpus.woman] Corpus.speaker_dict "global" false
           (Some "/data/eval") Corpus.no_statistics []
         = (inl TypeError, [])).
Proof.
  split.
  - assert (Hread :
      Single.read_files Corpus.segment_single Corpus.speaker_dict true
        [Corpus.man; Corpus.woman] = inr Corpus.cohort)
      by (vm_compute; reflexivity).
    assert (Hfirst :
      Single.all_utterances Corpus.cohort
      = ("S00M0001_0", [[2%float]; [2%float]; [2%float]])
          :: [("S00F0002_0", [[8%float]; [8%float]])])
      by reflexivity.
    split; [left; reflexivity |].
    split; [exact Hread |]. split; [exact Hfirst |].
    exact (proj1 (@evaluation_without_statistics_aborts float binary64 _
                    Corpus.segment_single Corpus.segment_gender
                    Design.pass1 Design.pass2)
             Corpus.zeroed [Corpus.man; Corpus.woman] Corpus.speaker_dict
             "/data/eval/input" None None Corpus.cohort _ _ []
             (or_introl eq_refl) Hread Hfirst).
  - assert (Hread :
      Gender.read_files Corpus.segment_gender Corpus.speaker_dict "global"
        false [Corpus.man; Corpus.woman]
      = inr ([ {| Gender.input_data_dict_speaker :=
                    [("S00M0001_0", [[2%float]; [2%float]; [2%float]])];
                  Gender.train_mean_speaker := [6%float];
                  Gender.total_frame_num_speaker := 3 |} ],
             [ {| Gender.input_data_dict_speaker :=
                    [("S00F0002_0", [[8%float]; [8%float]])];
                  Gender.train_mean_speaker := [16%float];
                  Gender.total_frame_num_speaker := 2 |} ]))
      by (vm_compute; reflexivity).
    split; [reflexivity |]. split; [reflexivity |].
    split; [reflexivity |]. split; [reflexivity |].
    exact (proj2 (@evaluation_without_statistics_aborts float binary64 _
                    Corpus.segment_single Corpus.segment_gender
                    Design.pass1 Design.pass2)
             [Corpus.man; Corpus.woman] Corpus.speaker_dict "/data/eval"
             Corpus.no_statistics _ _ "S00M0001_0" "S00M0001" "0" _ _
             Gender.Male [] Hread eq_refl eq_refl eq_refl eq_refl).
Defined.

(** C4, refuted as stated. A non-training run with global normalisation and
    no statistics over an empty list of HTK files raises nothing and writes
    the (empty) frame-number dictionary; and the per-gender reader, given
    the statistics of the men only, has written the matrix of the man when
    it raises at the first utterance of the woman -- a [TypeError], not a
    [MissingStatisticsError]. *)
Lemma evaluation_without_statistics_can_write :
  Single.read_htk Corpus.segment_single Corpus.zeroed [] Corpus.speaker_dict
    true false (Some "/data/eval/input") None None []
  = (inr (None, None), [PickleDump "/data/eval/frame_num.pickle" []])
  /\ Gender.read_htk Corpus.segment_gender Design.pass1 Design.pass2
       [Corpus.man; Corpus.woman] Corpus.speaker_dict "global" false
       (Some "/data/eval") Corpus.male_statistics []
     = (inl TypeError,
        [ Mkdir "/data/eval/S00M0001";
          NpSaveMat "/data/eval/S00M0001/S00M0001_0.npy"
            [[(-1)%float]; [(-1)%float]; [(-1)%float]] ])
  /\ ~ (fst (Single.read_htk Corpus.segment_single Corpus.zeroed []
               Corpus.speaker_dict true false (Some "/data/eval/input")
               None None [])
        = inl MissingStatisticsError
        /\ snd (Single.read_htk Corpus.segment_single Corpus.zeroed []
                  Corpus.speaker_dict true false (Some "/data/eval/input")
                  None None [])
           = []).
Proof.
  split; [vm_compute; reflexivity |].
  split; [vm_compute; reflexivity |].
  intros [Hraise _]. vm_compute in Hraise. discriminate Hraise.
Qed.

(** ** Precision *)

Lemma fold_in_place {A : Type} (f : A -> Precision.dtype) (xs : list A)
  (acc : Precision.dtype) :
  List.fold_left (fun a x => Precision.in_place a (f x)) xs acc = acc.
Proof.
  revert acc. induction xs as [| x rest IH]; intros acc; simpl.
  - reflexivity.
  - apply IH.
Qed.

Lemma sqrt_sum_precision (inputs global_mean : Precision.dtype)
  (frames : nat) :
  fst (Precision.sqrt_sum inputs global_mean frames) = Precision.float64
  /\ Forall (fun t => t = Precision.float64)
            (snd (Precision.sqrt_sum inputs global_mean frames)).
Proof.
  unfold Precision.sqrt_sum. induction frames as [| n [IHacc IHsq]]; simpl.
  - split; [reflexivity | constructor].
  - split; [exact IHacc |]. constructor; [reflexivity | exact IHsq].
Qed.

(** C10. Whatever the dtypes of the utterance matrices and of the
    per-speaker sums that [segment_htk] returns -- [float32] included --
    the accumulator of the mean pass, the accumulator of [sqrt_sum], the
    squared deviations added to it and the accumulator of the variance pass
    of the single-cohort reader are [float64]. *)
Theorem statistics_accumulate_in_float64
  (return_list : list Precision.segmented)
  (inputs global_mean : Precision.dtype) (frames : nat) :
  Precision.global_mean_pass return_list = Precision.float64
  /\ fst (Precision.sqrt_sum inputs global_mean frames) = Precision.float64
  /\ Forall (fun t => t = Precision.float64)
            (snd (Precision.sqrt_sum inputs global_mean frames))
  /\ Precision.global_std_pass return_list
       (Precision.global_mean_pass return_list) frames
     = Precision.float64.
Proof.
  split; [| split; [| split]].
  - unfold Precision.global_mean_pass, Precision.with_python_float.
    apply fold_in_place.
  - apply sqrt_sum_precision.
  - apply sqrt_sum_precision.
  - unfold Precision.global_std_pass, Precision.with_python_float.
    apply (fold_in_place
             (fun r => fst (Precision.sqrt_sum
                              (Precision.train_data_speaker r)
                              (Precision.global_mean_pass return_list)
                              frames))).
Qed.

Example float32_frames_accumulate_in_float64 :
  Precision.global_mean_pass
    [ {| Precision.seg_input_data_dict := [Precision.float32];
         Precision.seg_train_mean := Precision.float32 |} ]
  = Precision.float64
  /\ Precision.sqrt_sum Precision.float32 Precision.float64 2
     = (Precision.float64, [Precision.float64; Precision.float64]).
Proof. split; reflexivity. Qed.

(* ================================================================== *)
(** * Further properties of the readers *)

(** ** Splitting and joining *)

Lemma split_nonempty (sep : ascii) (s : string) : PyStr.split sep s <> [].
Proof.
  destruct s as [| c rest]; simpl; [discriminate |].
  destruct (Ascii.eqb c sep); [discriminate |].
  destruct (PyStr.split sep rest); discriminate.
Qed.

(** Joining the pieces of a split with the separator gives the string
    back. *)
Lemma join_split (sep : ascii) (s : string) :
  PyStr.join (String sep EmptyString) (PyStr.split sep s) = s.
Proof.
  induction s as [| c rest IH]; simpl; [reflexivity |].
  destruct (Ascii.eqb_spec c sep) as [-> | Hne].
  - pose proof (split_nonempty sep rest) as Hne.
    destruct (PyStr.split sep rest) as [| piece pieces] eqn:Hs;
      [congruence |].
    simpl in *. rewrite IH. reflexivity.
  - pose proof (split_nonempty sep rest) as Hne'.
    destruct (PyStr.split sep rest) as [| piece pieces] eqn:Hs;
      [congruence |].
    simpl in *. destruct pieces as [| p2 more].
    + rewrite IH. reflexivity.
    + simpl. f_equal. exact IH.
Qed.

(** No piece of a split holds the separator. *)
Lemma split_pieces_free (sep : ascii) (s : string) :
  Forall (fun piece => PyMore.contains sep piece = false)
         (PyStr.split sep s).
Proof.
  induction s as [| c rest IH]; simpl.
  - repeat constructor.
  - destruct (Ascii.eqb c sep) eqn:Hc.
    + constructor; [reflexivity | exact IH].
    + destruct (PyStr.split sep rest) as [| piece pieces].
      * repeat constructor. simpl. rewrite Hc. reflexivity.
      * inversion IH; subst. constructor; [| assumption].
        simpl. rewrite Hc. assumption.
Qed.

Lemma split_free (sep : ascii) (s : string) :
  PyMore.contains sep s = false -> PyStr.split sep s = [s].
Proof.
  induction s as [| c rest IH]; simpl; intros Hfree; [reflexivity |].
  apply orb_false_iff in Hfree. destruct Hfree as [Hc Hrest].
  rewrite Hc, (IH Hrest). reflexivity.
Qed.

(** A separator after a piece without separators ends that piece. *)
Lemma split_append (sep : ascii) (piece rest : string) :
  PyMore.contains sep piece = false ->
  PyStr.split sep (piece ++ String sep rest)
  = piece :: PyStr.split sep rest.
Proof.
  induction piece as [| c more IH]; simpl; intros Hfree.
  - rewrite Ascii.eqb_refl. reflexivity.
  - apply orb_false_iff in Hfree. destruct Hfree as [Hc Hmore].
    rewrite Hc, (IH Hmore). reflexivity.
Qed.

(** The pieces up to the last separator, for a last piece without
    separators. *)
Lemma split_last (sep : ascii) (front last : string) :
  PyMore.contains sep last = false ->
  PyStr.split sep (front ++ String sep last)
  = PyStr.split sep front ++ [last].
Proof.
  intros Hfree. induction front as [| c more IH]; simpl.
  - rewrite Ascii.eqb_refl, (split_free _ _ Hfree). reflexivity.
  - destruct (Ascii.eqb c sep).
    + rewrite IH. reflexivity.
    + rewrite IH.
      pose proof (split_nonempty sep more) as Hne.
      destruct (PyStr.split sep more) as [| piece pieces];
        [congruence | reflexivity].
Qed.

(** X1. [speaker_name, utt_index = key.split('_')] succeeds exactly on the
    keys [speaker_name + '_' + utt_index] whose two parts hold no
    underscore, and then gives the two parts back; any other key -- no
    underscore, or a speaker name with an underscore in it -- is a
    [ValueError] in the save loop. *)
Theorem unpack_key_exactly_one_underscore
  (key speaker_name utt_index : string) :
  unpack_key key = inr (speaker_name, utt_index)
  <-> key = (speaker_name ++ "_" ++ utt_index)%string
      /\ PyMore.contains "_" speaker_name = false
      /\ PyMore.contains "_" utt_index = false.
Proof.
  unfold unpack_key. split.
  - intros Hkey.
    pose proof (join_split "_" key) as Hjoin.
    pose proof (split_pieces_free "_" key) as Hfree.
    destruct (PyStr.split "_" key) as [| a [| b [| c more]]];
      try discriminate.
    injection Hkey as -> ->.
    pose proof (Forall_inv Hfree) as Ha.
    pose proof (Forall_inv (Forall_inv_tail Hfree)) as Hb.
    simpl in Hjoin, Ha, Hb. auto.
  - intros (-> & Hs & Hi). simpl.
    rewrite (split_append _ _ _ Hs), (split_free _ _ Hi). reflexivity.
Qed.

(** X2. The statistics and the frame-number dictionary of the
    single-cohort reader go to ['/'.join(save_path.split('/')[:-1])]: for a
    [save_path] that is a directory name [dir] followed by a last component
    without slash, that is [dir]; and a [save_path] written with a trailing
    slash is its own parent, so that the statistics then land inside
    [save_path]. *)
Theorem parent_drops_last_component (dir name : string)
  (Hname : PyMore.contains "/" name = false) :
  PyStr.parent (dir ++ "/" ++ name) = dir
  /\ PyStr.parent (dir ++ "/") = dir.
Proof.
  unfold PyStr.parent. split.
  - simpl. rewrite (split_last _ _ _ Hname), removelast_last.
    apply join_split.
  - assert (Hempty : PyMore.contains "/" "" = false) by reflexivity.
    rewrite (split_last _ dir "" Hempty), removelast_last.
    apply join_split.
Qed.

Lemma parent_drops_last_component_witness :
  PyMore.contains "/" "input" = false
  /\ PyStr.parent ("/data/train" ++ "/" ++ "input") = "/data/train"
  /\ PyStr.parent ("/data/train" ++ "/") = "/data/train".
Proof.
  assert (H : PyMore.contains "/" "input" = false) by reflexivity.
  split; [exact H |].
  exact (parent_drops_last_component "/data/train" "input" H).
Defined.

(** X3. The speaker name the readers derive from an HTK path,
    [basename(htk_path).split('.')[0]], is the file name up to its first
    dot: for the path [dir/name.rest] with no slash in [name] and [rest]
    and no dot in [name] it is [name], whatever dots [dir] and [rest]
    hold. *)
Theorem speaker_of_path_is_file_stem (dir name rest : string)
  (Hslash : PyMore.contains "/" name = false)
  (Hslash' : PyMore.contains "/" rest = false)
  (Hdot : PyMore.contains "." name = false) :
  PyStr.speaker_of_path (dir ++ "/" ++ name ++ "." ++ rest) = name.
Proof.
  unfold PyStr.speaker_of_path, PyStr.basename. simpl.
  assert (Hfile : PyMore.contains "/" (name ++ String "." rest) = false).
  { clear Hdot. induction name as [| c more IH]; simpl in *.
    - exact Hslash'.
    - apply orb_false_iff in Hslash. destruct Hslash as [Hc Hmore].
      rewrite Hc. apply IH. exact Hmore. }
  rewrite (split_last _ _ _ Hfile), last_last.
  rewrite (split_append _ _ _ Hdot). reflexivity.
Qed.

Lemma speaker_of_path_is_file_stem_witness :
  PyMore.contains "/" "S00M0001" = false
  /\ PyMore.contains "/" "mfc.htk" = false
  /\ PyMore.contains "." "S00M0001" = false
  /\ PyStr.speaker_of_path ("/csj.v1/htk" ++ "/" ++ "S00M0001" ++ "."
                            ++ "mfc.htk") = "S00M0001".
Proof.
  assert (H1 : PyMore.contains "/" "S00M0001" = false) by reflexivity.
  assert (H2 : PyMore.contains "/" "mfc.htk" = false) by reflexivity.
  assert (H3 : PyMore.contains "." "S00M0001" = false) by reflexivity.
  split; [exact H1 |]. split; [exact H2 |]. split; [exact H3 |].
  exact (speaker_of_path_is_file_stem "/csj.v1/htk" "S00M0001" "mfc.htk"
           H1 H2 H3).
Defined.

(** ** The characters of a string *)

Lemma continuations_cut (k : nat) :
  forall s bytes rest,
    PyStr.continuations k s = Some (bytes, rest) ->
    s = (bytes ++ rest)%string.
Proof.
  induction k as [| k IH]; intros s bytes rest H; simpl in H.
  - injection H as <- <-. reflexivity.
  - destruct s as [| b s']; [discriminate H |].
    destruct (PyStr.continuation b); [| discriminate H].
    destruct (PyStr.continuations k s') as [[bs r] |] eqn:Hk;
      [| discriminate H].
    injection H as <- <-. simpl. rewrite (IH _ _ _ Hk). reflexivity.
Qed.

Lemma first_char_cut (c : ascii) (rest ch rest' : string) :
  PyStr.first_char c rest = (ch, rest') ->
  String c rest = (ch ++ rest')%string.
Proof.
  unfold PyStr.first_char. intros H.
  destruct (PyStr.continuations (PyStr.following c) rest)
    as [[bs r] |] eqn:Hk.
  - destruct (PyStr.well_formed (String c bs)).
    + injection H as <- <-. simpl. rewrite (@continuations_cut _ _ _ _ Hk).
      reflexivity.
    + injection H as <- <-. reflexivity.
  - injection H as <- <-. reflexivity.
Qed.

Lemma length_append (a b : string) :
  String.length (a ++ b) = String.length a + String.length b.
Proof. induction a as [| x a IH]; simpl; [reflexivity | rewrite IH; lia]. Qed.

Lemma first_char_shorter (c : ascii) (rest ch rest' : string) :
  PyStr.first_char c rest = (ch, rest') ->
  String.length rest' <= String.length rest.
Proof.
  intros H. pose proof (@first_char_cut _ _ _ _ H) as Hcut.
  apply (f_equal String.length) in Hcut. rewrite length_append in Hcut.
  simpl in Hcut.
  assert (Hch : 1 <= String.length ch).
  { unfold PyStr.first_char in H.
    destruct (PyStr.continuations (PyStr.following c) rest) as [[bs r] |];
      [destruct (PyStr.well_formed (String c bs)) |];
      injection H as <- _; simpl; lia. }
  lia.
Qed.

(** There are no more characters than bytes. *)
Lemma chars_upto_length (n : nat) :
  forall s, List.length (PyStr.chars_upto n s) <= n.
Proof.
  induction n as [| n IH]; intros s; simpl; [lia |].
  destruct s as [| c rest]; simpl; [lia |].
  destruct (PyStr.first_char c rest) as [ch rest']. simpl.
  specialize (IH rest'). lia.
Qed.

Lemma index_beyond_length (s : string) (i : nat) :
  String.length s <= i -> PyStr.index s i = None.
Proof.
  intros Hlen. unfold PyStr.index, PyStr.chars. apply nth_error_None.
  pose proof (@chars_upto_length (String.length s) s). lia.
Qed.

Lemma concat_cons (ch : string) (chs : list string) :
  String.concat EmptyString (ch :: chs)
  = (ch ++ String.concat EmptyString chs)%string.
Proof.
  destruct chs as [| x rest]; simpl; [| reflexivity].
  induction ch as [| a ch IH]; simpl;
    [reflexivity | rewrite <- IH; reflexivity].
Qed.

(** Cutting a string into its characters loses nothing. *)
Lemma chars_upto_concat (n : nat) :
  forall s, String.length s <= n ->
    String.concat EmptyString (PyStr.chars_upto n s) = s.
Proof.
  induction n as [| n IH]; intros s Hlen.
  - destruct s; [reflexivity | simpl in Hlen; lia].
  - destruct s as [| c rest]; [reflexivity |].
    cbn [PyStr.chars_upto].
    destruct (PyStr.first_char c rest) as [ch rest'] eqn:Hfirst.
    rewrite concat_cons, IH.
    + symmetry. apply first_char_cut. exact Hfirst.
    + apply first_char_shorter in Hfirst. simpl in Hlen. lia.
Qed.

Lemma chars_concat (s : string) :
  String.concat EmptyString (PyStr.chars s) = s.
Proof. apply chars_upto_concat. lia. Qed.

Lemma continuations_then_ascii (a : ascii) (k : nat) :
  PyStr.continuation a = false ->
  forall s,
    PyStr.continuations k (s ++ String a EmptyString)
    = match PyStr.continuations k s with
      | Some (bytes, rest) =>
          Some (bytes, (rest ++ String a EmptyString)%string)
      | None => None
      end.
Proof.
  intros Ha. induction k as [| k IH]; intros s; simpl.
  - reflexivity.
  - destruct s as [| b s']; simpl.
    + rewrite Ha. reflexivity.
    + destruct (PyStr.continuation b); [| reflexivity].
      rewrite IH. destruct (PyStr.continuations k s') as [[bs r] |];
        reflexivity.
Qed.

Lemma first_char_then_ascii (a c : ascii) (rest : string) :
  PyStr.continuation a = false ->
  PyStr.first_char c (rest ++ String a EmptyString)
  = (fst (PyStr.first_char c rest),
     (snd (PyStr.first_char c rest) ++ String a EmptyString)%string).
Proof.
  intros Ha. unfold PyStr.first_char.
  rewrite (@continuations_then_ascii a _ Ha).
  destruct (PyStr.continuations (PyStr.following c) rest) as [[bs r] |];
    [destruct (PyStr.well_formed (String c bs)) |]; reflexivity.
Qed.

Lemma first_char_alone (a : ascii) :
  PyStr.first_char a EmptyString = (String a EmptyString, EmptyString).
Proof.
  unfold PyStr.first_char.
  destruct (PyStr.following a) as [| k]; simpl; reflexivity.
Qed.

Lemma chars_upto_nothing (n : nat) : PyStr.chars_upto n EmptyString = [].
Proof. destruct n; reflexivity. Qed.

Lemma chars_upto_step (n : nat) (c : ascii) (rest : string) :
  PyStr.chars_upto (S n) (String c rest)
  = fst (PyStr.first_char c rest)
      :: PyStr.chars_upto n (snd (PyStr.first_char c rest)).
Proof. simpl. destruct (PyStr.first_char c rest). reflexivity. Qed.

Lemma chars_upto_then_ascii (a : ascii) :
  PyStr.continuation a = false ->
  forall n s, String.length s <= n ->
    PyStr.chars_upto (S n) (s ++ String a EmptyString)
    = PyStr.chars_upto n s ++ [String a EmptyString].
Proof.
  intros Ha. induction n as [| n IH]; intros s Hlen.
  - destruct s; [| simpl in Hlen; lia]. simpl. rewrite first_char_alone.
    reflexivity.
  - destruct s as [| c rest].
    + simpl. rewrite first_char_alone, ?chars_upto_nothing. reflexivity.
    + change (String c rest ++ String a EmptyString)%string
        with (String c (rest ++ String a EmptyString)).
      rewrite (chars_upto_step (S n)), (chars_upto_step n).
      rewrite (@first_char_then_ascii a c rest Ha). cbn [fst snd].
      rewrite IH; [reflexivity |].
      destruct (PyStr.first_char c rest) as [ch rest'] eqn:Hfirst.
      apply first_char_shorter in Hfirst. simpl in Hlen |- *. lia.
Qed.

(** A byte of the ASCII range after [s] is one more character. *)
Lemma chars_then_ascii (a : ascii) (s : string) :
  PyStr.continuation a = false ->
  PyStr.chars (s ++ String a EmptyString)
  = PyStr.chars s ++ [String a EmptyString].
Proof.
  intros Ha. unfold PyStr.chars. rewrite length_append, Nat.add_comm.
  apply chars_upto_then_ascii; [exact Ha | lia].
Qed.

(** ** Errors and edge cases of the reading loops *)

Lemma mapR_app {A B : Type} (f : A -> result B) (xs ys : list A) :
  mapR f (xs ++ ys)
  = (let? front := mapR f xs in
     let? back := mapR f ys in
     inr (front ++ back)).
Proof.
  induction xs as [| x rest IH]; simpl.
  - destruct (mapR f ys); reflexivity.
  - destruct (f x) as [e | y]; simpl; [reflexivity |].
    rewrite IH. destruct (mapR f rest) as [e | front]; simpl;
      [reflexivity |].
    destruct (mapR f ys); reflexivity.
Qed.

Lemma foldR_app {A B : Type} (body : A -> B -> result A) (acc : A)
  (xs ys : list B) :
  foldR body acc (xs ++ ys)
  = (let? mid := foldR body acc xs in foldR body mid ys).
Proof.
  revert acc. induction xs as [| x rest IH]; intros acc; simpl.
  - reflexivity.
  - destruct (body acc x) as [e | acc']; simpl; [reflexivity | apply IH].
Qed.

Section ReaderEdges.
Context {F : Type} {SF : Scalar F}.
Variable utt_table : Type.
Variable segment_single :
  string -> string -> utt_table -> bool -> nat
  -> result (@Single.segmented F).
Variable segment_gender :
  string -> string -> utt_table -> string -> bool -> nat
  -> result (@Gender.segmented F).
Variable global_mean : list (@vec F) -> list nat -> result (@vec F).
Variable global_std :
  list (dict (@matrix F)) -> list nat -> @vec F -> result (@vec F).

(** X4. Without a [save_path] the single-cohort [read_htk] writes nothing,
    in training mode or not and whether it returns or raises: the log
    after the call is the log before it. *)
Theorem single_without_save_path_writes_nothing (heap : Single.allocator)
  (htk_paths : list string) (speaker_dict : dict utt_table)
  (global_norm is_training : bool) (train_mean train_std : option (@vec F))
  (log : list (io_event F)) :
  snd (Single.read_htk segment_single heap htk_paths speaker_dict
         global_norm is_training None train_mean train_std log)
  = log.
Proof.
  unfold Single.read_htk, Single.training_phase, bind, lift, ret.
  destruct (Single.read_files segment_single speaker_dict global_norm
                              htk_paths) as [e | return_list];
    [reflexivity |].
  destruct is_training; [| reflexivity].
  destruct (Single.train_statistics heap return_list) as [e | [m s]];
    reflexivity.
Qed.

(** X5. Without a [save_path] the per-gender [read_htk] writes nothing
    either, whatever [global_mean] and [global_std] compute. *)
Theorem gender_without_save_path_writes_nothing (htk_paths : list string)
  (speaker_dict : dict utt_table) (normalize : string) (is_training : bool)
  (stats : Gender.statistics) (log : list (io_event F)) :
  snd (Gender.read_htk segment_gender global_mean global_std htk_paths
         speaker_dict normalize is_training None stats log)
  = log.
Proof.
  unfold Gender.read_htk, Gender.train_statistics, bind, lift, ret.
  destruct (Gender.read_files segment_gender speaker_dict normalize
                              is_training htk_paths) as [e | [male female]];
    [reflexivity |].
  destruct is_training; [| reflexivity].
  destruct (global_mean (List.map Gender.train_mean_speaker male)
                        (List.map Gender.total_frame_num_speaker male))
    as [e | mm]; [reflexivity |].
  destruct (global_mean (List.map Gender.train_mean_speaker female)
                        (List.map Gender.total_frame_num_speaker female))
    as [e | mf]; [reflexivity |].
  destruct (global_std (List.map Gender.input_data_dict_speaker male)
                       (List.map Gender.total_frame_num_speaker male) mm)
    as [e | sm]; [reflexivity |].
  destruct (global_std (List.map Gender.input_data_dict_speaker female)
                       (List.map Gender.total_frame_num_speaker female) mf)
    as [e | sf]; reflexivity.
Qed.

(** X6. An HTK file whose speaker is not a key of [speaker_dict] stops
    either reader with the [KeyError] of that speaker name, once the files
    before it have been read, and before anything is written -- also when
    the files after it are in order, and also in a run that would not
    normalise or save. *)
Theorem missing_speaker_is_key_error :
  (forall (heap : Single.allocator) (before after : list string)
          (p : string) (speaker_dict : dict utt_table)
          (global_norm is_training : bool) (save_path : option string)
          (train_mean train_std : option (@vec F))
          (done : list Single.segmented) (log : list (io_event F)),
      Single.read_files segment_single speaker_dict global_norm before
      = inr done ->
      dict_get speaker_dict (PyStr.speaker_of_path p) = None ->
      Single.read_htk segment_single heap (before ++ p :: after)
                      speaker_dict global_norm is_training save_path
                      train_mean train_std log
      = (inl (KeyError (PyStr.speaker_of_path p)), log))
  /\ (forall (before after : list string) (p : string)
             (speaker_dict : dict utt_table) (normalize : string)
             (is_training : bool) (save_path : option string)
             (stats : Gender.statistics)
             (done : list Gender.segmented * list Gender.segmented)
             (log : list (io_event F)),
         Gender.read_files segment_gender speaker_dict normalize
                           is_training before = inr done ->
         dict_get speaker_dict (PyStr.speaker_of_path p) = None ->
         Gender.read_htk segment_gender global_mean global_std
                         (before ++ p :: after) speaker_dict normalize
                         is_training save_path stats log
         = (inl (KeyError (PyStr.speaker_of_path p)), log)).
Proof.
  split.
  - intros heap before after p speaker_dict global_norm is_training
      save_path train_mean train_std done log Hbefore Hmissing.
    unfold Single.read_htk.
    assert (Hread : Single.read_files segment_single speaker_dict
                      global_norm (before ++ p :: after)
                    = inl (KeyError (PyStr.speaker_of_path p))).
    { unfold Single.read_files in *. rewrite mapR_app, Hbefore. simpl.
      unfold dict_lookup. rewrite Hmissing. reflexivity. }
    rewrite Hread. reflexivity.
  - intros before after p speaker_dict normalize is_training save_path
      stats done log Hbefore Hmissing.
    unfold Gender.read_htk.
    assert (Hread : Gender.read_files segment_gender speaker_dict normalize
                      is_training (before ++ p :: after)
                    = inl (KeyError (PyStr.speaker_of_path p))).
    { unfold Gender.read_files in *. rewrite foldR_app, Hbefore. simpl.
      unfold Gender.read_one, dict_lookup. destruct done as [male female].
      rewrite Hmissing. reflexivity. }
    rewrite Hread. reflexivity.
Qed.

(** X7. In the per-gender reader an HTK file whose speaker name has fewer
    than four characters (no more than three bytes, here) stops the run
    with an [IndexError] ([speaker_name[3]]) after the file has been looked
    up and segmented, and before anything is written. *)
Theorem short_speaker_name_is_index_error (before after : list string)
  (p : string) (speaker_dict : dict utt_table) (normalize : string)
  (is_training : bool) (save_path : option string)
  (stats : Gender.statistics)
  (done : list Gender.segmented * list Gender.segmented)
  (table : utt_table) (r : Gender.segmented) (log : list (io_event F))
  (Hbefore : Gender.read_files segment_gender speaker_dict normalize
               is_training before = inr done)
  (Htable : dict_get speaker_dict (PyStr.speaker_of_path p) = Some table)
  (Hsegmented : segment_gender p (PyStr.speaker_of_path p) table normalize
                               is_training 0 = inr r)
  (Hshort : String.length (PyStr.speaker_of_path p) <= 3) :
  Gender.read_htk segment_gender global_mean global_std
                  (before ++ p :: after) speaker_dict normalize is_training
                  save_path stats log
  = (inl IndexError, log).
Proof.
  unfold Gender.read_htk.
  assert (Hread : Gender.read_files segment_gender speaker_dict normalize
                    is_training (before ++ p :: after)
                  = inl IndexError).
  { unfold Gender.read_files in *. rewrite foldR_app, Hbefore. simpl.
    unfold Gender.read_one, dict_lookup. destruct done as [male female].
    rewrite Htable. simpl. rewrite Hsegmented. simpl.
    unfold Gender.gender_of.
    rewrite (@index_beyond_length _ 3 Hshort). reflexivity. }
  rewrite Hread. reflexivity.
Qed.

(** X8. The per-gender [read_htk] returns the statistics it has computed:
    after a training run that returns, the four values are the results of
    [global_mean] and [global_std] on the male and on the female lists, the
    std of each gender computed from the mean of that gender; after a
    non-training run they are the four arguments. *)
Theorem gender_read_htk_returns_statistics (htk_paths : list string)
  (speaker_dict : dict utt_table) (normalize : string) (is_training : bool)
  (save_path : option string) (stats returned : Gender.statistics)
  (male female : list Gender.segmented) (log log' : list (io_event F))
  (Hread : Gender.read_files segment_gender speaker_dict normalize
             is_training htk_paths = inr (male, female))
  (Hrun : Gender.read_htk segment_gender global_mean global_std htk_paths
            speaker_dict normalize is_training save_path stats log
          = (inr returned, log')) :
  if is_training then
    exists mean_male mean_female std_male std_female,
      global_mean (List.map Gender.train_mean_speaker male)
                  (List.map Gender.total_frame_num_speaker male)
      = inr mean_male
      /\ global_mean (List.map Gender.train_mean_speaker female)
                     (List.map Gender.total_frame_num_speaker female)
         = inr mean_female
      /\ global_std (List.map Gender.input_data_dict_speaker male)
                    (List.map Gender.total_frame_num_speaker male)
                    mean_male
         = inr std_male
      /\ global_std (List.map Gender.input_data_dict_speaker female)
                    (List.map Gender.total_frame_num_speaker female)
                    mean_female
         = inr std_female
      /\ returned = {| Gender.train_mean_male := Some mean_male;
                       Gender.train_mean_female := Some mean_female;
                       Gender.train_std_male := Some std_male;
                       Gender.train_std_female := Some std_female |}
  else returned = stats.
Proof.
  unfold Gender.read_htk in Hrun. rewrite Hread in Hrun.
  apply bind_inr in Hrun. destruct Hrun as ([m f] & l1 & Hl & Hrun).
  apply lift_inr in Hl. destruct Hl as [Hl ->]. injection Hl as <- <-.
  apply bind_inr in Hrun. destruct Hrun as (st & l2 & Hst & Hrun).
  apply bind_inr in Hrun. destruct Hrun as (u & l3 & _ & Hrun).
  apply ret_inr in Hrun. destruct Hrun as [-> _].
  destruct is_training.
  - unfold Gender.train_statistics in Hst.
    apply bind_inr in Hst. destruct Hst as (mm & k1 & H1 & Hst).
    apply lift_inr in H1. destruct H1 as [H1 ->].
    apply bind_inr in Hst. destruct Hst as (mf & k2 & H2 & Hst).
    apply lift_inr in H2. destruct H2 as [H2 ->].
    apply bind_inr in Hst. destruct Hst as (sm & k3 & H3 & Hst).
    apply lift_inr in H3. destruct H3 as [H3 ->].
    apply bind_inr in Hst. destruct Hst as (sf & k4 & H4 & Hst).
    apply lift_inr in H4. destruct H4 as [H4 ->].
    apply bind_inr in Hst. destruct Hst as (u' & k5 & _ & Hst).
    apply ret_inr in Hst. destruct Hst as [-> _].
    exists mm, mf, sm, sf. auto.
  - apply ret_inr in Hst. apply Hst.
Qed.

End ReaderEdges.

Lemma missing_speaker_is_key_error_witness :
  (exists done,
      Single.read_files Corpus.segment_single Corpus.speaker_dict true
                        [Corpus.man] = inr done
      /\ dict_get Corpus.speaker_dict
                  (PyStr.speaker_of_path "/csj/htk/S99M0009.htk") = None
      /\ Single.read_htk Corpus.segment_single Corpus.zeroed
           ([Corpus.man] ++ "/csj/htk/S99M0009.htk" :: [Corpus.woman])
           Corpus.speaker_dict true true (Some "/data/train/input") None
           None []
         = (inl (KeyError (PyStr.speaker_of_path "/csj/htk/S99M0009.htk")),
            []))
  /\ (exists done,
         Gender.read_files Corpus.segment_gender Corpus.speaker_dict
                           "global" true [Corpus.man] = inr done
         /\ Gender.read_htk Corpus.segment_gender Design.pass1 Design.pass2
              ([Corpus.man] ++ "/csj/htk/S99M0009.htk" :: [Corpus.woman])
              Corpus.speaker_dict "global" true (Some "/data/train")
              Corpus.no_statistics []
            = (inl (KeyError
                      (PyStr.speaker_of_path "/csj/htk/S99M0009.htk")),
               [])).
Proof.
  assert (Hmissing :
    dict_get Corpus.speaker_dict
             (PyStr.speaker_of_path "/csj/htk/S99M0009.htk") = None)
    by reflexivity.
  split.
  - eexists.
    assert (Hbefore :
      Single.read_files Corpus.segment_single Corpus.speaker_dict true
                        [Corpus.man]
      = inr [ {| Single.seg_input_data_dict :=
                   [("S00M0001_0", [[2%float]; [2%float]; [2%float]])];
                 Single.seg_train_mean := [6%float];
                 Single.seg_train_std := [];
                 Single.seg_total_frame_num := 3 |} ])
      by (vm_compute; reflexivity).
    split; [exact Hbefore |]. split; [exact Hmissing |].
    exact (proj1 (@missing_speaker_is_key_error float binary64 _
                    Corpus.segment_single Corpus.segment_gender
                    Design.pass1 Design.pass2)
             Corpus.zeroed [Corpus.man] [Corpus.woman]
             "/csj/htk/S99M0009.htk" Corpus.speaker_dict true true
             (Some "/data/train/input") None None _ [] Hbefore Hmissing).
  - eexists.
    assert (Hbefore :
      Gender.read_files Corpus.segment_gender Corpus.speaker_dict "global"
                        true [Corpus.man]
      = inr ([ {| Gender.input_data_dict_speaker :=
                    [("S00M0001_0", [[2%float]; [2%float]; [2%float]])];
                  Gender.train_mean_speaker := [6%float];
                  Gender.total_frame_num_speaker := 3 |} ], []))
      by (vm_compute; reflexivity).
    split; [exact Hbefore |].
    exact (proj2 (@missing_speaker_is_key_error float binary64 _
                    Corpus.segment_single Corpus.segment_gender
                    Design.pass1 Design.pass2)
             [Corpus.man] [Corpus.woman] "/csj/htk/S99M0009.htk"
             Corpus.speaker_dict "global" true (Some "/data/train")
             Corpus.no_statistics _ [] Hbefore Hmissing).
Defined.

Lemma short_speaker_name_is_index_error_witness :
  Gender.read_files Corpus.segment_gender
    (("m01", []) :: Corpus.speaker_dict) "global" true [Corpus.man]
  = inr ([ {| Gender.input_data_dict_speaker :=
                [("S00M0001_0", [[2%float]; [2%float]; [2%float]])];
              Gender.train_mean_speaker := [6%float];
              Gender.total_frame_num_speaker := 3 |} ], [])
  /\ dict_get (("m01", []) :: Corpus.speaker_dict)
              (PyStr.speaker_of_path "/csj/htk/m01.htk") = Some []
  /\ Corpus.segment_gender "/csj/htk/m01.htk"
       (PyStr.speaker_of_path "/csj/htk/m01.htk") [] "global" true 0
     = inr {| Gender.input_data_dict_speaker := [];
              Gender.train_mean_speaker := [];
              Gender.total_frame_num_speaker := 0 |}
  /\ String.length (PyStr.speaker_of_path "/csj/htk/m01.htk") <= 3
  /\ Gender.read_htk Corpus.segment_gender Design.pass1 Design.pass2
       ([Corpus.man] ++ "/csj/htk/m01.htk" :: [Corpus.woman])
       (("m01", []) :: Corpus.speaker_dict) "global" true
       (Some "/data/train") Corpus.no_statistics []
     = (inl IndexError, []).
Proof.
  assert (Hbefore :
    Gender.read_files Corpus.segment_gender
      (("m01", []) :: Corpus.speaker_dict) "global" true [Corpus.man]
    = inr ([ {| Gender.input_data_dict_speaker :=
                  [("S00M0001_0", [[2%float]; [2%float]; [2%float]])];
                Gender.train_mean_speaker := [6%float];
                Gender.total_frame_num_speaker := 3 |} ], []))
    by (vm_compute; reflexivity).
  assert (Htable :
    dict_get (("m01", []) :: Corpus.speaker_dict)
             (PyStr.speaker_of_path "/csj/htk/m01.htk") = Some [])
    by reflexivity.
  assert (Hseg :
    Corpus.segment_gender "/csj/htk/m01.htk"
      (PyStr.speaker_of_path "/csj/htk/m01.htk") [] "global" true 0
    = inr {| Gender.input_data_dict_speaker := [];
             Gender.train_mean_speaker := [];
             Gender.total_frame_num_speaker := 0 |})
    by reflexivity.
  assert (Hshort :
    String.length (PyStr.speaker_of_path "/csj/htk/m01.htk") <= 3)
    by (simpl; lia).
  split; [exact Hbefore |]. split; [exact Htable |].
  split; [exact Hseg |]. split; [exact Hshort |].
  exact (@short_speaker_name_is_index_error float binary64 _
           Corpus.segment_gender Design.pass1 Design.pass2
           [Corpus.man] [Corpus.woman] "/csj/htk/m01.htk"
           (("m01", []) :: Corpus.speaker_dict) "global" true
           (Some "/data/train") Corpus.no_statistics _ _ _ [] Hbefore
           Htable Hseg Hshort).
Defined.

Lemma gender_read_htk_returns_statistics_witness :
  exists male female returned,
    Gender.read_files Corpus.segment_gender Corpus.speaker_dict "global"
      true [Corpus.man; Corpus.man2; Corpus.woman] = inr (male, female)
    /\ Gender.read_htk Corpus.segment_gender Design.pass1 Design.pass2
         [Corpus.man; Corpus.man2; Corpus.woman] Corpus.speaker_dict
         "global" true None Corpus.no_statistics []
       = (inr returned, [])
    /\ exists mean_male mean_female std_male std_female,
         Design.pass1 (List.map Gender.train_mean_speaker male)
                      (List.map Gender.total_frame_num_speaker male)
         = inr mean_male
         /\ Design.pass1 (List.map Gender.train_mean_speaker female)
                         (List.map Gender.total_frame_num_speaker female)
            = inr mean_female
         /\ Design.pass2 (List.map Gender.input_data_dict_speaker male)
                         (List.map Gender.total_frame_num_speaker male)
                         mean_male
            = inr std_male
         /\ Design.pass2 (List.map Gender.input_data_dict_speaker female)
                         (List.map Gender.total_frame_num_speaker female)
                         mean_female
            = inr std_female
         /\ returned = {| Gender.train_mean_male := Some mean_male;
                          Gender.train_mean_female := Some mean_female;
                          Gender.train_std_male := Some std_male;
                          Gender.train_std_female := Some std_female |}.
Proof.
  eexists. eexists. eexists.
  assert (Hread :
    Gender.read_files Corpus.segment_gender Corpus.speaker_dict "global"
      true [Corpus.man; Corpus.man2; Corpus.woman]
    = inr ([ {| Gender.input_data_dict_speaker :=
                  [("S00M0001_0", [[2%float]; [2%float]; [2%float]])];
                Gender.train_mean_speaker := [6%float];
                Gender.total_frame_num_speaker := 3 |};
             {| Gender.input_data_dict_speaker :=
                  [("S01M0004_0", [[8%float]; [8%float]])];
                Gender.train_mean_speaker := [16%float];
                Gender.total_frame_num_speaker := 2 |} ],
           [ {| Gender.input_data_dict_speaker :=
                  [("S00F0002_0", [[8%float]; [8%float]])];
                Gender.train_mean_speaker := [16%float];
                Gender.total_frame_num_speaker := 2 |} ]))
    by (vm_compute; reflexivity).
  assert (Hrun :
    Gender.read_htk Corpus.segment_gender Design.pass1 Design.pass2
      [Corpus.man; Corpus.man2; Corpus.woman] Corpus.speaker_dict
      "global" true None Corpus.no_statistics []
    = (inr {| Gender.train_mean_male := Some [4.4000000000000004%float];
              Gender.train_mean_female := Some [8%float];
              Gender.train_std_male := Some [2.9393876913398138%float];
              Gender.train_std_female := Some [0%float] |}, []))
    by (vm_compute; reflexivity).
  split; [exact Hread |]. split; [exact Hrun |].
  exact (@gender_read_htk_returns_statistics float binary64 _
           Corpus.segment_gender Design.pass1 Design.pass2
           [Corpus.man; Corpus.man2; Corpus.woman] Corpus.speaker_dict
           "global" true None Corpus.no_statistics _ _ _ [] [] Hread Hrun).
Defined.

(** ** What a run writes *)

Section SaveLoopForward.
Context {F : Type}.
Variable body :
  dict nat -> string * list (list F) -> M (io_event F) (dict nat).
Variable save_path : string.
Variable prepare : string * list (list F) -> list (list F).

(** A loop body that saves [prepare item] for every [item] of the list
    saves them all, in order. *)
Lemma save_dict_loop_runs (input_data_dict : dict (list (list F))) :
  (forall frame_num_dict item log,
      In item input_data_dict ->
      body frame_num_dict item log
      = (inr (dict_set frame_num_dict (fst item)
                       (List.length (prepare item))),
         log ++ utterance_events save_path (fst item, prepare item))) ->
  forall frame_num_dict log,
    foldM body frame_num_dict input_data_dict log
    = (inr (assign_all
              (List.map (fun item => (fst item, prepare item))
                        input_data_dict)
              frame_num_dict),
       log ++ List.flat_map (utterance_events save_path)
                (List.map (fun item => (fst item, prepare item))
                          input_data_dict)).
Proof.
  induction input_data_dict as [| item rest IH]; intros Hbody fnd log;
    simpl.
  - unfold ret, assign_all. simpl. rewrite app_nil_r. reflexivity.
  - unfold bind. rewrite (Hbody fnd item log (or_introl eq_refl)).
    rewrite IH by (intros f i l Hi; apply Hbody; right; exact Hi).
    rewrite <- app_assoc. reflexivity.
Qed.

Lemma save_all_loop_runs (dicts : list (dict (list (list F)))) :
  (forall frame_num_dict item log,
      In item (List.concat dicts) ->
      body frame_num_dict item log
      = (inr (dict_set frame_num_dict (fst item)
                       (List.length (prepare item))),
         log ++ utterance_events save_path (fst item, prepare item))) ->
  forall frame_num_dict log,
    foldM (fun frame_num_dict input_data_dict =>
             foldM body frame_num_dict input_data_dict)
          frame_num_dict dicts log
    = (inr (assign_all
              (List.map (fun item => (fst item, prepare item))
                        (List.concat dicts))
              frame_num_dict),
       log ++ List.flat_map (utterance_events save_path)
                (List.map (fun item => (fst item, prepare item))
                          (List.concat dicts))).
Proof.
  induction dicts as [| d rest IH]; intros Hbody fnd log; simpl.
  - unfold ret, assign_all. simpl. rewrite app_nil_r. reflexivity.
  - unfold bind at 1.
    rewrite save_dict_loop_runs
      by (intros f i l Hi; apply Hbody; apply in_or_app; left; exact Hi).
    rewrite IH
      by (intros f i l Hi; apply Hbody; apply in_or_app; right; exact Hi).
    rewrite map_app, flat_map_app, <- app_assoc.
    unfold assign_all. rewrite fold_left_app. reflexivity.
Qed.

End SaveLoopForward.

Lemma map_fst_snd_id {A B : Type} (l : list (A * B)) :
  List.map (fun item => (fst item, snd item)) l = l.
Proof.
  induction l as [| [a b] rest IH]; simpl; [reflexivity |].
  rewrite IH. reflexivity.
Qed.

Section CompleteRuns.
Context {F : Type} {SF : Scalar F}.
Variable utt_table : Type.
Variable segment_single :
  string -> string -> utt_table -> bool -> nat
  -> result (@Single.segmented F).
Variable segment_gender :
  string -> string -> utt_table -> string -> bool -> nat
  -> result (@Gender.segmented F).
Variable global_mean : list (@vec F) -> list nat -> result (@vec F).
Variable global_std :
  list (dict (@matrix F)) -> list nat -> @vec F -> result (@vec F).

(** X9. Called with no HTK file, the single-cohort reader raises an
    [IndexError] in training mode ([train_mean_list[0]]) and writes
    nothing; out of training mode and with a [save_path] it returns its
    arguments and writes one thing, an empty frame-number dictionary. *)
Theorem single_read_htk_on_no_files (heap : Single.allocator)
  (speaker_dict : dict utt_table) (global_norm : bool)
  (save_path : option string) (save_dir : string)
  (train_mean train_std : option (@vec F)) (log : list (io_event F)) :
  Single.read_htk segment_single heap [] speaker_dict global_norm true
                  save_path train_mean train_std log
  = (inl IndexError, log)
  /\ Single.read_htk segment_single heap [] speaker_dict global_norm false
                     (Some save_dir) train_mean train_std log
     = (inr (train_mean, train_std),
        log ++ [PickleDump
                  (PyStr.path_join (PyStr.parent save_dir)
                                   "frame_num.pickle") []]).
Proof. split; reflexivity. Qed.

(** X10. Cross-cohort isolation in the save loop of the per-gender reader:
    what is saved for an utterance whose key names a male speaker depends
    on the male mean and std only, and for a female speaker on the female
    ones only -- two sets of statistics that agree on the gender of the
    speaker give the same outcome, the same saved matrix and the same
    dictionary entry. *)
Theorem save_utterance_uses_own_gender_only (normalize : string)
  (stats stats' : Gender.statistics) (save_path : string)
  (frame_num_dict : dict nat) (key speaker_name utt_index : string)
  (utt : @matrix F) (g : Gender.gender) (log : list (io_event F))
  (Hkey : unpack_key key = inr (speaker_name, utt_index))
  (Hgender : Gender.gender_of speaker_name = inr (Some g))
  (Hsame :
     match g with
     | Gender.Male =>
         Gender.train_mean_male stats = Gender.train_mean_male stats'
         /\ Gender.train_std_male stats = Gender.train_std_male stats'
     | Gender.Female =>
         Gender.train_mean_female stats = Gender.train_mean_female stats'
         /\ Gender.train_std_female stats = Gender.train_std_female stats'
     end) :
  Gender.save_utterance normalize stats save_path frame_num_dict
                        (key, utt) log
  = Gender.save_utterance normalize stats' save_path frame_num_dict
                          (key, utt) log.
Proof.
  unfold Gender.save_utterance, bind, lift. rewrite Hkey.
  destruct (String.eqb normalize "global"); [| reflexivity].
  rewrite Hgender. destruct g; destruct Hsame as [-> ->]; reflexivity.
Qed.

(** X11. Whatever the buffer of [np.empty] holds, the mean pass of the
    single-cohort reader returns (buffer + sum of the per-speaker sums) /
    total frame count: the sum is accumulated on top of the initial
    contents of the buffer, for sums of the feature dimension. *)
Theorem global_mean_pass_adds_to_buffer (heap : Single.allocator)
  (d total : nat) (return_list : list Single.segmented)
  (Hdim : Forall (fun r => List.length (Single.seg_train_mean r) = d)
                 return_list) :
  Single.global_mean_pass heap d total return_list
  = inr (vdiv_scalar
           (List.fold_left (zip_with fadd)
              (List.map Single.seg_train_mean return_list)
              (np_empty (Single.junk_mean heap) d))
           (of_count total)).
Proof.
  unfold Single.global_mean_pass.
  rewrite (@foldR_accumulate _ _ _ _ Single.seg_train_mean d).
  - reflexivity.
  - intros acc r Hr Hacc. apply broadcast_same_shape.
    rewrite Forall_forall in Hdim. rewrite (Hdim r Hr). exact Hacc.
  - exact Hdim.
  - apply np_empty_length.
Qed.

(** X12. The variance pass of the single-cohort reader, for well-segmented
    speakers and a mean of the feature dimension: the uninitialised
    [train_data_speaker] of every speaker is overwritten completely -- the
    result does not depend on what that buffer held -- while the
    accumulator [train_global_std] keeps its initial contents under the
    sum: the result is sqrt((buffer + sum over the speakers of their
    squared deviations) / total frame count). *)
Theorem global_std_pass_adds_to_buffer (heap : Single.allocator)
  (d total : nat) (return_list : list Single.segmented) (mean : @vec F)
  (Hwf : Forall (Single.well_segmented d) return_list)
  (Hmean : List.length mean = d) :
  Single.global_std_pass heap d total return_list mean
  = inr (List.map fpow_half
           (vdiv_scalar
              (List.fold_left (zip_with fadd)
                 (List.map (fun r => Design.sum_sq_dev d mean
                                       (Single.frames_of r))
                           return_list)
                 (np_empty (Single.junk_std heap) d))
              (of_count total))).
Proof.
  unfold Single.global_std_pass.
  rewrite (@foldR_accumulate _ _ _ _
             (fun p => Design.sum_sq_dev d mean (Single.frames_of (snd p)))
             d).
  - rewrite (map_snd_enumerate
               (fun r => Design.sum_sq_dev d mean (Single.frames_of r))).
    reflexivity.
  - intros acc [i r] Hin Hacc. apply in_enumerate in Hin.
    rewrite Forall_forall in Hwf. pose proof (Hwf r Hin) as Hr.
    rewrite (@speaker_squares_exact _ _ heap d i mean r Hr Hmean). simpl.
    apply broadcast_same_shape.
    rewrite sum_sq_dev_length; [exact Hacc | apply Hr | exact Hmean].
  - rewrite Forall_forall in *. intros [i r] Hin. apply in_enumerate in Hin.
    simpl. apply sum_sq_dev_length; [apply (Hwf r Hin) | exact Hmean].
  - apply np_empty_length.
Qed.

Lemma single_save_unchanged (stats : option (@vec F * @vec F))
  (save_path : string) (frame_num_dict : dict nat)
  (item : string * @matrix F) (log : list (io_event F)) :
  (exists speaker_name utt_index,
      unpack_key (fst item) = inr (speaker_name, utt_index)) ->
  Single.save_utterance false stats save_path frame_num_dict item log
  = (inr (dict_set frame_num_dict (fst item) (List.length (snd item))),
     log ++ utterance_events save_path (fst item, snd item)).
Proof.
  intros (spk & idx & Hkey). destruct item as [key utt]. simpl in *.
  unfold Single.save_utterance, utterance_events, bind, lift, ret, emit.
  simpl. rewrite Hkey. rewrite <- app_assoc. reflexivity.
Qed.

(** X13. With [global_norm] off the single-cohort reader saves the
    utterance matrices as [segment_htk] returned them: if the HTK files can
    be read, the statistics phase gets through and every key unpacks, the
    run with a [save_path] returns its arguments, and after the writes of
    the statistics phase the log holds every utterance of every speaker
    unchanged and in order, and last the frame-number dictionary of those
    utterances. *)
Theorem single_speaker_norm_saves_segments (heap : Single.allocator)
  (htk_paths : list string) (speaker_dict : dict utt_table)
  (is_training : bool) (save_path : string)
  (train_mean train_std : option (@vec F))
  (return_list : list Single.segmented)
  (stats : option (@vec F * @vec F)) (log mid : list (io_event F))
  (Hread : Single.read_files segment_single speaker_dict false htk_paths
           = inr return_list)
  (Hphase : Single.training_phase heap is_training (Some save_path)
                                  return_list log = (inr stats, mid))
  (Hkeys : well_keyed (Single.all_utterances return_list)) :
  Single.read_htk segment_single heap htk_paths speaker_dict false
                  is_training (Some save_path) train_mean train_std log
  = (inr (train_mean, train_std),
     mid ++ saved_log save_path
              (PyStr.path_join (PyStr.parent save_path) "frame_num.pickle")
              (Single.all_utterances return_list)).
Proof.
  unfold Single.read_htk. rewrite Hread.
  unfold bind at 1. unfold lift at 1.
  unfold bind at 1. rewrite Hphase.
  unfold bind at 1. unfold bind at 1.
  rewrite (@save_all_loop_runs F
             (Single.save_utterance false stats save_path) save_path snd).
  - unfold emit, ret, saved_log. rewrite map_fst_snd_id.
    fold (Single.all_utterances return_list).
    rewrite <- app_assoc. reflexivity.
  - intros fnd item l Hin. apply single_save_unchanged.
    unfold well_keyed in Hkeys. rewrite Forall_forall in Hkeys.
    apply Hkeys. exact Hin.
Qed.

Lemma single_save_normalised (mean std : @vec F) (d : nat)
  (save_path : string) (frame_num_dict : dict nat)
  (item : string * @matrix F) (log : list (io_event F)) :
  (exists speaker_name utt_index,
      unpack_key (fst item) = inr (speaker_name, utt_index)) ->
  Forall (fun row => List.length row = d) (snd item) ->
  List.length mean = d -> List.length std = d ->
  Single.save_utterance true (Some (mean, std)) save_path frame_num_dict
                        item log
  = (inr (dict_set frame_num_dict (fst item)
                   (List.length (centre_scale mean std (snd item)))),
     log ++ utterance_events save_path
              (fst item, centre_scale mean std (snd item))).
Proof.
  intros (spk & idx & Hkey) Hrows Hmean Hstd.
  destruct item as [key utt]. simpl in *.
  unfold Single.save_utterance, utterance_events, bind, lift, ret, emit.
  rewrite (@normalize_well_shaped _ _ false utt mean std d Hrows Hmean Hstd).
  simpl. rewrite Hkey. rewrite <- app_assoc. reflexivity.
Qed.

(** X14. A complete training run of the single-cohort reader with global
    normalisation: if the HTK files can be read, the statistics are
    computed as [(mean, std)], every utterance row has their width and
    every key unpacks, the run returns its arguments and writes exactly
    this, in this order: the mean and the std into the parent of
    [save_path], every utterance replaced by its element-wise
    [(x - mean) / std] under its key, and the frame-number dictionary. *)
Theorem single_training_run_log (heap : Single.allocator)
  (htk_paths : list string) (speaker_dict : dict utt_table)
  (save_path : string) (train_mean train_std : option (@vec F))
  (return_list : list Single.segmented) (mean std : @vec F) (d : nat)
  (log : list (io_event F))
  (Hread : Single.read_files segment_single speaker_dict true htk_paths
           = inr return_list)
  (Hstats : Single.train_statistics heap return_list = inr (mean, std))
  (Hrows : Forall (fun item =>
                     Forall (fun row => List.length row = d) (snd item))
                  (Single.all_utterances return_list))
  (Hmean : List.length mean = d) (Hstd : List.length std = d)
  (Hkeys : well_keyed (Single.all_utterances return_list)) :
  Single.read_htk segment_single heap htk_paths speaker_dict true true
                  (Some save_path) train_mean train_std log
  = (inr (train_mean, train_std),
     log
     ++ [ NpSaveVec (PyStr.path_join (PyStr.parent save_path)
                                     "train_mean.npy") mean;
          NpSaveVec (PyStr.path_join (PyStr.parent save_path)
                                     "train_std.npy") std ]
     ++ saved_log save_path
          (PyStr.path_join (PyStr.parent save_path) "frame_num.pickle")
          (List.map (fun item => (fst item, centre_scale mean std (snd item)))
                    (Single.all_utterances return_list))).
Proof.
  unfold Single.read_htk. rewrite Hread.
  unfold bind at 1. unfold lift at 1.
  unfold bind at 1. unfold Single.training_phase.
  unfold bind at 1. unfold lift at 1. rewrite Hstats.
  unfold bind at 1. unfold bind at 1. unfold emit at 1. unfold emit at 1.
  unfold ret at 1.
  unfold bind at 1. unfold bind at 1.
  rewrite (@save_all_loop_runs F
             (Single.save_utterance true (Some (mean, std)) save_path)
             save_path (fun item => centre_scale mean std (snd item))).
  - unfold emit, ret, saved_log.
    fold (Single.all_utterances return_list).
    rewrite <- !app_assoc. reflexivity.
  - intros fnd item l Hin.
    apply single_save_normalised with (d := d); try assumption.
    + unfold well_keyed in Hkeys. rewrite Forall_forall in Hkeys.
      apply Hkeys. exact Hin.
    + rewrite Forall_forall in Hrows. apply Hrows. exact Hin.
Qed.

Lemma gender_save_unchanged (normalize : string) (stats : Gender.statistics)
  (save_path : string) (frame_num_dict : dict nat)
  (item : string * @matrix F) (log : list (io_event F)) :
  String.eqb normalize "global" = false ->
  (exists speaker_name utt_index,
      unpack_key (fst item) = inr (speaker_name, utt_index)) ->
  Gender.save_utterance normalize stats save_path frame_num_dict item log
  = (inr (dict_set frame_num_dict (fst item) (List.length (snd item))),
     log ++ utterance_events save_path (fst item, snd item)).
Proof.
  intros Hmode (spk & idx & Hkey). destruct item as [key utt]. simpl in *.
  unfold Gender.save_utterance, utterance_events, bind, lift, ret, emit.
  simpl. rewrite Hkey, Hmode. rewrite <- app_assoc. reflexivity.
Qed.

(** X15. With a [normalize] other than ['global'] a non-training run of the
    per-gender reader needs no statistics: if the HTK files can be read and
    every key unpacks, the run with a [save_path] returns the statistics it
    was given and writes the utterances of the male, then of the female
    speakers as [segment_htk] returned them, and last their frame-number
    dictionary, into [save_path] itself. *)
Theorem gender_other_norm_saves_segments (htk_paths : list string)
  (speaker_dict : dict utt_table) (normalize : string) (save_path : string)
  (stats : Gender.statistics) (male female : list Gender.segmented)
  (log : list (io_event F))
  (Hmode : String.eqb normalize "global" = false)
  (Hread : Gender.read_files segment_gender speaker_dict normalize false
                             htk_paths = inr (male, female))
  (Hkeys : well_keyed (Gender.cohort_utterances male female)) :
  Gender.read_htk segment_gender global_mean global_std htk_paths
                  speaker_dict normalize false (Some save_path) stats log
  = (inr stats,
     log ++ saved_log save_path
              (PyStr.path_join save_path "frame_num.pickle")
              (Gender.cohort_utterances male female)).
Proof.
  unfold Gender.read_htk. rewrite Hread.
  unfold bind at 1. unfold lift at 1.
  unfold bind at 1. unfold ret at 1.
  unfold bind at 1. unfold Gender.save_input_data. unfold bind at 1.
  rewrite (@save_all_loop_runs F
             (Gender.save_utterance normalize stats save_path) save_path
             snd).
  - unfold emit, ret, saved_log. rewrite map_fst_snd_id.
    fold (Gender.cohort_utterances male female).
    rewrite <- app_assoc. reflexivity.
  - intros fnd item l Hin. apply gender_save_unchanged; [exact Hmode |].
    unfold well_keyed in Hkeys. rewrite Forall_forall in Hkeys.
    apply Hkeys. exact Hin.
Qed.

End CompleteRuns.

Ltac keys_unpack :=
  repeat (constructor; [do 2 eexists; reflexivity |]); constructor.

Lemma save_utterance_uses_own_gender_only_witness :
  unpack_key "S00M0001_0" = inr ("S00M0001", "0")
  /\ Gender.gender_of "S00M0001" = inr (Some Gender.Male)
  /\ (Gender.train_mean_male Corpus.male_statistics
      = Gender.train_mean_male
          {| Gender.train_mean_male := Some [4%float];
             Gender.train_mean_female := Some [9%float];
             Gender.train_std_male := Some [2%float];
             Gender.train_std_female := Some [3%float] |}
      /\ Gender.train_std_male Corpus.male_statistics
         = Gender.train_std_male
             {| Gender.train_mean_male := Some [4%float];
                Gender.train_mean_female := Some [9%float];
                Gender.train_std_male := Some [2%float];
                Gender.train_std_female := Some [3%float] |})
  /\ Gender.save_utterance "global" Corpus.male_statistics "/data/eval" []
       ("S00M0001_0", [[2%float]; [6%float]]) []
     = Gender.save_utterance "global"
         {| Gender.train_mean_male := Some [4%float];
            Gender.train_mean_female := Some [9%float];
            Gender.train_std_male := Some [2%float];
            Gender.train_std_female := Some [3%float] |}
         "/data/eval" [] ("S00M0001_0", [[2%float]; [6%float]]) [].
Proof.
  split; [reflexivity |]. split; [reflexivity |].
  split; [split; reflexivity |].
  exact (@save_utterance_uses_own_gender_only float binary64 "global"
           Corpus.male_statistics
           {| Gender.train_mean_male := Some [4%float];
              Gender.train_mean_female := Some [9%float];
              Gender.train_std_male := Some [2%float];
              Gender.train_std_female := Some [3%float] |}
           "/data/eval" [] "S00M0001_0" "S00M0001" "0"
           [[2%float]; [6%float]] Gender.Male [] eq_refl eq_refl
           (conj eq_refl eq_refl)).
Defined.

Lemma global_mean_pass_adds_to_buffer_witness :
  Forall (fun r => List.length (Single.seg_train_mean r) = 1) Corpus.cohort
  /\ Single.global_mean_pass Corpus.dirty 1 5 Corpus.cohort
     = inr (vdiv_scalar
              (List.fold_left (zip_with fadd)
                 (List.map Single.seg_train_mean Corpus.cohort)
                 (np_empty (Single.junk_mean Corpus.dirty) 1))
              (of_count 5)).
Proof.
  assert (Hdim : Forall (fun r : Single.segmented =>
                           List.length (Single.seg_train_mean r) = 1)
                        Corpus.cohort)
    by (repeat constructor).
  split; [exact Hdim |].
  exact (@global_mean_pass_adds_to_buffer float binary64 Corpus.dirty 1 5
           Corpus.cohort Hdim).
Defined.

Lemma global_std_pass_adds_to_buffer_witness :
  Forall (Single.well_segmented 1) Corpus.cohort
  /\ List.length [4%float] = 1
  /\ Single.global_std_pass
       {| Single.junk_mean := fun _ => 0%float;
          Single.junk_std := fun _ => 3%float;
          Single.junk_data := fun _ _ _ => 7%float |}
       1 5 Corpus.cohort [4%float]
     = inr (List.map fpow_half
              (vdiv_scalar
                 (List.fold_left (zip_with fadd)
                    (List.map (fun r => Design.sum_sq_dev 1 [4%float]
                                          (Single.frames_of r))
                              Corpus.cohort)
                    (np_empty (fun _ => 3%float) 1))
                 (of_count 5))).
Proof.
  split; [exact cohort_well_segmented |]. split; [reflexivity |].
  exact (@global_std_pass_adds_to_buffer float binary64
           {| Single.junk_mean := fun _ => 0%float;
              Single.junk_std := fun _ => 3%float;
              Single.junk_data := fun _ _ _ => 7%float |}
           1 5 Corpus.cohort [4%float] cohort_well_segmented eq_refl).
Defined.

Lemma single_speaker_norm_saves_segments_witness :
  Single.read_files Corpus.segment_single Corpus.speaker_dict false
                    [Corpus.man; Corpus.woman] = inr Corpus.cohort
  /\ Single.training_phase Corpus.zeroed false (Some "/data/eval/input")
                           Corpus.cohort [] = (inr None, [])
  /\ well_keyed (Single.all_utterances Corpus.cohort)
  /\ Single.read_htk Corpus.segment_single Corpus.zeroed
       [Corpus.man; Corpus.woman] Corpus.speaker_dict false false
       (Some "/data/eval/input") None None []
     = (inr (None, None),
        [] ++ saved_log "/data/eval/input"
                (PyStr.path_join (PyStr.parent "/data/eval/input")
                                 "frame_num.pickle")
                (Single.all_utterances Corpus.cohort)).
Proof.
  assert (Hread :
    Single.read_files Corpus.segment_single Corpus.speaker_dict false
                      [Corpus.man; Corpus.woman] = inr Corpus.cohort)
    by (vm_compute; reflexivity).
  assert (Hphase :
    Single.training_phase Corpus.zeroed false (Some "/data/eval/input")
                          Corpus.cohort [] = (inr None, []))
    by reflexivity.
  assert (Hkeys : well_keyed (Single.all_utterances Corpus.cohort))
    by (unfold well_keyed; simpl; keys_unpack).
  split; [exact Hread |]. split; [exact Hphase |]. split; [exact Hkeys |].
  exact (@single_speaker_norm_saves_segments float binary64 _
           Corpus.segment_single Corpus.zeroed [Corpus.man; Corpus.woman]
           Corpus.speaker_dict false "/data/eval/input" None None
           Corpus.cohort None [] [] Hread Hphase Hkeys).
Defined.

Lemma single_training_run_log_witness :
  Single.read_files Corpus.segment_single Corpus.speaker_dict true
                    [Corpus.man; Corpus.woman] = inr Corpus.cohort
  /\ Single.train_statistics Corpus.zeroed Corpus.cohort
     = inr ([4.4000000000000004%float], [2.9393876913398138%float])
  /\ Forall (fun item => Forall (fun row => List.length row = 1) (snd item))
            (Single.all_utterances Corpus.cohort)
  /\ well_keyed (Single.all_utterances Corpus.cohort)
  /\ Single.read_htk Corpus.segment_single Corpus.zeroed
       [Corpus.man; Corpus.woman] Corpus.speaker_dict true true
       (Some "/data/train/input") None None []
     = (inr (None, None),
        []
        ++ [ NpSaveVec (PyStr.path_join (PyStr.parent "/data/train/input")
                                        "train_mean.npy")
                       [4.4000000000000004%float];
             NpSaveVec (PyStr.path_join (PyStr.parent "/data/train/input")
                                        "train_std.npy")
                       [2.9393876913398138%float] ]
        ++ saved_log "/data/train/input"
             (PyStr.path_join (PyStr.parent "/data/train/input")
                              "frame_num.pickle")
             (List.map
                (fun item =>
                   (fst item,
                    centre_scale [4.4000000000000004%float]
                                 [2.9393876913398138%float] (snd item)))
                (Single.all_utterances Corpus.cohort))).
Proof.
  assert (Hread :
    Single.read_files Corpus.segment_single Corpus.speaker_dict true
                      [Corpus.man; Corpus.woman] = inr Corpus.cohort)
    by (vm_compute; reflexivity).
  assert (Hstats :
    Single.train_statistics Corpus.zeroed Corpus.cohort
    = inr ([4.4000000000000004%float], [2.9393876913398138%float]))
    by (vm_compute; reflexivity).
  assert (Hrows :
    Forall (fun item : string * @matrix float =>
              Forall (fun row => List.length row = 1) (snd item))
           (Single.all_utterances Corpus.cohort))
    by (simpl; repeat constructor).
  assert (Hkeys : well_keyed (Single.all_utterances Corpus.cohort))
    by (unfold well_keyed; simpl; keys_unpack).
  split; [exact Hread |]. split; [exact Hstats |]. split; [exact Hrows |].
  split; [exact Hkeys |].
  exact (@single_training_run_log float binary64 _ Corpus.segment_single
           Corpus.zeroed [Corpus.man; Corpus.woman] Corpus.speaker_dict
           "/data/train/input" None None Corpus.cohort
           [4.4000000000000004%float] [2.9393876913398138%float] 1 []
           Hread Hstats Hrows eq_refl eq_refl Hkeys).
Defined.

Lemma gender_other_norm_saves_segments_witness :
  exists male female,
    String.eqb "speaker" "global" = false
    /\ Gender.read_files Corpus.segment_gender Corpus.speaker_dict
         "speaker" false [Corpus.woman; Corpus.man] = inr (male, female)
    /\ well_keyed (Gender.cohort_utterances male female)
    /\ Gender.read_htk Corpus.segment_gender Design.pass1 Design.pass2
         [Corpus.woman; Corpus.man] Corpus.speaker_dict "speaker" false
         (Some "/data/eval") Corpus.no_statistics []
       = (inr Corpus.no_statistics,
          [] ++ saved_log "/data/eval"
                  (PyStr.path_join "/data/eval" "frame_num.pickle")
                  (Gender.cohort_utterances male female)).
Proof.
  eexists. eexists.
  assert (Hread :
    Gender.read_files Corpus.segment_gender Corpus.speaker_dict "speaker"
                      false [Corpus.woman; Corpus.man]
    = inr ([ {| Gender.input_data_dict_speaker :=
                  [("S00M0001_0", [[2%float]; [2%float]; [2%float]])];
                Gender.train_mean_speaker := [6%float];
                Gender.total_frame_num_speaker := 3 |} ],
           [ {| Gender.input_data_dict_speaker :=
                  [("S00F0002_0", [[8%float]; [8%float]])];
                Gender.train_mean_speaker := [16%float];
                Gender.total_frame_num_speaker := 2 |} ]))
    by (vm_compute; reflexivity).
  assert (Hkeys :
    well_keyed
      (@Gender.cohort_utterances float
         [ {| Gender.input_data_dict_speaker :=
                [("S00M0001_0", [[2%float]; [2%float]; [2%float]])];
              Gender.train_mean_speaker := [6%float];
              Gender.total_frame_num_speaker := 3 |} ]
         [ {| Gender.input_data_dict_speaker :=
                [("S00F0002_0", [[8%float]; [8%float]])];
              Gender.train_mean_speaker := [16%float];
              Gender.total_frame_num_speaker := 2 |} ]))
    by (unfold well_keyed; simpl; keys_unpack).
  split; [reflexivity |]. split; [exact Hread |]. split; [exact Hkeys |].
  exact (@gender_other_norm_saves_segments float binary64 _
           Corpus.segment_gender Design.pass1 Design.pass2
           [Corpus.woman; Corpus.man] Corpus.speaker_dict "speaker"
           "/data/eval" Corpus.no_statistics _ _ [] eq_refl Hread Hkeys).
Defined.

(* ================================================================== *)
(** * Properties of the TIMIT path preparation *)

(** ** [sorted] *)

Lemma ascii_compare_lt_trans (a b c : ascii) :
  Ascii.compare a b = Lt -> Ascii.compare b c = Lt ->
  Ascii.compare a c = Lt.
Proof.
  unfold Ascii.compare. rewrite !N.compare_lt_iff. apply N.lt_trans.
Qed.

Lemma string_compare_trans (s1 : string) :
  forall s2 s3,
    String.compare s1 s2 <> Gt -> String.compare s2 s3 <> Gt ->
    String.compare s1 s3 <> Gt.
Proof.
  induction s1 as [| c1 r1 IH]; intros [| c2 r2] [| c3 r3] H12 H23;
    simpl in *; try congruence.
  destruct (Ascii.compare c1 c2) eqn:E12; try congruence.
  - apply Ascii.compare_eq_iff in E12. subst c2.
    destruct (Ascii.compare c1 c3) eqn:E13; try congruence.
    apply (IH r2 r3); assumption.
  - destruct (Ascii.compare c2 c3) eqn:E23; try congruence.
    + apply Ascii.compare_eq_iff in E23. subst c3. rewrite E12. congruence.
    + rewrite (ascii_compare_lt_trans _ _ _ E12 E23). congruence.
Qed.

Lemma str_le_trans (a b c : string) :
  TimitShapes.str_le a b -> TimitShapes.str_le b c ->
  TimitShapes.str_le a c.
Proof.
  unfold TimitShapes.str_le, String.leb. intros Hab Hbc.
  pose proof (string_compare_trans a b c) as Ht.
  destruct (String.compare a b); destruct (String.compare b c);
    destruct (String.compare a c); try reflexivity; try discriminate;
    exfalso; apply Ht; congruence.
Qed.

Lemma str_le_total (a b : string) :
  String.leb a b = false -> TimitShapes.str_le b a.
Proof.
  intros Hab. destruct (String.leb_total a b) as [H | H];
    [congruence | exact H].
Qed.

Lemma insert_sorted_perm (x : string) (l : list string) :
  Permutation (x :: l) (PyMore.insert_sorted x l).
Proof.
  induction l as [| y rest IH]; simpl.
  - apply Permutation_refl.
  - destruct (String.leb x y); [apply Permutation_refl |].
    eapply perm_trans; [apply perm_swap |].
    apply perm_skip. exact IH.
Qed.

Lemma sorted_perm (l : list string) : Permutation l (PyMore.sorted l).
Proof.
  induction l as [| x rest IH]; simpl.
  - apply perm_nil.
  - eapply perm_trans; [apply perm_skip; exact IH |].
    apply insert_sorted_perm.
Qed.

Lemma insert_sorted_strongly (x : string) (l : list string) :
  StronglySorted TimitShapes.str_le l ->
  StronglySorted TimitShapes.str_le (PyMore.insert_sorted x l).
Proof.
  induction l as [| y rest IH]; intros Hl; simpl.
  - repeat constructor.
  - inversion Hl as [| ? ? Hrest Hall]; subst.
    destruct (String.leb x y) eqn:Hxy.
    + constructor; [exact Hl |].
      constructor; [exact Hxy |].
      rewrite Forall_forall in *. intros z Hz.
      apply (@str_le_trans x y z Hxy (Hall z Hz)).
    + constructor; [apply IH; exact Hrest |].
      rewrite Forall_forall in *. intros z Hz.
      apply (Permutation_in _ (Permutation_sym (insert_sorted_perm x rest)))
        in Hz.
      destruct Hz as [<- | Hz]; [apply str_le_total; exact Hxy |].
      apply Hall. exact Hz.
Qed.

Lemma sorted_strongly (l : list string) :
  StronglySorted TimitShapes.str_le (PyMore.sorted l).
Proof.
  induction l as [| x rest IH]; simpl.
  - constructor.
  - apply insert_sorted_strongly. exact IH.
Qed.

(** Two ascending lists with the same elements are the same list. *)
Lemma strongly_sorted_unique (l : list string) :
  forall l',
    StronglySorted TimitShapes.str_le l ->
    StronglySorted TimitShapes.str_le l' ->
    Permutation l l' -> l = l'.
Proof.
  induction l as [| x rest IH]; intros l' Hl Hl' Hperm.
  - apply Permutation_nil in Hperm. congruence.
  - destruct l' as [| y rest'].
    + apply Permutation_sym, Permutation_nil in Hperm. discriminate.
    + inversion Hl as [| ? ? Hrest Hall]; subst.
      inversion Hl' as [| ? ? Hrest' Hall']; subst.
      assert (Hxy : x = y).
      { rewrite Forall_forall in Hall, Hall'.
        assert (Hy : In y (x :: rest))
          by (apply (Permutation_in _ (Permutation_sym Hperm)); left;
              reflexivity).
        assert (Hx : In x (y :: rest'))
          by (apply (Permutation_in _ Hperm); left; reflexivity).
        destruct Hy as [Hy | Hy]; [exact Hy |].
        destruct Hx as [Hx | Hx]; [congruence |].
        apply String.leb_antisym; [apply Hall | apply Hall']; assumption. }
      subst y. f_equal. apply IH; try assumption.
      apply Permutation_cons_inv with (a := x). exact Hperm.
Qed.

Lemma sorted_of_permutation (l l' : list string) :
  Permutation l l' -> PyMore.sorted l = PyMore.sorted l'.
Proof.
  intros Hperm. apply strongly_sorted_unique; try apply sorted_strongly.
  eapply perm_trans; [apply Permutation_sym, sorted_perm |].
  eapply perm_trans; [exact Hperm | apply sorted_perm].
Qed.

(** ** The loops of [__make] *)

Lemma split_app_sep (sep : ascii) (a b : string) :
  PyStr.split sep (a ++ String sep b)
  = PyStr.split sep a ++ PyStr.split sep b.
Proof.
  induction a as [| c rest IH]; simpl.
  - rewrite Ascii.eqb_refl. reflexivity.
  - rewrite IH. destruct (Ascii.eqb c sep); [reflexivity |].
    pose proof (split_nonempty sep rest) as Hne.
    destruct (PyStr.split sep rest) as [| piece pieces];
      [congruence | reflexivity].
Qed.

Lemma last_three_app {A : Type} (l : list A) (a b c : A) :
  PyMore.last_three (l ++ [a; b; c]) = [a; b; c].
Proof.
  unfold PyMore.last_three. rewrite length_app. simpl.
  replace (List.length l + 3 - 3) with (List.length l + 0) by lia.
  rewrite skipn_app, Nat.add_0_r, skipn_all, Nat.sub_diag. reflexivity.
Qed.

(** X16. [file_path.split('/')[-3:]] on a path of the glob pattern: for
    [dir/region/speaker/file] with no slash in the last three components
    the loop sees exactly those three, whatever [dir] is -- the speaker
    name tested against the dev and test lists is the name of the
    directory that holds the file. *)
Theorem unpack_path_of_pattern (dir region speaker file : string)
  (Hregion : PyMore.contains "/" region = false)
  (Hspeaker : PyMore.contains "/" speaker = false)
  (Hfile : PyMore.contains "/" file = false) :
  Timit.unpack_path (dir ++ "/" ++ region ++ "/" ++ speaker ++ "/" ++ file)
  = inr (region, speaker, file).
Proof.
  unfold Timit.unpack_path. simpl.
  rewrite !split_app_sep.
  rewrite (split_free _ _ Hregion), (split_free _ _ Hspeaker),
    (split_free _ _ Hfile).
  simpl. rewrite last_three_app. reflexivity.
Qed.

Lemma unpack_path_of_pattern_witness :
  PyMore.contains "/" "dr1" = false
  /\ PyMore.contains "/" "fcjf0" = false
  /\ PyMore.contains "/" "sx307.wav" = false
  /\ Timit.unpack_path (Timit.train_data_path ++ "/" ++ "dr1" ++ "/"
                        ++ "fcjf0" ++ "/" ++ "sx307.wav")
     = inr ("dr1", "fcjf0", "sx307.wav").
Proof.
  assert (H1 : PyMore.contains "/" "dr1" = false) by reflexivity.
  assert (H2 : PyMore.contains "/" "fcjf0" = false) by reflexivity.
  assert (H3 : PyMore.contains "/" "sx307.wav" = false) by reflexivity.
  split; [exact H1 |]. split; [exact H2 |]. split; [exact H3 |].
  exact (@unpack_path_of_pattern Timit.train_data_path "dr1" "fcjf0"
           "sx307.wav" H1 H2 H3).
Defined.

Lemma visit_keeps (data_path : string) (speakers : option (list string))
  (lists : Timit.path_lists) (file_path : string) :
  TimitShapes.three_deep file_path = true ->
  exists lists',
    Timit.visit data_path speakers lists file_path = inr lists'
    /\ forall k,
         TimitShapes.paths_of k lists'
         = TimitShapes.paths_of k lists
           ++ (if TimitShapes.keeps speakers k file_path
               then [PyStr.path_join data_path file_path] else []).
Proof.
  unfold TimitShapes.three_deep, Timit.visit, TimitShapes.keeps.
  destruct (Timit.unpack_path file_path) as [e | [[region spk] file]];
    [discriminate |].
  intros _. simpl.
  destruct (match speakers with
            | Some names => PyMore.mem spk names
            | None => true
            end); simpl.
  2:{ eexists. split; [reflexivity |]. intros k.
      rewrite app_nil_r. reflexivity. }
  destruct (Timit.is_sx_or_si file); simpl.
  2:{ eexists. split; [reflexivity |]. intros k.
      rewrite app_nil_r. reflexivity. }
  destruct (Timit.kind_of_ext (PyMore.splitext_ext file)) as [k0 |].
  - eexists. split; [reflexivity |].
    intros k. destruct k0; destruct k; simpl; rewrite ?app_nil_r;
      reflexivity.
  - eexists. split; [reflexivity |]. intros k.
    rewrite app_nil_r. reflexivity.
Qed.

Lemma collect_from (data_path : string) (speakers : option (list string))
  (listing : list string) :
  Forall (fun p => TimitShapes.three_deep p = true) listing ->
  forall lists,
    exists lists',
      foldR (Timit.visit data_path speakers) lists listing = inr lists'
      /\ forall k,
           TimitShapes.paths_of k lists'
           = TimitShapes.paths_of k lists
             ++ List.map (PyStr.path_join data_path)
                  (List.filter (TimitShapes.keeps speakers k) listing).
Proof.
  induction listing as [| p rest IH]; intros Hdeep lists; simpl.
  - exists lists. split; [reflexivity |]. intros k.
    rewrite app_nil_r. reflexivity.
  - inversion Hdeep as [| ? ? Hp Hrest]; subst.
    destruct (@visit_keeps data_path speakers lists p Hp)
      as (mid & Hvisit & Hmid).
    rewrite Hvisit. simpl.
    destruct (IH Hrest mid) as (lists' & Hfold & Hlists').
    exists lists'. split; [exact Hfold |].
    intros k. rewrite Hlists', Hmid.
    destruct (TimitShapes.keeps speakers k p); simpl.
    + rewrite <- app_assoc. reflexivity.
    + rewrite app_nil_r. reflexivity.
Qed.

(** X17. One loop of [__make] over paths of at least three components
    raises nothing, and each of its four lists holds, in the order of the
    listing, exactly the listed files with the extension of that list
    ([.wav], [.txt], [.wrd], [.phn]) whose name begins with [sx] or [si]
    and, in the dev and test loops, whose speaker directory is in the
    speaker list; every path is stored joined to the data path. Files named
    otherwise -- the [sa] sentences -- are in none of the lists. *)
Theorem collect_keeps_matching_files (data_path : string)
  (speakers : option (list string)) (listing : list string)
  (Hdeep : Forall (fun p => TimitShapes.three_deep p = true) listing) :
  exists lists,
    Timit.collect data_path speakers listing = inr lists
    /\ forall k,
         TimitShapes.paths_of k lists
         = List.map (PyStr.path_join data_path)
             (List.filter (TimitShapes.keeps speakers k) listing).
Proof.
  unfold Timit.collect.
  destruct (@collect_from data_path speakers listing Hdeep Timit.no_paths)
    as (lists & Hfold & Hlists).
  exists lists. split; [exact Hfold |].
  intros k. rewrite Hlists. destruct k; reflexivity.
Qed.

(** A path with fewer than three components stops a loop of [__make]
    with a [ValueError] (the three-way unpacking), once the paths before it
    have been visited. *)
Theorem collect_shallow_path_is_value_error (data_path : string)
  (speakers : option (list string)) (before after : list string)
  (p : string)
  (Hbefore : Forall (fun q => TimitShapes.three_deep q = true) before)
  (Hshallow : TimitShapes.three_deep p = false) :
  Timit.collect data_path speakers (before ++ p :: after) = inl ValueError.
Proof.
  unfold Timit.collect. rewrite foldR_app.
  destruct (@collect_from data_path speakers before Hbefore Timit.no_paths)
    as (mid & Hfold & _).
  rewrite Hfold. simpl. unfold Timit.visit.
  unfold TimitShapes.three_deep in Hshallow.
  unfold Timit.unpack_path in *.
  destruct (PyMore.last_three (PyStr.split "/" p))
    as [| a [| b [| c [| d more]]]]; try discriminate; reflexivity.
Qed.

Lemma collect_only_three_deep (data_path : string)
  (speakers : option (list string)) (listing : list string) :
  forall lists lists',
    foldR (Timit.visit data_path speakers) lists listing = inr lists' ->
    Forall (fun p => TimitShapes.three_deep p = true) listing.
Proof.
  induction listing as [| p rest IH]; intros lists lists' Hrun;
    simpl in Hrun.
  - constructor.
  - apply bindR_inr in Hrun. destruct Hrun as (mid & Hvisit & Hrest).
    constructor; [| eapply IH; exact Hrest].
    unfold Timit.visit in Hvisit. unfold TimitShapes.three_deep.
    destruct (Timit.unpack_path p); [discriminate | reflexivity].
Qed.

Lemma collect_keeps_matching_files_witness :
  Forall (fun p => TimitShapes.three_deep p = true)
         TimitCorpus.train_listing
  /\ exists lists,
       Timit.collect Timit.train_data_path None TimitCorpus.train_listing
       = inr lists
       /\ forall k,
            TimitShapes.paths_of k lists
            = List.map (PyStr.path_join Timit.train_data_path)
                (List.filter (TimitShapes.keeps None k)
                             TimitCorpus.train_listing).
Proof.
  assert (Hdeep : Forall (fun p => TimitShapes.three_deep p = true)
                         TimitCorpus.train_listing)
    by (repeat constructor).
  split; [exact Hdeep |].
  exact (@collect_keeps_matching_files Timit.train_data_path None
           TimitCorpus.train_listing Hdeep).
Defined.

Lemma collect_shallow_path_is_value_error_witness :
  Forall (fun q => TimitShapes.three_deep q = true)
         TimitCorpus.train_listing
  /\ TimitShapes.three_deep "fcjf0/sx307.wav" = false
  /\ Timit.collect Timit.train_data_path None
       (TimitCorpus.train_listing ++ "fcjf0/sx307.wav" :: [])
     = inl ValueError.
Proof.
  assert (Hdeep : Forall (fun p => TimitShapes.three_deep p = true)
                         TimitCorpus.train_listing)
    by (repeat constructor).
  assert (Hshallow : TimitShapes.three_deep "fcjf0/sx307.wav" = false)
    by reflexivity.
  split; [exact Hdeep |]. split; [exact Hshallow |].
  exact (@collect_shallow_path_is_value_error Timit.train_data_path None
           TimitCorpus.train_listing [] "fcjf0/sx307.wav" Hdeep Hshallow).
Defined.

Lemma path_join_absolute (data_path file_path : string) :
  TimitShapes.absolute file_path = true ->
  PyStr.path_join data_path file_path = file_path.
Proof.
  unfold TimitShapes.absolute, PyStr.path_join.
  destruct file_path as [| c rest]; [discriminate |].
  destruct (Ascii.eqb_spec c "/") as [-> | Hne]; [reflexivity |].
  destruct c as [[] [] [] [] [] [] [] []]; try discriminate; congruence.
Qed.

Lemma kind_eqb_eq (a b : Timit.kind) : Timit.kind_eqb a b = true -> a = b.
Proof. destruct a; destruct b; simpl; congruence. Qed.

Lemma keeps_one_kind (speakers speakers' : option (list string))
  (k k' : Timit.kind) (p : string) :
  TimitShapes.keeps speakers k p = true ->
  TimitShapes.keeps speakers' k' p = true -> k = k'.
Proof.
  unfold TimitShapes.keeps.
  destruct (Timit.unpack_path p) as [e | [[region spk] file]];
    [discriminate |].
  intros H H'. apply andb_prop in H, H'. destruct H as [_ H], H' as [_ H'].
  destruct (Timit.kind_of_ext (PyMore.splitext_ext file)) as [k0 |];
    [| discriminate].
  apply kind_eqb_eq in H, H'. congruence.
Qed.

Lemma mem_in (x : string) (xs : list string) :
  PyMore.mem x xs = true -> In x xs.
Proof.
  unfold PyMore.mem. intros H. apply existsb_exists in H.
  destruct H as (y & Hy & Heq). apply String.eqb_eq in Heq. congruence.
Qed.

(** The speaker directory of a kept file is in the speaker list. *)
Lemma keeps_listed (names : list string) (k : Timit.kind) (p : string) :
  TimitShapes.keeps (Some names) k p = true ->
  exists region speaker file,
    Timit.unpack_path p = inr (region, speaker, file) /\ In speaker names.
Proof.
  unfold TimitShapes.keeps.
  destruct (Timit.unpack_path p) as [e | [[region spk] file]];
    [discriminate |].
  intros H. apply andb_prop in H. destruct H as [H _].
  apply andb_prop in H. destruct H as [H _].
  exists region, spk, file. split; [reflexivity | apply mem_in; exact H].
Qed.

(** The members of a list of a loop over absolute paths. *)
Lemma collect_members (data_path : string)
  (speakers : option (list string)) (listing : list string)
  (lists : Timit.path_lists) (k : Timit.kind) (p : string) :
  Timit.collect data_path speakers listing = inr lists ->
  Forall (fun q => TimitShapes.absolute q = true) listing ->
  In p (TimitShapes.paths_of k lists) ->
  In p listing /\ TimitShapes.keeps speakers k p = true.
Proof.
  intros Hcollect Habs Hin.
  pose proof (@collect_only_three_deep data_path speakers listing
                Timit.no_paths lists Hcollect) as Hdeep.
  destruct (@collect_keeps_matching_files data_path speakers listing Hdeep)
    as (lists0 & Hc0 & Hlists).
  rewrite Hcollect in Hc0. injection Hc0 as <-.
  rewrite Hlists in Hin. apply in_map_iff in Hin.
  destruct Hin as (a & Hjoin & Ha). apply filter_In in Ha.
  destruct Ha as [Ha Hkeep].
  rewrite Forall_forall in Habs.
  rewrite (path_join_absolute data_path a (Habs a Ha)) in Hjoin.
  subst a. split; assumption.
Qed.

(** X18. The four lists of one loop of [__make] over absolute paths (as
    the glob of an absolute pattern lists them) share no path: a file is
    entered in at most one of the wav, text, word and phone lists. *)
Theorem lists_of_a_loop_are_disjoint (data_path : string)
  (speakers : option (list string)) (listing : list string)
  (lists : Timit.path_lists) (k k' : Timit.kind) (p : string)
  (Hcollect : Timit.collect data_path speakers listing = inr lists)
  (Habs : Forall (fun q => TimitShapes.absolute q = true) listing)
  (Hin : In p (TimitShapes.paths_of k lists))
  (Hin' : In p (TimitShapes.paths_of k' lists)) :
  k = k'.
Proof.
  destruct (@collect_members data_path speakers listing lists k p
              Hcollect Habs Hin) as [_ Hk].
  destruct (@collect_members data_path speakers listing lists k' p
              Hcollect Habs Hin') as [_ Hk'].
  exact (@keeps_one_kind speakers speakers k k' p Hk Hk').
Qed.

(** X19. No leak between the dev and the test set: when [__make] gets
    through, the glob of the test tree lists absolute paths, and no name
    is in both [dev_speaker_list.txt] and [test_speaker_list.txt] (lines
    stripped), then no path is in a dev list and in a test list, of
    whichever kinds; and every dev path lies in the directory of a listed
    dev speaker. *)
Theorem dev_and_test_do_not_overlap (glob : string -> list string)
  (read_lines : string -> list string) (self : Timit.Prepare)
  (Hmake : Timit.make glob read_lines = inr self)
  (Habs : Forall (fun q => TimitShapes.absolute q = true)
                 (glob (PyStr.path_join Timit.test_data_path "*/*/*")))
  (Hdisjoint :
     forall name,
       In name (Timit.read_speakers
                  (read_lines (PyStr.path_join Timit.run_root_path
                                               "dev_speaker_list.txt"))) ->
       In name (Timit.read_speakers
                  (read_lines (PyStr.path_join Timit.run_root_path
                                               "test_speaker_list.txt"))) ->
       False) :
  (forall k k' p,
      In p (TimitShapes.paths_of k (Timit.dev_paths self)) ->
      In p (TimitShapes.paths_of k' (Timit.test_paths self)) -> False)
  /\ (forall k p,
        In p (TimitShapes.paths_of k (Timit.dev_paths self)) ->
        exists region speaker file,
          Timit.unpack_path p = inr (region, speaker, file)
          /\ In speaker
               (Timit.read_speakers
                  (read_lines (PyStr.path_join Timit.run_root_path
                                               "dev_speaker_list.txt")))).
Proof.
  unfold Timit.make in Hmake.
  apply bindR_inr in Hmake. destruct Hmake as (train & _ & Hmake).
  apply bindR_inr in Hmake. destruct Hmake as (dev & Hdev & Hmake).
  apply bindR_inr in Hmake. destruct Hmake as (test & Htest & Hmake).
  injection Hmake as <-. simpl.
  split.
  - intros k k' p Hin Hin'.
    destruct (@collect_members _ _ _ _ k p Hdev Habs Hin) as [_ Hk].
    destruct (@collect_members _ _ _ _ k' p Htest Habs Hin') as [_ Hk'].
    apply keeps_listed in Hk, Hk'.
    destruct Hk as (r1 & s1 & f1 & Hu1 & Hs1).
    destruct Hk' as (r2 & s2 & f2 & Hu2 & Hs2).
    rewrite Hu1 in Hu2. injection Hu2 as _ <- _.
    exact (Hdisjoint s1 Hs1 Hs2).
  - intros k p Hin.
    destruct (@collect_members _ _ _ _ k p Hdev Habs Hin) as [_ Hk].
    apply keeps_listed in Hk. exact Hk.
Qed.

Lemma lists_of_a_loop_are_disjoint_witness :
  exists lists,
    Timit.collect Timit.train_data_path None TimitCorpus.train_listing
    = inr lists
    /\ Forall (fun q => TimitShapes.absolute q = true)
              TimitCorpus.train_listing
    /\ In "/n/sd8/inaguma/corpus/timit/original/train/dr1/fcjf0/sx307.wav"
          (TimitShapes.paths_of Timit.Wav lists)
    /\ Timit.Wav = Timit.Wav.
Proof.
  eexists.
  assert (Hcollect :
    Timit.collect Timit.train_data_path None TimitCorpus.train_listing
    = inr {| Timit.wav_paths :=
               [ "/n/sd8/inaguma/corpus/timit/original/train/dr1/fcjf0/sx307.wav";
                 "/n/sd8/inaguma/corpus/timit/original/train/dr1/fcjf0/si1027.wav" ];
             Timit.text_paths :=
               [ "/n/sd8/inaguma/corpus/timit/original/train/dr1/fcjf0/sx307.txt" ];
             Timit.word_paths := [];
             Timit.phone_paths :=
               [ "/n/sd8/inaguma/corpus/timit/original/train/dr1/fcjf0/si1027.phn" ] |})
    by (vm_compute; reflexivity).
  assert (Habs : Forall (fun q => TimitShapes.absolute q = true)
                        TimitCorpus.train_listing)
    by (repeat constructor).
  assert (Hin :
    In "/n/sd8/inaguma/corpus/timit/original/train/dr1/fcjf0/sx307.wav"
       (TimitShapes.paths_of Timit.Wav
          {| Timit.wav_paths :=
               [ "/n/sd8/inaguma/corpus/timit/original/train/dr1/fcjf0/sx307.wav";
                 "/n/sd8/inaguma/corpus/timit/original/train/dr1/fcjf0/si1027.wav" ];
             Timit.text_paths :=
               [ "/n/sd8/inaguma/corpus/timit/original/train/dr1/fcjf0/sx307.txt" ];
             Timit.word_paths := [];
             Timit.phone_paths :=
               [ "/n/sd8/inaguma/corpus/timit/original/train/dr1/fcjf0/si1027.phn" ] |}))
    by (left; reflexivity).
  split; [exact Hcollect |]. split; [exact Habs |]. split; [exact Hin |].
  exact (@lists_of_a_loop_are_disjoint Timit.train_data_path None
           TimitCorpus.train_listing _ Timit.Wav Timit.Wav _ Hcollect Habs
           Hin Hin).
Defined.

Lemma dev_and_test_do_not_overlap_witness :
  exists self,
    Timit.make TimitCorpus.glob TimitCorpus.read_lines = inr self
    /\ Forall (fun q => TimitShapes.absolute q = true)
              (TimitCorpus.glob
                 (PyStr.path_join Timit.test_data_path "*/*/*"))
    /\ (forall k k' p,
           In p (TimitShapes.paths_of k (Timit.dev_paths self)) ->
           In p (TimitShapes.paths_of k' (Timit.test_paths self)) -> False)
    /\ (forall k p,
           In p (TimitShapes.paths_of k (Timit.dev_paths self)) ->
           exists region speaker file,
             Timit.unpack_path p = inr (region, speaker, file)
             /\ In speaker
                  (Timit.read_speakers
                     (TimitCorpus.read_lines
                        (PyStr.path_join Timit.run_root_path
                                         "dev_speaker_list.txt")))).
Proof.
  destruct (Timit.make TimitCorpus.glob TimitCorpus.read_lines)
    as [e | self] eqn:Hmake; [vm_compute in Hmake; discriminate Hmake |].
  exists self.
  assert (Habs : Forall (fun q => TimitShapes.absolute q = true)
                        (TimitCorpus.glob
                           (PyStr.path_join Timit.test_data_path "*/*/*")))
    by (vm_compute; repeat constructor).
  assert (Hdisjoint :
    forall name,
      In name (Timit.read_speakers
                 (TimitCorpus.read_lines
                    (PyStr.path_join Timit.run_root_path
                                     "dev_speaker_list.txt"))) ->
      In name (Timit.read_speakers
                 (TimitCorpus.read_lines
                    (PyStr.path_join Timit.run_root_path
                                     "test_speaker_list.txt"))) ->
      False).
  { intros name H1 H2. vm_compute in H1, H2.
    destruct H1 as [<- | []].
    destruct H2 as [H | [H | []]]; discriminate H. }
  split; [reflexivity |]. split; [exact Habs |].
  exact (@dev_and_test_do_not_overlap TimitCorpus.glob
           TimitCorpus.read_lines self Hmake Habs Hdisjoint).
Defined.

(** ** The accessors *)


Lemma filter_perm {A : Type} (f : A -> bool) (l l' : list A) :
  Permutation l l' -> Permutation (List.filter f l) (List.filter f l').
Proof.
  induction 1 as [| x l l' _ IH | x y l | l l' l'' _ IH1 _ IH2]; simpl.
  - apply perm_nil.
  - destruct (f x); [apply perm_skip |]; exact IH.
  - destruct (f x); destruct (f y);
      try apply perm_swap; apply Permutation_refl.
  - eapply perm_trans; eassumption.
Qed.

Lemma collect_perm (data_path : string) (speakers : option (list string))
  (listing listing' : list string) (lists : Timit.path_lists) :
  Permutation listing listing' ->
  Timit.collect data_path speakers listing = inr lists ->
  exists lists',
    Timit.collect data_path speakers listing' = inr lists'
    /\ forall k,
         Permutation (TimitShapes.paths_of k lists)
                     (TimitShapes.paths_of k lists').
Proof.
  intros Hperm Hcollect.
  pose proof (@collect_only_three_deep data_path speakers listing
                Timit.no_paths lists Hcollect) as Hdeep.
  assert (Hdeep' : Forall (fun p => TimitShapes.three_deep p = true)
                          listing')
    by (eapply Permutation_Forall; eassumption).
  destruct (@collect_keeps_matching_files data_path speakers listing Hdeep)
    as (l0 & Hc0 & Hl0).
  rewrite Hcollect in Hc0. injection Hc0 as <-.
  destruct (@collect_keeps_matching_files data_path speakers listing'
              Hdeep') as (lists' & Hc' & Hl').
  exists lists'. split; [exact Hc' |].
  intros k. rewrite Hl0, Hl'.
  apply Permutation_map, filter_perm. exact Hperm.
Qed.

(** X21. The accessors do not depend on the order in which [glob] lists
    the files: if a second file system lists, for every pattern, the same
    paths in another order and [__make] gets through on the first, it gets
    through on the second, and every accessor returns the same list for
    every [data_type] on both. *)
Theorem accessors_ignore_glob_order (glob glob' : string -> list string)
  (read_lines : string -> list string) (self : Timit.Prepare)
  (Hperm : forall pattern, Permutation (glob pattern) (glob' pattern))
  (Hmake : Timit.make glob read_lines = inr self) :
  exists self',
    Timit.make glob' read_lines = inr self'
    /\ forall k data_type,
         TimitShapes.accessor k self' data_type
         = TimitShapes.accessor k self data_type.
Proof.
  unfold Timit.make in *.
  apply bindR_inr in Hmake. destruct Hmake as (train & Htrain & Hmake).
  apply bindR_inr in Hmake. destruct Hmake as (dev & Hdev & Hmake).
  apply bindR_inr in Hmake. destruct Hmake as (test & Htest & Hmake).
  injection Hmake as <-.
  destruct (@collect_perm _ _ _ _ _ (Hperm _) Htrain)
    as (train' & Htrain' & Ptrain).
  destruct (@collect_perm _ _ _ _ _ (Hperm _) Hdev)
    as (dev' & Hdev' & Pdev).
  destruct (@collect_perm _ _ _ _ _ (Hperm _) Htest)
    as (test' & Htest' & Ptest).
  rewrite Htrain'. cbn [bindR]. rewrite Hdev'. cbn [bindR].
  rewrite Htest'. cbn [bindR].
  eexists. split; [reflexivity |].
  intros k data_type.
  assert (Hacc : forall s,
    TimitShapes.accessor k s data_type
    = option_map (fun l => PyMore.sorted (TimitShapes.paths_of k l))
                 (Timit.of_data_type s data_type))
    by (intros s; destruct k; reflexivity).
  rewrite !Hacc. unfold Timit.of_data_type. simpl.
  destruct (String.eqb data_type "train"); simpl.
  { f_equal. apply sorted_of_permutation, Permutation_sym, Ptrain. }
  destruct (String.eqb data_type "dev"); simpl.
  { f_equal. apply sorted_of_permutation, Permutation_sym, Pdev. }
  destruct (String.eqb data_type "test"); simpl.
  { f_equal. apply sorted_of_permutation, Permutation_sym, Ptest. }
  reflexivity.
Qed.

Lemma accessors_ignore_glob_order_witness :
  exists self self',
    (forall pattern,
        Permutation (TimitCorpus.glob pattern)
                    (TimitCorpus.glob_shuffled pattern))
    /\ Timit.make TimitCorpus.glob TimitCorpus.read_lines = inr self
    /\ Timit.make TimitCorpus.glob_shuffled TimitCorpus.read_lines
       = inr self'
    /\ forall k data_type,
         TimitShapes.accessor k self' data_type
         = TimitShapes.accessor k self data_type.
Proof.
  assert (Hperm : forall pattern,
             Permutation (TimitCorpus.glob pattern)
                         (TimitCorpus.glob_shuffled pattern)).
  { intros pattern. unfold TimitCorpus.glob, TimitCorpus.glob_shuffled.
    destruct (String.eqb pattern
                (PyStr.path_join Timit.train_data_path "*/*/*"));
      [apply Permutation_rev |].
    destruct (String.eqb pattern
                (PyStr.path_join Timit.test_data_path "*/*/*"));
      [apply Permutation_rev | apply perm_nil]. }
  destruct (Timit.make TimitCorpus.glob TimitCorpus.read_lines)
    as [e | self] eqn:Hmake; [vm_compute in Hmake; discriminate Hmake |].
  destruct (@accessors_ignore_glob_order TimitCorpus.glob
              TimitCorpus.glob_shuffled TimitCorpus.read_lines self
              Hperm Hmake) as (self' & Hmake' & Hsame).
  exists self, self'.
  split; [exact Hperm |]. split; [reflexivity |].
  split; [exact Hmake' |]. exact Hsame.
Defined.

(** ** The speaker lists *)

Lemma drop_spaces_then_space (x : string) (chs : list string) :
  PyMore.isspace (PyStr.code_point x) = true ->
  List.rev (PyMore.drop_spaces (List.rev (PyMore.drop_spaces (chs ++ [x]))))
  = List.rev (PyMore.drop_spaces (List.rev (PyMore.drop_spaces chs))).
Proof.
  intros Hx. induction chs as [| y rest IH].
  - simpl. rewrite Hx. reflexivity.
  - cbn [app PyMore.drop_spaces].
    destruct (PyMore.isspace (PyStr.code_point y)) eqn:Hy; [exact IH |].
    change (y :: rest ++ [x]) with ((y :: rest) ++ [x]).
    rewrite rev_app_distr. cbn [rev app PyMore.drop_spaces].
    rewrite Hx. reflexivity.
Qed.

Lemma strip_trailing_space (s : string) (a : ascii) :
  PyStr.continuation a = false ->
  PyMore.isspace (PyStr.code_point (String a EmptyString)) = true ->
  PyMore.strip (s ++ String a EmptyString) = PyMore.strip s.
Proof.
  intros Ha Hspace. unfold PyMore.strip.
  rewrite (@chars_then_ascii a s Ha), (@drop_spaces_then_space _ _ Hspace).
  reflexivity.
Qed.

(** X22. The line ends of the speaker list files do not matter: names that
    carry no white space at either end ([strip] leaves them as they are),
    written one per line with a line feed (or a carriage return and a line
    feed) after each, are read back as those names, in their order. *)
Theorem speaker_lines_are_stripped (names : list string)
  (Hclean : Forall (fun name => PyMore.strip name = name) names) :
  Timit.read_speakers
    (List.map (fun name => (name ++ PyMore.newline)%string) names)
  = names
  /\ Timit.read_speakers
       (List.map (fun name =>
                    (name ++ String (Ascii.ascii_of_nat 13) PyMore.newline)
                    %string)
                 names)
     = names.
Proof.
  unfold Timit.read_speakers. split.
  - rewrite map_map.
    rewrite <- (map_id names) at 2. apply map_ext_in.
    intros name Hin. unfold PyMore.newline.
    rewrite strip_trailing_space by reflexivity.
    rewrite Forall_forall in Hclean. apply Hclean. exact Hin.
  - rewrite map_map.
    rewrite <- (map_id names) at 2. apply map_ext_in.
    intros name Hin. unfold PyMore.newline.
    change (name ++ String (Ascii.ascii_of_nat 13)
                      (String (Ascii.ascii_of_nat 10) EmptyString))%string
      with (name ++ (String (Ascii.ascii_of_nat 13) EmptyString
                     ++ String (Ascii.ascii_of_nat 10) EmptyString))%string.
    assert (Hassoc : forall a b c : string,
               (a ++ (b ++ c) = (a ++ b) ++ c)%string).
    { intros a b c. induction a as [| x a IH]; simpl;
        [reflexivity | rewrite IH; reflexivity]. }
    rewrite Hassoc.
    rewrite !strip_trailing_space by reflexivity.
    rewrite Forall_forall in Hclean. apply Hclean. exact Hin.
Qed.

Lemma speaker_lines_are_stripped_witness :
  Forall (fun name => PyMore.strip name = name) ["mwew0"; "mbdg0"]
  /\ Timit.read_speakers
       (List.map (fun name => (name ++ PyMore.newline)%string)
                 ["mwew0"; "mbdg0"])
     = ["mwew0"; "mbdg0"]
  /\ Timit.read_speakers
       (List.map (fun name =>
                    (name ++ String (Ascii.ascii_of_nat 13) PyMore.newline)
                    %string)
                 ["mwew0"; "mbdg0"])
     = ["mwew0"; "mbdg0"].
Proof.
  assert (Hclean : Forall (fun name => PyMore.strip name = name)
                          ["mwew0"; "mbdg0"])
    by (repeat constructor).
  split; [exact Hclean |].
  exact (@speaker_lines_are_stripped ["mwew0"; "mbdg0"] Hclean).
Defined.

(* ================================================================== *)
(** * The frame-number dictionary with repeated keys *)

Lemma dict_set_keys_present {V : Type} (d : dict V) (key : string) (v : V) :
  In key (dict_keys d) -> dict_keys (dict_set d key v) = dict_keys d.
Proof.
  induction d as [| [k w] rest IH]; simpl; intros Hin.
  - contradiction.
  - destruct (String.eqb_spec k key) as [-> | Hne]; [reflexivity |].
    simpl. f_equal. apply IH. destruct Hin as [Hk | Hin];
      [congruence | exact Hin].
Qed.

Lemma dict_set_keys {V : Type} (d : dict V) (key : string) (v : V) :
  (NoDup (dict_keys d) -> NoDup (dict_keys (dict_set d key v)))
  /\ forall k, In k (dict_keys (dict_set d key v))
               <-> In k (dict_keys d) \/ k = key.
Proof.
  destruct (in_dec string_dec key (dict_keys d)) as [Hin | Hfresh].
  - rewrite (dict_set_keys_present d key v Hin). split; [auto |].
    intros k. split; [auto |]. intros [H | ->]; assumption.
  - rewrite (dict_set_fresh d key v Hfresh). unfold dict_keys.
    rewrite map_app. simpl. split.
    + intros Hnodup. apply NoDup_app; [exact Hnodup | | ].
      * repeat constructor. intros [].
      * intros k Hk [<- | []]. exact (Hfresh Hk).
    + intros k. rewrite in_app_iff. simpl. intuition congruence.
Qed.

Lemma assign_all_keys {F : Type} (saved : dict (list (list F))) :
  forall start,
    (NoDup (dict_keys start) -> NoDup (dict_keys (assign_all saved start)))
    /\ forall k, In k (dict_keys (assign_all saved start))
                 <-> In k (dict_keys start) \/ In k (dict_keys saved).
Proof.
  unfold assign_all.
  induction saved as [| [key m] rest IH]; intros start; simpl.
  - split; [auto |]. intros k. intuition.
  - destruct (IH (dict_set start key (List.length m))) as [IHn IHk].
    destruct (dict_set_keys start key (List.length m)) as [Hn Hk].
    split.
    + intros Hnodup. apply IHn, Hn, Hnodup.
    + intros k. rewrite IHk, Hk. intuition.
Qed.

Section RepeatedKeys.
Context {F : Type} {SF : Scalar F}.
Variable utt_table : Type.
Variable segment_single :
  string -> string -> utt_table -> bool -> nat
  -> result (@Single.segmented F).
Variable segment_gender :
  string -> string -> utt_table -> string -> bool -> nat
  -> result (@Gender.segmented F).
Variable global_mean : list (@vec F) -> list nat -> result (@vec F).
Variable global_std :
  list (dict (@matrix F)) -> list nat -> @vec F -> result (@vec F).

(** X23. Whatever the utterance keys are -- also when two utterances share
    a key, as when an HTK file is listed twice -- a run of either reader
    with a [save_path] that returns ends its log with a frame-number
    dictionary in which no key occurs twice and whose keys are exactly the
    keys of the utterances of the speakers kept by the reader. *)
Theorem frame_number_dict_keys_are_distinct :
  (forall (heap : Single.allocator) (htk_paths : list string)
          (speaker_dict : dict utt_table)
          (global_norm is_training : bool) (save_path : string)
          (train_mean train_std : option (@vec F))
          (returned : option (@vec F) * option (@vec F))
          (return_list : list Single.segmented)
          (log log' : list (io_event F)),
      Single.read_files segment_single speaker_dict global_norm htk_paths
      = inr return_list ->
      Single.read_htk segment_single heap htk_paths speaker_dict
                      global_norm is_training (Some save_path)
                      train_mean train_std log = (inr returned, log') ->
      exists before index,
        log' = before
               ++ [PickleDump (PyStr.path_join (PyStr.parent save_path)
                                               "frame_num.pickle") index]
        /\ NoDup (dict_keys index)
        /\ forall key,
             In key (dict_keys index)
             <-> In key (dict_keys (Single.all_utterances return_list)))
  /\ (forall (htk_paths : list string) (speaker_dict : dict utt_table)
             (normalize : string) (is_training : bool) (save_path : string)
             (stats returned : Gender.statistics)
             (male female : list Gender.segmented)
             (log log' : list (io_event F)),
         Gender.read_files segment_gender speaker_dict normalize is_training
                           htk_paths = inr (male, female) ->
         Gender.read_htk segment_gender global_mean global_std htk_paths
                         speaker_dict normalize is_training (Some save_path)
                         stats log = (inr returned, log') ->
         exists before index,
           log' = before
                  ++ [PickleDump (PyStr.path_join save_path
                                                  "frame_num.pickle") index]
           /\ NoDup (dict_keys index)
           /\ forall key,
                In key (dict_keys index)
                <-> In key (dict_keys
                              (Gender.cohort_utterances male female))).
Proof.
  split.
  - intros heap htk_paths speaker_dict global_norm is_training save_path
      train_mean train_std returned return_list log log' Hread Hrun.
    unfold Single.read_htk in Hrun. rewrite Hread in Hrun.
    apply bind_inr in Hrun. destruct Hrun as (rl & l1 & Hl & Hrun).
    apply lift_inr in Hl. destruct Hl as [Hl ->]. injection Hl as <-.
    apply bind_inr in Hrun. destruct Hrun as (st & l2 & _ & Hrun).
    apply bind_inr in Hrun. destruct Hrun as (u & l3 & Hsave & Hrun).
    apply ret_inr in Hrun. destruct Hrun as [_ ->].
    apply bind_inr in Hsave. destruct Hsave as (fnd & l4 & Hloop & Hdump).
    apply emit_inr in Hdump. subst l3.
    apply (save_all_loop (@single_saves_one F SF global_norm st save_path))
      in Hloop.
    destruct Hloop as (saved & Hall & -> & ->).
    pose proof (emitted_all_keys Hall) as Hkeys.
    destruct (assign_all_keys saved []) as [Hnodup Hin].
    eexists. eexists. split; [reflexivity |].
    split; [apply Hnodup; constructor |].
    intros key. rewrite Hin. unfold Single.all_utterances. simpl. split.
    + intros [[] | H].
      exact (eq_ind _ (fun keys => In key keys) H _ Hkeys).
    + intros H. right.
      exact (eq_ind_r (fun keys => In key keys) H Hkeys).
  - intros htk_paths speaker_dict normalize is_training save_path stats
      returned male female log log' Hread Hrun.
    unfold Gender.read_htk in Hrun. rewrite Hread in Hrun.
    apply bind_inr in Hrun. destruct Hrun as ([m f] & l1 & Hl & Hrun).
    apply lift_inr in Hl. destruct Hl as [Hl ->]. injection Hl as <- <-.
    apply bind_inr in Hrun. destruct Hrun as (st & l2 & _ & Hrun).
    apply bind_inr in Hrun. destruct Hrun as (u & l3 & Hsave & Hrun).
    apply ret_inr in Hrun. destruct Hrun as [_ ->].
    unfold Gender.save_input_data in Hsave.
    apply bind_inr in Hsave. destruct Hsave as (fnd & l4 & Hloop & Hdump).
    apply emit_inr in Hdump. subst l3.
    apply (save_all_loop (@gender_saves_one F SF normalize st save_path))
      in Hloop.
    destruct Hloop as (saved & Hall & -> & ->).
    pose proof (emitted_all_keys Hall) as Hkeys.
    destruct (assign_all_keys saved []) as [Hnodup Hin].
    eexists. eexists. split; [reflexivity |].
    split; [apply Hnodup; constructor |].
    intros key. rewrite Hin. unfold Gender.cohort_utterances. simpl. split.
    + intros [[] | H].
      exact (eq_ind _ (fun keys => In key keys) H _ Hkeys).
    + intros H. right.
      exact (eq_ind_r (fun keys => In key keys) H Hkeys).
Qed.

End RepeatedKeys.

(** An HTK file listed twice: its utterance is saved twice under the same
    name, and the frame-number dictionary has one entry for it. *)
Example file_listed_twice :
  Single.read_htk Corpus.segment_single Corpus.zeroed
    [Corpus.woman; Corpus.woman] Corpus.speaker_dict false false
    (Some "/data/eval/input") None None []
  = (inr (None, None),
     [ Mkdir "/data/eval/input/S00F0002";
       NpSaveMat "/data/eval/input/S00F0002/S00F0002_0.npy"
         [[8%float]; [8%float]];
       Mkdir "/data/eval/input/S00F0002";
       NpSaveMat "/data/eval/input/S00F0002/S00F0002_0.npy"
         [[8%float]; [8%float]];
       PickleDump "/data/eval/frame_num.pickle" [("S00F0002_0", 2)] ]).
Proof. vm_compute. reflexivity. Qed.

Lemma frame_number_dict_keys_are_distinct_witness :
  (exists return_list before index,
      Single.read_files Corpus.segment_single Corpus.speaker_dict false
                        [Corpus.woman; Corpus.woman] = inr return_list
      /\ snd (Single.read_htk Corpus.segment_single Corpus.zeroed
                [Corpus.woman; Corpus.woman] Corpus.speaker_dict false
                false (Some "/data/eval/input") None None [])
         = before
           ++ [PickleDump (PyStr.path_join (PyStr.parent "/data/eval/input")
                                           "frame_num.pickle") index]
      /\ NoDup (dict_keys index)
      /\ forall key,
           In key (dict_keys index)
           <-> In key (dict_keys (Single.all_utterances return_list)))
  /\ (exists male female before index,
         Gender.read_files Corpus.segment_gender Corpus.speaker_dict
           "speaker" false [Corpus.man; Corpus.man] = inr (male, female)
         /\ snd (Gender.read_htk Corpus.segment_gender Design.pass1
                   Design.pass2 [Corpus.man; Corpus.man]
                   Corpus.speaker_dict "speaker" false (Some "/data/eval")
                   Corpus.no_statistics [])
            = before
              ++ [PickleDump (PyStr.path_join "/data/eval"
                                              "frame_num.pickle") index]
         /\ NoDup (dict_keys index)
         /\ forall key,
              In key (dict_keys index)
              <-> In key (dict_keys
                            (Gender.cohort_utterances male female))).
Proof.
  split.
  - destruct (Single.read_files Corpus.segment_single Corpus.speaker_dict
                false [Corpus.woman; Corpus.woman])
      as [e | return_list] eqn:Hread;
      [vm_compute in Hread; discriminate Hread |].
    assert (Hrun :
      Single.read_htk Corpus.segment_single Corpus.zeroed
        [Corpus.woman; Corpus.woman] Corpus.speaker_dict false false
        (Some "/data/eval/input") None None []
      = (inr (None, None),
         snd (Single.read_htk Corpus.segment_single Corpus.zeroed
                [Corpus.woman; Corpus.woman] Corpus.speaker_dict false
                false (Some "/data/eval/input") None None [])))
      by (vm_compute; reflexivity).
    destruct (proj1 (@frame_number_dict_keys_are_distinct float binary64 _
                       Corpus.segment_single Corpus.segment_gender
                       Design.pass1 Design.pass2)
                Corpus.zeroed [Corpus.woman; Corpus.woman]
                Corpus.speaker_dict false false "/data/eval/input" None
                None _ return_list [] _ Hread Hrun)
      as (before & index & Hlog & Hnodup & Hkeys).
    exists return_list, before, index. auto.
  - destruct (Gender.read_files Corpus.segment_gender Corpus.speaker_dict
                "speaker" false [Corpus.man; Corpus.man])
      as [e | [male female]] eqn:Hread;
      [vm_compute in Hread; discriminate Hread |].
    assert (Hrun :
      Gender.read_htk Corpus.segment_gender Design.pass1 Design.pass2
        [Corpus.man; Corpus.man] Corpus.speaker_dict "speaker" false
        (Some "/data/eval") Corpus.no_statistics []
      = (inr Corpus.no_statistics,
         snd (Gender.read_htk Corpus.segment_gender Design.pass1
                Design.pass2 [Corpus.man; Corpus.man] Corpus.speaker_dict
                "speaker" false (Some "/data/eval") Corpus.no_statistics
                [])))
      by (vm_compute; reflexivity).
    destruct (proj2 (@frame_number_dict_keys_are_distinct float binary64 _
                       Corpus.segment_single Corpus.segment_gender
                       Design.pass1 Design.pass2)
                [Corpus.man; Corpus.man] Corpus.speaker_dict "speaker"
                false "/data/eval" Corpus.no_statistics _ male female []
                _ Hread Hrun)
      as (before & index & Hlog & Hnodup & Hkeys).
    exists male, female, before, index. auto.
Defined.

(* ================================================================== *)
(** * A speaker without frames *)

Section EmptySpeaker.
Context {F : Type} {SF : Scalar F}.
Variable utt_table : Type.
Variable segment_single :
  string -> string -> utt_table -> bool -> nat
  -> result (@Single.segmented F).

Lemma std_loop_breaks (heap : Single.allocator) (d : nat) (mean : @vec F)
  (r0 : Single.segmented) (after : list Single.segmented) :
  List.length mean = d ->
  Single.seg_input_data_dict r0 = [] ->
  Single.seg_total_frame_num r0 = 0 ->
  forall before start acc,
    List.length acc = d ->
    Forall (Single.well_segmented d) before ->
    foldR (fun acc '(i, r) =>
             let? squares := Single.speaker_squares heap d mean i r in
             broadcast true fadd acc squares)
          acc
          (List.combine
             (List.seq start (List.length (before ++ r0 :: after)))
             (before ++ r0 :: after))
    = inl IndexError.
Proof.
  intros Hmean Hdict Hzero.
  induction before as [| r rest IH]; intros start acc Hacc Hwf; simpl.
  - unfold Single.speaker_squares, Single.fill_speaker.
    rewrite Hdict, Hzero. reflexivity.
  - inversion Hwf as [| ? ? Hr Hrest]; subst.
    rewrite (@speaker_squares_exact _ _ heap (List.length mean) start mean
               r Hr eq_refl).
    simpl.
    rewrite broadcast_same_shape
      by (rewrite sum_sq_dev_length;
          [exact Hacc | apply Hr | reflexivity]).
    simpl. apply IH; [| exact Hrest].
    rewrite zip_with_length, sum_sq_dev_length;
      [lia | apply Hr | reflexivity].
Qed.

(** X24. One speaker without frames breaks the training of the
    single-cohort reader: if [segment_htk] returns, for some file, no
    utterance and the frame count 0, and the speakers before it are well
    segmented, then the training run raises an [IndexError] (from
    [inputs[0]] in [sqrt_sum]) in the variance pass, and has written
    nothing -- no statistics, no utterance of any speaker. *)
Theorem speaker_without_frames_breaks_training (heap : Single.allocator)
  (htk_paths : list string) (speaker_dict : dict utt_table)
  (global_norm : bool) (save_path : option string)
  (train_mean train_std : option (@vec F))
  (before after : list Single.segmented) (r0 : Single.segmented) (d : nat)
  (log : list (io_event F))
  (Hread : Single.read_files segment_single speaker_dict global_norm
                             htk_paths = inr (before ++ r0 :: after))
  (Hbefore : Forall (Single.well_segmented d) before)
  (Hdim : Forall (fun r => List.length (Single.seg_train_mean r) = d)
                 (before ++ r0 :: after))
  (Hdict : Single.seg_input_data_dict r0 = [])
  (Hzero : Single.seg_total_frame_num r0 = 0) :
  Single.read_htk segment_single heap htk_paths speaker_dict global_norm
                  true save_path train_mean train_std log
  = (inl IndexError, log).
Proof.
  assert (Hstats : Single.train_statistics heap (before ++ r0 :: after)
                   = inl IndexError).
  { unfold Single.train_statistics.
    assert (Hfd : Single.feature_dim_of (before ++ r0 :: after) = inr d).
    { destruct before as [| b rest]; simpl in *;
        inversion Hdim; subst; reflexivity. }
    rewrite Hfd. cbn [bindR].
    rewrite (@global_mean_pass_adds_to_buffer _ _ heap d _ _ Hdim).
    cbn [bindR]. unfold Single.global_std_pass, enumerate.
    rewrite (@std_loop_breaks heap d _ r0 after); try assumption.
    - reflexivity.
    - unfold vdiv_scalar. rewrite length_map.
      apply fold_zip_length; [| apply np_empty_length].
      rewrite Forall_forall in *. intros v Hv. apply in_map_iff in Hv.
      destruct Hv as (r & <- & Hr). apply (Hdim r Hr).
    - apply np_empty_length. }
  unfold Single.read_htk. rewrite Hread.
  unfold bind at 1. unfold lift at 1.
  unfold bind at 1. unfold Single.training_phase.
  unfold bind at 1. unfold lift at 1. rewrite Hstats. reflexivity.
Qed.

End EmptySpeaker.

Lemma speaker_without_frames_breaks_training_witness :
  Single.read_files Corpus.segment_single
    (("S01M0004", []) :: Corpus.speaker_dict) true
    [Corpus.man; Corpus.man2; Corpus.woman]
  = inr ([ {| Single.seg_input_data_dict :=
                [("S00M0001_0", [[2%float]; [2%float]; [2%float]])];
              Single.seg_train_mean := [6%float];
              Single.seg_train_std := [];
              Single.seg_total_frame_num := 3 |} ]
         ++ {| Single.seg_input_data_dict := [];
               Single.seg_train_mean := [0%float];
               Single.seg_train_std := [];
               Single.seg_total_frame_num := 0 |}
            :: [ {| Single.seg_input_data_dict :=
                      [("S00F0002_0", [[8%float]; [8%float]])];
                    Single.seg_train_mean := [16%float];
                    Single.seg_train_std := [];
                    Single.seg_total_frame_num := 2 |} ])
  /\ Forall (Single.well_segmented 1)
            [ {| Single.seg_input_data_dict :=
                   [("S00M0001_0", [[2%float]; [2%float]; [2%float]])];
                 Single.seg_train_mean := [6%float];
                 Single.seg_train_std := [];
                 Single.seg_total_frame_num := 3 |} ]
  /\ Single.read_htk Corpus.segment_single Corpus.zeroed
       [Corpus.man; Corpus.man2; Corpus.woman]
       (("S01M0004", []) :: Corpus.speaker_dict) true true
       (Some "/data/train/input") None None []
     = (inl IndexError, []).
Proof.
  assert (Hread :
    Single.read_files Corpus.segment_single
      (("S01M0004", []) :: Corpus.speaker_dict) true
      [Corpus.man; Corpus.man2; Corpus.woman]
    = inr ([ {| Single.seg_input_data_dict :=
                  [("S00M0001_0", [[2%float]; [2%float]; [2%float]])];
                Single.seg_train_mean := [6%float];
                Single.seg_train_std := [];
                Single.seg_total_frame_num := 3 |} ]
           ++ {| Single.seg_input_data_dict := [];
                 Single.seg_train_mean := [0%float];
                 Single.seg_train_std := [];
                 Single.seg_total_frame_num := 0 |}
              :: [ {| Single.seg_input_data_dict :=
                        [("S00F0002_0", [[8%float]; [8%float]])];
                      Single.seg_train_mean := [16%float];
                      Single.seg_train_std := [];
                      Single.seg_total_frame_num := 2 |} ]))
    by (vm_compute; reflexivity).
  assert (Hbefore :
    Forall (Single.well_segmented 1)
           [ {| Single.seg_input_data_dict :=
                  [("S00M0001_0", [[2%float]; [2%float]; [2%float]])];
                Single.seg_train_mean := [6%float];
                Single.seg_train_std := [];
                Single.seg_total_frame_num := 3 |} ])
    by (unfold Single.well_segmented, Single.frames_of; simpl;
        repeat constructor).
  split; [exact Hread |]. split; [exact Hbefore |].
  refine (@speaker_without_frames_breaks_training float binary64 _
            Corpus.segment_single Corpus.zeroed
            [Corpus.man; Corpus.man2; Corpus.woman]
            (("S01M0004", []) :: Corpus.speaker_dict) true
            (Some "/data/train/input") None None _ _ _ 1 [] Hread Hbefore
            _ eq_refl eq_refl).
  repeat constructor.
Defined.

(* ================================================================== *)
(** * The order of the per-gender reader *)

Section GenderOrder.
Context {F : Type} {SF : Scalar F}.
Variable utt_table : Type.
Variable segment_gender :
  string -> string -> utt_table -> string -> bool -> nat
  -> result (@Gender.segmented F).

Lemma read_files_from (speaker_dict : dict utt_table) (normalize : string)
  (is_training : bool) (seg : string -> Gender.segmented)
  (htk_paths : list string) :
  (forall p, In p htk_paths ->
     (exists table,
         dict_get speaker_dict (PyStr.speaker_of_path p) = Some table
         /\ segment_gender p (PyStr.speaker_of_path p) table normalize
                           is_training 0 = inr (seg p))
     /\ exists g, Gender.gender_of (PyStr.speaker_of_path p) = inr g) ->
  forall male female,
    foldR (Gender.read_one segment_gender speaker_dict normalize
                           is_training)
          (male, female) htk_paths
    = inr (male ++ List.map seg
                     (List.filter (GenderShapes.of_gender Gender.Male)
                                  htk_paths),
           female ++ List.map seg
                       (List.filter (GenderShapes.of_gender Gender.Female)
                                    htk_paths)).
Proof.
  induction htk_paths as [| p rest IH]; intros Hok male female; simpl.
  - rewrite !app_nil_r. reflexivity.
  - destruct (Hok p (or_introl eq_refl)) as ((table & Ht & Hs) & g & Hg).
    unfold Gender.read_one at 1. unfold dict_lookup.
    rewrite Ht. cbn [bindR]. rewrite Hs. cbn [bindR]. rewrite Hg.
    cbn [bindR]. unfold GenderShapes.of_gender. rewrite Hg.
    assert (Hrest : forall q, In q rest ->
      (exists table,
          dict_get speaker_dict (PyStr.speaker_of_path q) = Some table
          /\ segment_gender q (PyStr.speaker_of_path q) table normalize
                            is_training 0 = inr (seg q))
      /\ exists g, Gender.gender_of (PyStr.speaker_of_path q) = inr g)
      by (intros q Hq; apply Hok; right; exact Hq).
    destruct g as [[|] |]; cbn [bindR]; rewrite (IH Hrest); simpl;
      rewrite <- ?app_assoc; reflexivity.
Qed.

(** X25. The per-gender reader regroups the speakers: when every HTK file
    can be looked up and segmented and every speaker name has a fourth
    character, the male list holds the segmented speakers with ['M'] as
    that character and the female list those with ['F'], each in the
    order of [htk_paths] -- so that the save loop writes the utterances of
    all men before those of any woman, whatever the order of
    [htk_paths]. *)
Theorem read_files_groups_by_gender (speaker_dict : dict utt_table)
  (normalize : string) (is_training : bool)
  (seg : string -> Gender.segmented) (htk_paths : list string)
  (Hok : forall p, In p htk_paths ->
     (exists table,
         dict_get speaker_dict (PyStr.speaker_of_path p) = Some table
         /\ segment_gender p (PyStr.speaker_of_path p) table normalize
                           is_training 0 = inr (seg p))
     /\ exists g, Gender.gender_of (PyStr.speaker_of_path p) = inr g) :
  Gender.read_files segment_gender speaker_dict normalize is_training
                    htk_paths
  = inr (List.map seg (List.filter (GenderShapes.of_gender Gender.Male)
                                   htk_paths),
         List.map seg (List.filter (GenderShapes.of_gender Gender.Female)
                                   htk_paths)).
Proof.
  unfold Gender.read_files.
  rewrite (@read_files_from speaker_dict normalize is_training seg
             htk_paths Hok [] []).
  reflexivity.
Qed.

End GenderOrder.

Lemma read_files_groups_by_gender_witness :
  (forall p, In p [Corpus.woman; Corpus.man; Corpus.other; Corpus.man2] ->
     (exists table,
         dict_get Corpus.speaker_dict (PyStr.speaker_of_path p) = Some table
         /\ Corpus.segment_gender p (PyStr.speaker_of_path p) table "global"
                                  true 0 = inr (Corpus.segmented_gender p))
     /\ exists g, Gender.gender_of (PyStr.speaker_of_path p) = inr g)
  /\ Gender.read_files Corpus.segment_gender Corpus.speaker_dict "global"
       true [Corpus.woman; Corpus.man; Corpus.other; Corpus.man2]
     = inr (List.map Corpus.segmented_gender
              (List.filter (GenderShapes.of_gender Gender.Male)
                 [Corpus.woman; Corpus.man; Corpus.other; Corpus.man2]),
            List.map Corpus.segmented_gender
              (List.filter (GenderShapes.of_gender Gender.Female)
                 [Corpus.woman; Corpus.man; Corpus.other; Corpus.man2])).
Proof.
  assert (Hok :
    forall p, In p [Corpus.woman; Corpus.man; Corpus.other; Corpus.man2] ->
      (exists table,
          dict_get Corpus.speaker_dict (PyStr.speaker_of_path p)
          = Some table
          /\ Corpus.segment_gender p (PyStr.speaker_of_path p) table
                                   "global" true 0
             = inr (Corpus.segmented_gender p))
      /\ exists g, Gender.gender_of (PyStr.speaker_of_path p) = inr g).
  { intros p [<- | [<- | [<- | [<- | []]]]];
      (split; [eexists; split; vm_compute; reflexivity
              | eexists; vm_compute; reflexivity]). }
  split; [exact Hok |].
  exact (@read_files_groups_by_gender float _ Corpus.segment_gender
           Corpus.speaker_dict "global" true Corpus.segmented_gender
           [Corpus.woman; Corpus.man; Corpus.other; Corpus.man2] Hok).
Defined.

(** The men come first in what is saved, although the woman is listed
    first. *)
Example men_are_saved_first :
  snd (Gender.read_htk Corpus.segment_gender Design.pass1 Design.pass2
         [Corpus.woman; Corpus.man] Corpus.speaker_dict "speaker" false
         (Some "/data/eval") Corpus.no_statistics [])
  = [ Mkdir "/data/eval/S00M0001";
      NpSaveMat "/data/eval/S00M0001/S00M0001_0.npy"
        [[2%float]; [2%float]; [2%float]];
      Mkdir "/data/eval/S00F0002";
      NpSaveMat "/data/eval/S00F0002/S00F0002_0.npy" [[8%float]; [8%float]];
      PickleDump "/data/eval/frame_num.pickle"
        [("S00M0001_0", 3); ("S00F0002_0", 2)] ].
Proof. vm_compute. reflexivity. Qed.
